(** * Paginated GitHub search collectors of lima-catalog

    A shallow embedding of the paginated collectors of
    [experiment_search.py] and [experiment_fork_search.py]
    ([search_code] in both files, [list_forks] in the second), together
    with the properties the specification states about them.

    The Python code talks to the outside world in three ways: it issues
    HTTP requests ([requests.get]), it pauses ([time.sleep]) and it
    prints.  The embedding threads a [World] that records these effects:
    a trace of network and clock events, and the text written to
    standard output.  Exceptions are an outcome of a computation; the
    world reached when the exception is raised is kept, so that the
    requests issued before a failure remain observable. *)

From Stdlib Require Import ZArith List String Ascii Bool Lia QArith DecimalString.
From Stdlib Require Import Sorted Permutation.
Import ListNotations.

Local Open Scope string_scope.
Local Open Scope list_scope.
Local Open Scope Z_scope.

(** ** Python values and helpers *)

(** [len(xs)], a Python integer. *)
Definition len {A : Type} (xs : list A) : Z := Z.of_nat (List.length xs).

(** [not xs] for a list [xs]: true exactly on the empty list. *)
Definition is_empty {A : Type} (xs : list A) : bool :=
  match xs with
  | [] => true
  | _ :: _ => false
  end.

(** [str(n)] for an integer [n]: decimal digits, with a minus sign when
    negative. *)
Definition str (n : Z) : string := NilZero.string_of_int (Z.to_int n).

(** [d.get(key, default)] where the key may be absent. *)
Definition dict_get {A : Type} (field : option A) (default : A) : A :=
  match field with
  | Some v => v
  | None => default
  end.

Definition newline : string := String (ascii_of_nat 10) EmptyString.

(** ** HTTP: requests, responses, the remote service *)

(** Values of the [params] dictionary handed to [requests.get]. *)
Inductive Param : Type :=
| PStr (s : string)
| PInt (n : Z).

(** One call [requests.get(url, headers=..., params=...)].  Dictionaries
    keep their insertion order, as Python's do. *)
Record Request : Type := mkRequest {
  url : string;
  headers : list (string * string);
  params : list (string * Param)
}.

(** What the caller reads off a [requests.Response]: the status code and
    the decoded body.  [json = None] is a body that [response.json()]
    cannot decode.  The type [B] of decoded bodies depends on the
    endpoint. *)
Record Response (B : Type) : Type := mkResponse {
  status_code : Z;
  json : option B
}.
Arguments mkResponse {B} _ _.
Arguments status_code {B} _.
Arguments json {B} _.

(** The result of one HTTP exchange: the transport fails ([requests.get]
    itself raises), or a response comes back. *)
Inductive Reply (B : Type) : Type :=
| Failed
| Answer (r : Response B).
Arguments Failed {B}.
Arguments Answer {B} _.

(** The remote service.  Its reply may depend on the request and on how
    many requests it has served before (quota, changing data), so any
    sequence of page responses is a service. *)
Definition Service (B : Type) : Type := nat -> Request -> Reply B.

(** The body of the code-search endpoint: a JSON object whose [items]
    and [total_count] keys may each be absent.  When present they have
    the types the API gives them, a list of records and an integer. *)
Record SearchBody (Dict : Type) : Type := mkSearchBody {
  items : option (list Dict);
  total_count : option Z
}.
Arguments mkSearchBody {Dict} _ _.
Arguments items {Dict} _.
Arguments total_count {Dict} _.

(** ** Effects *)

Inductive Event : Type :=
| Get (r : Request)       (* requests.get *)
| Sleep (seconds : Q).    (* time.sleep *)

Record World : Type := mkWorld {
  trace : list Event;
  stdout : list string
}.

Definition World0 : World := mkWorld [] [].

Inductive Exn : Type :=
| ConnectionError            (* raised by requests.get *)
| HTTPError (status : Z)     (* raised by raise_for_status *)
| JSONDecodeError            (* raised by response.json *)
| TypeError.                 (* raised by len(None) *)

Inductive Outcome (A : Type) : Type :=
| Returned (a : A)
| Raised (e : Exn)
| OutOfFuel.
Arguments Returned {A} _.
Arguments Raised {A} _.
Arguments OutOfFuel {A}.

(** Computations with effects on the world that may raise. *)
Definition M (A : Type) : Type := World -> Outcome A * World.

Definition ret {A : Type} (a : A) : M A := fun w => (Returned a, w).

Definition raise {A : Type} (e : Exn) : M A := fun w => (Raised e, w).

Definition out_of_fuel {A : Type} : M A := fun w => (OutOfFuel, w).

Definition bind {A B : Type} (m : M A) (k : A -> M B) : M B :=
  fun w =>
    match m w with
    | (Returned a, w') => k a w'
    | (Raised e, w') => (Raised e, w')
    | (OutOfFuel, w') => (OutOfFuel, w')
    end.

Notation "x <- m ;; k" := (bind m (fun x => k))
  (at level 61, m at next level, right associativity).
Notation "m ;; k" := (bind m (fun _ => k))
  (at level 61, right associativity).

Definition is_get (e : Event) : bool :=
  match e with
  | Get _ => true
  | Sleep _ => false
  end.

(** The requests recorded in a trace, and their number. *)
Definition requests_of (t : list Event) : list Event := filter is_get t.

Definition n_requests (t : list Event) : nat := List.length (requests_of t).

Definition log (e : Event) (w : World) : World :=
  mkWorld (trace w ++ [e]) (stdout w).

(** [requests.get(url, headers=headers, params=params)] *)
Definition requests_get {B : Type} (service : Service B)
    (url : string) (headers : list (string * string))
    (params : list (string * Param)) : M (Response B) :=
  fun w =>
    let request := mkRequest url headers params in
    match service (n_requests (trace w)) request with
    | Failed => (Raised ConnectionError, log (Get request) w)
    | Answer response => (Returned response, log (Get request) w)
    end.

(** The statuses [Response.raise_for_status] rejects: client errors
    (4xx) and server errors (5xx). *)
Definition is_error_status (status : Z) : bool :=
  (400 <=? status) && (status <? 600).

(** [response.raise_for_status()] *)
Definition raise_for_status {B : Type} (response : Response B) : M unit :=
  if is_error_status (status_code response)
  then raise (HTTPError (status_code response))
  else ret tt.

(** [response.json()] *)
Definition response_json {B : Type} (response : Response B) : M B :=
  match json response with
  | Some data => ret data
  | None => raise JSONDecodeError
  end.

(** [time.sleep(seconds)] *)
Definition time_sleep (seconds : Q) : M unit :=
  fun w => (Returned tt, log (Sleep seconds) w).

(** [print(text, end=end_)] *)
Definition print_end (text end_ : string) : M unit :=
  fun w => (Returned tt, mkWorld (trace w) (stdout w ++ [(text ++ end_)%string])).

(** [print(text)] *)
Definition print (text : string) : M unit := print_end text newline.

(** ** experiment_search.py *)

Module ExperimentSearch.

Definition BASE_URL : string := "https://api.github.com".

(** The module-level [HEADERS], built once from the [GITHUB_TOKEN]
    environment variable (the empty string when unset). *)
Definition HEADERS (GITHUB_TOKEN : string) : list (string * string) :=
  [("Accept", "application/vnd.github.v3+json")] ++
  (if String.eqb GITHUB_TOKEN "" then []
   else [("Authorization", ("token " ++ GITHUB_TOKEN)%string)]).

Definition default_max_results : Z := 1000.

Section SearchCode.
Context {Dict : Type}.
Variable GITHUB_TOKEN : string.
Variable service : Service (SearchBody Dict).
Variable query : string.
Variable max_results : Z.

Definition per_page : Z := 100.

(** The [while] loop of [search_code]; [break] leaves the loop for the
    [return results] that follows it. *)
Fixpoint search_loop (fuel : nat) (results : list Dict) (page : Z)
    : M (list Dict) :=
  match fuel with
  | O => out_of_fuel
  | S fuel =>
    if len results <? max_results then
      let url := (BASE_URL ++ "/search/code")%string in
      let params := [("q", PStr query);
                     ("per_page", PInt per_page);
                     ("page", PInt page)] in
      print_end ("Fetching page " ++ str page ++ "...")%string " " ;;
      response <- requests_get service url (HEADERS GITHUB_TOKEN) params ;;
      if status_code response =? 403 then
        print "Rate limit hit!" ;;
        ret results
      else if status_code response =? 422 then
        print "Query too broad or no more results" ;;
        ret results
      else
        raise_for_status response ;;
        data <- response_json response ;;
        let items := dict_get (items data) [] in
        print ("Found " ++ str (len items) ++ " items (total so far: "
               ++ str (len results + len items) ++ ")")%string ;;
        if is_empty items then
          ret results
        else
          let results := results ++ items in
          let total_count := dict_get (total_count data) 0 in
          if (len results >=? total_count) || (len results >=? max_results)
          then ret results
          else
            let page := page + 1 in
            time_sleep 2 ;;
            search_loop fuel results page
    else ret results
  end.

(** [search_code(query, max_results)].  Every iteration that does not
    leave the loop adds at least one record, so [max_results]
    iterations are enough; [search_loop_fuel] below shows that more
    fuel changes nothing. *)
Definition search_code : M (list Dict) :=
  search_loop (S (Z.to_nat max_results)) [] 1.

End SearchCode.

End ExperimentSearch.

(** ** experiment_fork_search.py *)

Module ExperimentForkSearch.

Definition BASE_URL : string := "https://api.github.com".

Definition HEADERS (GITHUB_TOKEN : string) : list (string * string) :=
  [("Accept", "application/vnd.github.v3+json")] ++
  (if String.eqb GITHUB_TOKEN "" then []
   else [("Authorization", ("token " ++ GITHUB_TOKEN)%string)]).

Definition default_max_results : Z := 100.

Definition default_max_forks : Z := 100.

Definition per_page : Z := 100.

Section SearchCode.
Context {Dict : Type}.
Variable GITHUB_TOKEN : string.
Variable service : Service (SearchBody Dict).
Variable query : string.
Variable max_results : Z.

Fixpoint search_loop (fuel : nat) (results : list Dict) (page : Z)
    : M (list Dict) :=
  match fuel with
  | O => out_of_fuel
  | S fuel =>
    if len results <? max_results then
      let url := (BASE_URL ++ "/search/code")%string in
      let params := [("q", PStr query);
                     ("per_page", PInt per_page);
                     ("page", PInt page)] in
      response <- requests_get service url (HEADERS GITHUB_TOKEN) params ;;
      if status_code response =? 403 then
        print ("Rate limit hit after " ++ str (len results)
               ++ " results")%string ;;
        ret results
      else if status_code response =? 422 then
        print "Query error or no more results" ;;
        ret results
      else
        raise_for_status response ;;
        data <- response_json response ;;
        let items := dict_get (items data) [] in
        if is_empty items then
          ret results
        else
          let results := results ++ items in
          let total_count := dict_get (total_count data) 0 in
          if (len results >=? total_count) || (len results >=? max_results)
          then ret results
          else
            let page := page + 1 in
            time_sleep 2 ;;
            search_loop fuel results page
    else ret results
  end.

(** [search_code(query, max_results)] *)
Definition search_code : M (list Dict) :=
  search_loop (S (Z.to_nat max_results)) [] 1.

End SearchCode.

Section ListForks.
Context {Dict : Type}.
Variable GITHUB_TOKEN : string.
(** The forks endpoint answers with a bare JSON array. *)
Variable service : Service (list Dict).
Variables owner repo : string.
Variable max_forks : Z.

Fixpoint forks_loop (fuel : nat) (forks : list Dict) (page : Z)
    : M (list Dict) :=
  match fuel with
  | O => out_of_fuel
  | S fuel =>
    if len forks <? max_forks then
      let url := (BASE_URL ++ "/repos/" ++ owner ++ "/" ++ repo
                  ++ "/forks")%string in
      let params := [("per_page", PInt per_page);
                     ("page", PInt page);
                     ("sort", PStr "stargazers")] in
      response <- requests_get service url (HEADERS GITHUB_TOKEN) params ;;
      raise_for_status response ;;
      items <- response_json response ;;
      if is_empty items then
        ret forks
      else
        let forks := forks ++ items in
        if len items <? per_page then
          ret forks
        else
          let page := page + 1 in
          time_sleep (1 # 2) ;;
          forks_loop fuel forks page
    else ret forks
  end.

(** [list_forks(owner, repo, max_forks)].  A page that does not end
    the loop holds at least [per_page] forks, so [max_forks]
    iterations and a last test of the loop condition are enough;
    [forks_loop_fuel] below shows that more fuel changes nothing. *)
Definition list_forks : M (list Dict) :=
  forks_loop (S (Z.to_nat max_forks)) [] 1.

End ListForks.

End ExperimentForkSearch.

(** ** Describing a run of the search collector

    The vocabulary in which the properties are stated: the request for a
    page, the reply the service gives to the [i]-th request of a run,
    the records of a page, and the shape of a trace in which a fixed
    delay separates successive requests. *)

(** The request [search_code] builds for page [page]. *)
Definition search_request (GITHUB_TOKEN query : string) (page : Z) : Request :=
  mkRequest (ExperimentSearch.BASE_URL ++ "/search/code")%string
            (ExperimentSearch.HEADERS GITHUB_TOKEN)
            [("q", PStr query); ("per_page", PInt 100); ("page", PInt page)].

(** The request [list_forks] builds for page [page]. *)
Definition forks_request (GITHUB_TOKEN owner repo : string) (page : Z)
    : Request :=
  mkRequest (ExperimentForkSearch.BASE_URL ++ "/repos/" ++ owner ++ "/"
             ++ repo ++ "/forks")%string
            (ExperimentForkSearch.HEADERS GITHUB_TOKEN)
            [("per_page", PInt 100); ("page", PInt page);
             ("sort", PStr "stargazers")].

(** Requests separated by a pause of [delay], and nothing else. *)
Fixpoint paced (delay : Q) (reqs : list Request) : list Event :=
  match reqs with
  | [] => []
  | [r] => [Get r]
  | r :: rest => Get r :: Sleep delay :: paced delay rest
  end.

(** The number of requests a run issued, from the worlds before and
    after it. *)
Definition requests_issued (before after : World) : nat :=
  (n_requests (trace after) - n_requests (trace before))%nat.

(** A response that [raise_for_status] lets through and whose body
    decodes to [data]. *)
Definition fetched {B : Type} (reply : Reply B) (data : B) : Prop :=
  exists r, reply = Answer r
            /\ is_error_status (status_code r) = false
            /\ json r = Some data.

Section SearchRun.
Context {Dict : Type}.
Variable GITHUB_TOKEN : string.
Variable service : Service (SearchBody Dict).
Variable query : string.
Variable max_results : Z.

(** The records a reply carries: the [items] of its decoded body. *)
Definition page_records (reply : Reply (SearchBody Dict)) : list Dict :=
  match reply with
  | Failed => []
  | Answer r =>
    match json r with
    | Some data => dict_get (items data) []
    | None => []
    end
  end.

(** The reply to the ([i]+1)-th request of a loop that starts at page
    [page] when the service has served [served] requests. *)
Definition reply_from (served : nat) (page : Z) (i : nat)
    : Reply (SearchBody Dict) :=
  service (served + i)%nat
          (search_request GITHUB_TOKEN query (page + Z.of_nat i)).

(** The records of the first [n] of these replies, in arrival order,
    after [results]. *)
Definition records_from (results : list Dict) (served : nat) (page : Z)
    (n : nat) : list Dict :=
  results ++ List.concat (map (fun i => page_records (reply_from served page i))
                         (seq 0 n)).

(** The same for a whole call of [search_code] started in world [w]:
    the reply to its ([i]+1)-th request, which asks for page [i]+1, and
    the records of its first [n] pages. *)
Definition nth_reply (w : World) (i : nat) : Reply (SearchBody Dict) :=
  reply_from (n_requests (trace w)) 1 i.

Definition records_before (w : World) (n : nat) : list Dict :=
  records_from [] (n_requests (trace w)) 1 n.

(** What one iteration of the loop body makes of a reply, given the
    records accumulated so far. *)
Inductive Verdict : Type :=
| VFailed
| VThrottled
| VRejected
| VHttpError (status : Z)
| VBadJson
| VEmpty
| VLast (page_items : list Dict)
| VMore (page_items : list Dict).

Definition classify (results : list Dict)
    (reply : Reply (SearchBody Dict)) : Verdict :=
  match reply with
  | Failed => VFailed
  | Answer r =>
    if status_code r =? 403 then VThrottled
    else if status_code r =? 422 then VRejected
    else if is_error_status (status_code r) then VHttpError (status_code r)
    else
      match json r with
      | None => VBadJson
      | Some data =>
        let page_items := dict_get (items data) [] in
        if is_empty page_items then VEmpty
        else if (len (results ++ page_items)
                   >=? dict_get (total_count data) 0)
                || (len (results ++ page_items) >=? max_results)
             then VLast page_items
             else VMore page_items
      end
  end.

Definition outcome_of (v : Verdict) (results : list Dict)
    : Outcome (list Dict) :=
  match v with
  | VFailed => Raised ConnectionError
  | VThrottled | VRejected | VEmpty => Returned results
  | VHttpError status => Raised (HTTPError status)
  | VBadJson => Raised JSONDecodeError
  | VLast page_items => Returned (results ++ page_items)
  | VMore _ => OutOfFuel
  end.

Definition is_more (v : Verdict) : bool :=
  match v with
  | VMore _ => true
  | _ => false
  end.

(** The loop of [search_code] without its printing: outcome and trace
    only.  Both implementations are shown to follow it. *)
Fixpoint core_loop (fuel : nat) (results : list Dict) (page : Z)
    (t : list Event) : Outcome (list Dict) * list Event :=
  match fuel with
  | O => (OutOfFuel, t)
  | S fuel =>
    if len results <? max_results then
      let request := search_request GITHUB_TOKEN query page in
      match classify results (service (n_requests t) request) with
      | VMore page_items =>
        core_loop fuel (results ++ page_items) (page + 1)
                  (t ++ [Get request; Sleep 2])
      | v => (outcome_of v results, t ++ [Get request])
      end
    else (Returned results, t)
  end.

End SearchRun.

(** Outcome and trace of a computation, its printing forgotten. *)
Definition observe {A : Type} (r : Outcome A * World)
    : Outcome A * list Event :=
  (fst r, trace (snd r)).

(** ** Describing a run of the fork lister *)

Section ForksRun.
Context {Dict : Type}.
Variable GITHUB_TOKEN : string.
Variable service : Service (list Dict).
Variables owner repo : string.
Variable max_forks : Z.

(** The forks a reply carries: its decoded body. *)
Definition page_forks (reply : Reply (list Dict)) : list Dict :=
  match reply with
  | Failed => []
  | Answer r =>
    match json r with
    | Some page_items => page_items
    | None => []
    end
  end.

Definition forks_reply_from (served : nat) (page : Z) (i : nat)
    : Reply (list Dict) :=
  service (served + i)%nat
          (forks_request GITHUB_TOKEN owner repo (page + Z.of_nat i)).

Definition forks_from (forks : list Dict) (served : nat) (page : Z)
    (n : nat) : list Dict :=
  forks ++ List.concat (map (fun i => page_forks (forks_reply_from served page i))
                            (seq 0 n)).

(** For a whole call of [list_forks] started in world [w]: the reply to
    its ([i]+1)-th request and the forks of its first [n] pages. *)
Definition nth_forks_reply (w : World) (i : nat) : Reply (list Dict) :=
  forks_reply_from (n_requests (trace w)) 1 i.

Definition forks_before (w : World) (n : nat) : list Dict :=
  forks_from [] (n_requests (trace w)) 1 n.

(** What one iteration of the loop body of [list_forks] makes of a
    reply. *)
Inductive ForksVerdict : Type :=
| FFailed
| FHttpError (status : Z)
| FBadJson
| FEmpty
| FShort (page_items : list Dict)
| FFull (page_items : list Dict).

Definition classify_forks (reply : Reply (list Dict)) : ForksVerdict :=
  match reply with
  | Failed => FFailed
  | Answer r =>
    if is_error_status (status_code r) then FHttpError (status_code r)
    else
      match json r with
      | None => FBadJson
      | Some page_items =>
        if is_empty page_items then FEmpty
        else if len page_items <? 100 then FShort page_items
             else FFull page_items
      end
  end.

Definition forks_outcome_of (v : ForksVerdict) (forks : list Dict)
    : Outcome (list Dict) :=
  match v with
  | FFailed => Raised ConnectionError
  | FHttpError status => Raised (HTTPError status)
  | FBadJson => Raised JSONDecodeError
  | FEmpty => Returned forks
  | FShort page_items => Returned (forks ++ page_items)
  | FFull _ => OutOfFuel
  end.

Definition is_full (v : ForksVerdict) : bool :=
  match v with
  | FFull _ => true
  | _ => false
  end.

End ForksRun.

(** ** Services used in examples *)

(** The service that answers the [i]-th request with the [i]-th reply of
    a list, and with a transport failure once the list is used up. *)
Definition scripted {B : Type} (replies : list (Reply B)) : Service B :=
  fun served _ => nth served replies Failed.

(** A successful page of the search endpoint. *)
Definition page {Dict : Type} (records : list Dict) (total : option Z)
    : Reply (SearchBody Dict) :=
  Answer (mkResponse 200 (Some (mkSearchBody (Some records) total))).

(** A response with a bare status and an undecodable body. *)
Definition status_only {B : Type} (status : Z) : Reply B :=
  Answer (mkResponse status None).

(** The service seen through [data.get('total_count', 0)]: an absent
    [total_count] is filled in with 0. *)
Definition with_default_total_count {Dict : Type}
    (service : Service (SearchBody Dict)) : Service (SearchBody Dict) :=
  fun served request =>
    match service served request with
    | Failed => Failed
    | Answer r =>
      Answer (mkResponse (status_code r)
                (option_map
                   (fun data =>
                      mkSearchBody (items data)
                                   (Some (dict_get (total_count data) 0)))
                   (json r)))
    end.

(** ** Vocabulary of the further properties *)

(** What [search_code] of [experiment_fork_search.py] prints for the
    reply that ends its loop, given the records collected before it. *)
Definition fork_says {Dict : Type} (v : @Verdict Dict) (results : list Dict)
    : list string :=
  match v with
  | VThrottled =>
    [(("Rate limit hit after " ++ str (len results) ++ " results")
      ++ newline)%string]
  | VRejected => [("Query error or no more results" ++ newline)%string]
  | _ => []
  end.

(** Requests each followed by a pause of [delay]. *)
Fixpoint paused (delay : Q) (reqs : list Request) : list Event :=
  match reqs with
  | [] => []
  | r :: rest => Get r :: Sleep delay :: paused delay rest
  end.

(** ** experiment_search.py: [analyze_results] *)

Module ExperimentSearchStats.

(** The part of a code-search item that [analyze_results] reads.  A key
    the code looks up may be absent; the values have the types the API
    gives them. *)
Record Owner : Type := mkOwner {
  login : option string
}.

Record Repository : Type := mkRepository {
  full_name : option string;
  owner : option Owner;
  fork : option bool
}.

Record Item : Type := mkItem {
  repository : option Repository;
  path : option string
}.

(** The result of a computation in which a dictionary lookup [d[key]]
    may raise [KeyError]. *)
Inductive Checked (A : Type) : Type :=
| Ok (a : A)
| KeyError (key : string).
Arguments Ok {A} _.
Arguments KeyError {A} _.

(** A Python [set] of strings, as the list of its elements without
    repetition; only its size and its sorted contents are observed. *)
Definition set_mem (x : string) (s : list string) : bool :=
  existsb (String.eqb x) s.

(** [s.add(x)] *)
Definition set_add (x : string) (s : list string) : list string :=
  if set_mem x s then s else s ++ [x].

Fixpoint insert_sorted (x : string) (l : list string) : list string :=
  match l with
  | [] => [x]
  | y :: rest =>
    if String.leb x y then x :: l else y :: insert_sorted x rest
  end.

(** [sorted(s)]: the elements in ascending order of their code points. *)
Definition sorted (s : list string) : list string :=
  fold_right insert_sorted [] s.

(** The dictionary [analyze_results] returns. *)
Record Stats : Type := mkStats {
  total_files : Z;
  unique_repos : Z;
  unique_owners : Z;
  unique_templates : Z;
  lima_vm_templates : Z;
  fork_templates : Z;
  non_lima_vm_templates : Z;
  repos : list string;
  owners : list string
}.

(** The loop variables: [repos], [orgs], [paths], [lima_vm_templates],
    [fork_templates]. *)
Definition Vars : Type :=
  (list string * list string * list string * Z * Z)%type.

(** The body of the [for] loop, for one item. *)
Definition visit (vars : Vars) (item : Item) : Checked Vars :=
  let '(repos, orgs, paths, lima_vm_templates, fork_templates) := vars in
  match repository item with
  | None => KeyError "repository"
  | Some repository =>
    match full_name repository with
    | None => KeyError "full_name"
    | Some repo_full_name =>
      let repos := set_add repo_full_name repos in
      match owner repository with
      | None => KeyError "owner"
      | Some repository_owner =>
        match login repository_owner with
        | None => KeyError "login"
        | Some owner =>
          let orgs := set_add owner orgs in
          match path item with
          | None => KeyError "path"
          | Some path =>
            let paths :=
              set_add (repo_full_name ++ "/" ++ path)%string paths in
            let lima_vm_templates :=
              if String.prefix "lima-vm/lima" repo_full_name
              then lima_vm_templates + 1 else lima_vm_templates in
            let fork_templates :=
              if dict_get (fork repository) false
              then fork_templates + 1 else fork_templates in
            Ok (repos, orgs, paths, lima_vm_templates, fork_templates)
          end
        end
      end
    end
  end.

(** The [for] loop. *)
Fixpoint visit_all (vars : Vars) (results : list Item) : Checked Vars :=
  match results with
  | [] => Ok vars
  | item :: rest =>
    match visit vars item with
    | Ok vars => visit_all vars rest
    | KeyError key => KeyError key
    end
  end.

(** [analyze_results(results)] *)
Definition analyze_results (results : list Item) : Checked Stats :=
  match visit_all ([], [], [], 0, 0) results with
  | KeyError key => KeyError key
  | Ok (repos, orgs, paths, lima_vm_templates, fork_templates) =>
    Ok {| total_files := len results;
          unique_repos := len repos;
          unique_owners := len orgs;
          unique_templates := len paths;
          lima_vm_templates := lima_vm_templates;
          fork_templates := fork_templates;
          non_lima_vm_templates := len results - lima_vm_templates;
          repos := sorted repos;
          owners := sorted orgs |}
  end.

(** An item in which every key that [analyze_results] requires is
    present; [fork] is not among them. *)
Definition complete (item : Item) : Prop :=
  exists repository owner repo_full_name owner_login item_path,
    ExperimentSearchStats.repository item = Some repository
    /\ full_name repository = Some repo_full_name
    /\ ExperimentSearchStats.owner repository = Some owner
    /\ login owner = Some owner_login
    /\ path item = Some item_path.

(** What the loop reads off one item: the repository name, the owner,
    the template path it records, and the two tests it makes. *)
Definition item_full_name (item : Item) : option string :=
  match repository item with
  | Some repository => full_name repository
  | None => None
  end.

Definition item_owner (item : Item) : option string :=
  match repository item with
  | Some repository =>
    match owner repository with
    | Some owner => login owner
    | None => None
    end
  | None => None
  end.

Definition item_template (item : Item) : option string :=
  match item_full_name item, path item with
  | Some repo_full_name, Some path =>
    Some (repo_full_name ++ "/" ++ path)%string
  | _, _ => None
  end.

Definition from_lima_vm (item : Item) : bool :=
  match item_full_name item with
  | Some repo_full_name => String.prefix "lima-vm/lima" repo_full_name
  | None => false
  end.

Definition from_fork (item : Item) : bool :=
  match repository item with
  | Some repository => dict_get (fork repository) false
  | None => false
  end.

(** The first key whose lookup fails on an item, in the order the loop
    body looks the keys up. *)
Definition missing_key (item : Item) : option string :=
  match repository item with
  | None => Some "repository"
  | Some repository =>
    match full_name repository with
    | None => Some "full_name"
    | Some _ =>
      match owner repository with
      | None => Some "owner"
      | Some owner =>
        match login owner with
        | None => Some "login"
        | Some _ =>
          match path item with
          | None => Some "path"
          | Some _ => None
          end
        end
      end
    end
  end.

(** The set [s'] is the set [s] extended with the values [get] finds in
    [results]. *)
Definition extends (get : Item -> option string) (results : list Item)
    (s s' : list string) : Prop :=
  (NoDup s -> NoDup s')
  /\ (forall x,
        In x s' <-> In x s \/ exists item, In item results /\ get item = Some x)
  /\ len s <= len s' <= len s + len results.

(** Strictly ascending: every element is below all later ones, so the
    list is sorted and without repetition. *)
Definition ascending (l : list string) : Prop :=
  StronglySorted (fun a b => String.ltb a b = true) l.

End ExperimentSearchStats.

(** ** experiment_search.py: [check_rate_limit] and [main] *)

Module ExperimentSearchMain.
Import ExperimentSearchStats.

(** The body of the rate-limit endpoint, as far as [main] reads it: the
    keys may be absent, the values are integers. *)
Record Limit : Type := mkLimit {
  remaining : option Z;
  limit : option Z;
  reset : option Z
}.

Record Resources : Type := mkResources {
  core : option Limit;
  search : option Limit
}.

Record RateLimit : Type := mkRateLimit {
  resources : option Resources
}.

(** What can escape from [main]: an exception of the HTTP library, a
    [KeyError], or the error [datetime.fromtimestamp] raises on a
    timestamp it cannot represent. *)
Inductive PyError : Type :=
| LibraryError (e : Exn)
| MissingKey (key : string)
| TimestampError.

Inductive Result (A : Type) : Type :=
| Value (a : A)
| Uncaught (e : PyError)
| NoFuel.
Arguments Value {A} _.
Arguments Uncaught {A} _.
Arguments NoFuel {A}.

Definition Script (A : Type) : Type := World -> Result A * World.

Definition done {A : Type} (a : A) : Script A := fun w => (Value a, w).

Definition throw {A : Type} (e : PyError) : Script A :=
  fun w => (Uncaught e, w).

Definition and_then {A B : Type} (m : Script A) (k : A -> Script B)
    : Script B :=
  fun w =>
    match m w with
    | (Value a, w') => k a w'
    | (Uncaught e, w') => (Uncaught e, w')
    | (NoFuel, w') => (NoFuel, w')
    end.

Notation "x <~ m ;; k" := (and_then m (fun x => k))
  (at level 61, m at next level, right associativity).
Notation "m ;;; k" := (and_then m (fun _ => k))
  (at level 61, right associativity).

(** A computation of the collectors, run inside [main]. *)
Definition lift {A : Type} (m : M A) : Script A :=
  fun w =>
    match m w with
    | (Returned a, w') => (Value a, w')
    | (Raised e, w') => (Uncaught (LibraryError e), w')
    | (OutOfFuel, w') => (NoFuel, w')
    end.

(** [d[key]] *)
Definition key {A : Type} (name : string) (field : option A) : Script A :=
  match field with
  | Some v => done v
  | None => throw (MissingKey name)
  end.

(** A call of [analyze_results]. *)
Definition checked {A : Type} (c : Checked A) : Script A :=
  match c with
  | Ok a => done a
  | KeyError name => throw (MissingKey name)
  end.

(** [print(text)] and [print()] *)
Definition say (text : string) : Script unit := lift (print text).

(** [try: body  except requests.exceptions.HTTPError as e: handler] *)
Definition try_except_http {A : Type} (body : Script A)
    (handler : Z -> Script A) : Script A :=
  fun w =>
    match body w with
    | (Uncaught (LibraryError (HTTPError status)), w') => handler status w'
    | r => r
    end.

(** [for x in xs: body] *)
Fixpoint for_each {A : Type} (xs : list A) (body : A -> Script unit)
    : Script unit :=
  match xs with
  | [] => done tt
  | x :: rest => body x ;;; for_each rest body
  end.

(** [s * n] *)
Fixpoint times (s : string) (n : nat) : string :=
  match n with
  | O => ""
  | S n => (s ++ times s n)%string
  end.

Section Main.
Variable GITHUB_TOKEN : string.
(** The service, by endpoint: the body of [/rate_limit] and the body of
    [/search/code] are of different types. *)
Variable rate_service : Service RateLimit.
Variable search_service : Service (SearchBody Item).
(** The text of [datetime.fromtimestamp(t)], in the local time zone of
    the machine; [None] when the call raises. *)
Variable fromtimestamp : Z -> option string.
(** The text of the [HTTPError] raised for a status, which the HTTP
    library builds. *)
Variable http_error_text : Z -> string.

Definition rate_limit_request : Request :=
  mkRequest (ExperimentSearch.BASE_URL ++ "/rate_limit")%string
            (ExperimentSearch.HEADERS GITHUB_TOKEN) [].

(** [check_rate_limit()] *)
Definition check_rate_limit : M RateLimit :=
  response <- requests_get rate_service
                (ExperimentSearch.BASE_URL ++ "/rate_limit")%string
                (ExperimentSearch.HEADERS GITHUB_TOKEN) [] ;;
  raise_for_status response ;;
  response_json response.

Definition search_code (query : string) (max_results : Z) : M (list Item) :=
  ExperimentSearch.search_code GITHUB_TOKEN search_service query max_results.

(** [main], cut into the blocks its comments mark. *)

Definition banner : Script unit :=
  say (times "=" 70) ;;;
  say "Lima Template Catalog - GitHub Search Experiment" ;;;
  say (times "=" 70) ;;;
  say "".

(** The branch [if not GITHUB_TOKEN], up to its [return]. *)
Definition no_token : Script unit :=
  say "⚠️  WARNING: No GITHUB_TOKEN found in environment!" ;;;
  say "Code search requires authentication." ;;;
  say "" ;;;
  say "To run this experiment, please set GITHUB_TOKEN:" ;;;
  say "  export GITHUB_TOKEN=your_github_token" ;;;
  say "" ;;;
  say "You can create a token at:" ;;;
  say "  https://github.com/settings/tokens" ;;;
  say "  (No special scopes needed for public repo search)" ;;;
  say "".

(** "Check rate limit first": the [try] statement.  The result tells
    whether [main] goes on ([true]) or has returned ([false]). *)
Definition first_rate_limit_check : Script bool :=
  say "Checking GitHub API rate limit..." ;;;
  try_except_http
    (rate_limit <~ lift check_rate_limit ;;
     all <~ key "resources" (resources rate_limit) ;;
     core_limit <~ key "core" (core all) ;;
     all <~ key "resources" (resources rate_limit) ;;
     search_limit <~ key "search" (search all) ;;
     core_remaining <~ key "remaining" (remaining core_limit) ;;
     core_max <~ key "limit" (limit core_limit) ;;
     say ("Core API: " ++ str core_remaining ++ "/" ++ str core_max
          ++ " remaining")%string ;;;
     search_remaining <~ key "remaining" (remaining search_limit) ;;
     search_max <~ key "limit" (limit search_limit) ;;
     say ("Search API: " ++ str search_remaining ++ "/" ++ str search_max
          ++ " remaining")%string ;;;
     search_reset <~ key "reset" (reset search_limit) ;;
     reset_at <~ match fromtimestamp search_reset with
                 | Some text => done text
                 | None => throw TimestampError
                 end ;;
     say ("Reset at: " ++ reset_at)%string ;;;
     say "" ;;;
     search_remaining <~ key "remaining" (remaining search_limit) ;;
     if search_remaining <? 10 then
       say "WARNING: Low rate limit remaining. Consider waiting." ;;;
       done false
     else done true)
    (fun status =>
       say ("Error checking rate limit: " ++ http_error_text status)%string ;;;
       say "Continuing anyway..." ;;;
       say "" ;;;
       done true).

Definition query : string :=
  "minimumLimaVersion extension:yml OR extension:yaml -repo:lima-vm/lima".

Definition simple_query : string := "minimumLimaVersion extension:yml".

(** The branch [if not results], up to its [return]. *)
Definition no_results : Script unit :=
  say "No results found!" ;;;
  say "" ;;;
  say "Trying simpler query (including lima-vm/lima)..." ;;;
  simple_results <~ lift (search_code simple_query 100) ;;
  if is_empty simple_results then done tt
  else
    say ("Found " ++ str (len simple_results)
         ++ " templates with simpler query")%string ;;;
    stats <~ checked (analyze_results simple_results) ;;
    say ("From " ++ str (unique_repos stats) ++ " repositories")%string.

(** "Check final rate limit" *)
Definition final_rate_limit_check : Script unit :=
  say "Checking final rate limit..." ;;;
  rate_limit <~ lift check_rate_limit ;;
  all <~ key "resources" (resources rate_limit) ;;
  search_limit <~ key "search" (search all) ;;
  search_remaining <~ key "remaining" (remaining search_limit) ;;
  search_max <~ key "limit" (limit search_limit) ;;
  say ("Search API: " ++ str search_remaining ++ "/" ++ str search_max
       ++ " remaining")%string ;;;
  say "".

(** From [stats = analyze_results(results)] to the end of [main]. *)
Definition report (results : list Item) : Script unit :=
  stats <~ checked (analyze_results results) ;;
  say ("Total files found: " ++ str (total_files stats))%string ;;;
  say ("Unique templates: " ++ str (unique_templates stats))%string ;;;
  say ("Unique repositories: " ++ str (unique_repos stats))%string ;;;
  say ("Unique owners: " ++ str (unique_owners stats))%string ;;;
  say "" ;;;
  say ("Templates from lima-vm/lima: "
       ++ str (lima_vm_templates stats))%string ;;;
  say ("Templates from forks: " ++ str (fork_templates stats))%string ;;;
  say ("Non-lima-vm templates: "
       ++ str (non_lima_vm_templates stats))%string ;;;
  say "" ;;;
  say "Example repositories (first 20):" ;;;
  for_each (firstn 20 (repos stats))
    (fun repo => say ("  - " ++ repo)%string) ;;;
  (if len (repos stats) >? 20 then
     say ("  ... and " ++ str (len (repos stats) - 20) ++ " more")%string
   else done tt) ;;;
  say "" ;;;
  say "Example owners (first 20):" ;;;
  for_each (firstn 20 (owners stats))
    (fun owner => say ("  - " ++ owner)%string) ;;;
  (if len (owners stats) >? 20 then
     say ("  ... and " ++ str (len (owners stats) - 20) ++ " more")%string
   else done tt) ;;;
  say "" ;;;
  say (times "=" 70) ;;;
  say "Conclusion" ;;;
  say (times "=" 70) ;;;
  say "" ;;;
  say ("✓ Found approximately " ++ str (unique_templates stats)
       ++ " unique Lima templates")%string ;;;
  say ("✓ Spread across " ++ str (unique_repos stats)
       ++ " repositories")%string ;;;
  say ("✓ From " ++ str (unique_owners stats)
       ++ " different owners")%string ;;;
  say "" ;;;
  say "This scale is very manageable for our JSON Lines approach!" ;;;
  say "Each file will be small and diffs will be minimal." ;;;
  say "" ;;;
  final_rate_limit_check.

(** "Search for Lima templates", and what follows. *)
Definition search_and_report : Script unit :=
  say ("Search query: " ++ query)%string ;;;
  say "" ;;;
  say "Searching GitHub (this may take a few minutes)..." ;;;
  say "" ;;;
  results <~ lift (search_code query 1000) ;;
  say "" ;;;
  say (times "=" 70) ;;;
  say "Results Analysis" ;;;
  say (times "=" 70) ;;;
  say "" ;;;
  if is_empty results then no_results else report results.

(** [main()] *)
Definition main : Script unit :=
  banner ;;;
  if String.eqb GITHUB_TOKEN "" then no_token
  else
    go_on <~ first_rate_limit_check ;;
    if (go_on : bool) then search_and_report else done tt.

End Main.

(** Vocabulary for the properties of [main]. *)

(** What is observed of a run: its result and its trace of requests and
    pauses. *)
Definition outcome_and_trace {A : Type} (r : Result A * World)
    : Result A * list Event :=
  (fst r, trace (snd r)).

(** A block that only prints. *)
Definition quiet (m : Script unit) : Prop :=
  forall w, exists out, m w = (Value tt, mkWorld (trace w) out).

(** A block whose result and trace depend on the world it starts in only
    through the trace of that world, not through what was printed. *)
Definition trace_driven {A : Type} (m : Script A) : Prop :=
  forall w w',
    trace w = trace w' -> outcome_and_trace (m w) = outcome_and_trace (m w').

(** The world whose trace is [t] and in which nothing was printed. *)
Definition at_trace (t : list Event) : World := mkWorld t [].

(** A reply of the rate-limit endpoint that [main] reads without error,
    reporting [search_remaining] for the search quota. *)
Definition reports (fromtimestamp : Z -> option string)
    (reply : Reply RateLimit) (search_remaining : Z) : Prop :=
  exists status core_remaining core_limit core_reset search_limit
         search_reset text,
    reply
    = Answer (mkResponse status
                (Some (mkRateLimit
                         (Some (mkResources
                                  (Some (mkLimit (Some core_remaining)
                                                 (Some core_limit)
                                                 core_reset))
                                  (Some (mkLimit (Some search_remaining)
                                                 (Some search_limit)
                                                 (Some search_reset))))))))
    /\ is_error_status status = false
    /\ fromtimestamp search_reset = Some text.

(** A reply to the first rate-limit check after which [main] goes on to
    search: an HTTP error status, which is caught, or a readable report
    of at least 10 remaining search requests. *)
Definition lets_through (fromtimestamp : Z -> option string)
    (reply : Reply RateLimit) : Prop :=
  (exists r, reply = Answer r /\ is_error_status (status_code r) = true)
  \/ (exists search_remaining,
        reports fromtimestamp reply search_remaining
        /\ 10 <= search_remaining).

End ExperimentSearchMain.

(** ** experiment_fork_search.py: [check_rate_limit], [get_repo_info]
    and [main] *)

Module ExperimentForkMain.
Import ExperimentSearchMain.

(** A repository object of the API, as far as [main] reads it, both for
    [lima-vm/lima] itself and for each of its forks. *)
Record Repo : Type := mkRepo {
  full_name : option string;
  name : option string;
  owner : option ExperimentSearchStats.Owner;
  stargazers_count : option Z;
  forks_count : option Z;
  updated_at : option string
}.

(** [for x in xs: ...] that collects a value per element, as a list
    comprehension does. *)
Fixpoint collect {A B : Type} (xs : list A) (f : A -> Script B)
    : Script (list B) :=
  match xs with
  | [] => done []
  | x :: rest =>
    y <~ f x ;;
    ys <~ collect rest f ;;
    done (y :: ys)
  end.

(** [[x for x in xs if test(x)]] *)
Fixpoint collect_if {A : Type} (xs : list A) (test : A -> Script bool)
    : Script (list A) :=
  match xs with
  | [] => done []
  | x :: rest =>
    keep <~ test x ;;
    ys <~ collect_if rest test ;;
    done (if (keep : bool) then x :: ys else ys)
  end.

Section Main.
Variable GITHUB_TOKEN : string.
(** The service, by endpoint. *)
Variable search_service : Service (SearchBody ExperimentSearchStats.Item).
Variable repo_service : Service Repo.
Variable forks_service : Service (list Repo).
Variable rate_service : Service RateLimit.

Definition rate_limit_request : Request :=
  mkRequest (ExperimentForkSearch.BASE_URL ++ "/rate_limit")%string
            (ExperimentForkSearch.HEADERS GITHUB_TOKEN) [].

(** [check_rate_limit()] *)
Definition check_rate_limit : M RateLimit :=
  response <- requests_get rate_service
                (ExperimentForkSearch.BASE_URL ++ "/rate_limit")%string
                (ExperimentForkSearch.HEADERS GITHUB_TOKEN) [] ;;
  raise_for_status response ;;
  response_json response.

Definition repo_request (owner repo : string) : Request :=
  mkRequest (ExperimentForkSearch.BASE_URL ++ "/repos/" ++ owner ++ "/"
             ++ repo)%string
            (ExperimentForkSearch.HEADERS GITHUB_TOKEN) [].

(** [get_repo_info(owner, repo)] *)
Definition get_repo_info (owner repo : string) : M Repo :=
  let url := (ExperimentForkSearch.BASE_URL ++ "/repos/" ++ owner ++ "/"
              ++ repo)%string in
  response <- requests_get repo_service url
                (ExperimentForkSearch.HEADERS GITHUB_TOKEN) [] ;;
  raise_for_status response ;;
  response_json response.

Definition search_code (query : string) (max_results : Z)
    : M (list ExperimentSearchStats.Item) :=
  ExperimentForkSearch.search_code GITHUB_TOKEN search_service query
    max_results.

Definition list_forks (owner repo : string) (max_forks : Z) : M (list Repo) :=
  ExperimentForkSearch.list_forks GITHUB_TOKEN forks_service owner repo
    max_forks.

(** [main], cut into the blocks its comments mark. *)

Definition banner : Script unit :=
  say (times "=" 70) ;;;
  say "Fork Search Investigation" ;;;
  say (times "=" 70) ;;;
  say "".

Definition query : string :=
  "minimumLimaVersion extension:yml repo:lima-vm/lima".

(** "Experiment 1: Search in lima-vm/lima itself" *)
Definition experiment_1 : Script unit :=
  say "Experiment 1: How many templates in lima-vm/lima?" ;;;
  say (times "-" 70) ;;;
  say ("Query: " ++ query)%string ;;;
  results <~ lift (search_code query 200) ;;
  say ("Found " ++ str (len results)
       ++ " template files in lima-vm/lima")%string ;;;
  (if is_empty results then done tt
   else
     paths <~ collect (firstn 10 results)
                (fun r => key "path" (ExperimentSearchStats.path r)) ;;
     say "Example paths:" ;;;
     for_each paths (fun path => say ("  " ++ path)%string)) ;;;
  say "".

(** "Experiment 2: Try to search a specific fork": the repository and
    its forks. *)
Definition experiment_2 : Script (Repo * list Repo) :=
  say "Experiment 2: Check lima-vm/lima fork information" ;;;
  say (times "-" 70) ;;;
  say "Getting lima-vm/lima repo info..." ;;;
  lima_repo <~ lift (get_repo_info "lima-vm" "lima") ;;
  forks_count <~ key "forks_count" (forks_count lima_repo) ;;
  say ("Forks: " ++ str forks_count)%string ;;;
  stars <~ key "stargazers_count" (stargazers_count lima_repo) ;;
  say ("Stars: " ++ str stars)%string ;;;
  say "" ;;;
  say "Fetching first 30 forks (sorted by stars)..." ;;;
  forks <~ lift (list_forks "lima-vm" "lima" 30) ;;
  say ("Retrieved " ++ str (len forks) ++ " forks")%string ;;;
  say "" ;;;
  (if is_empty forks then done tt
   else
     say "Top 10 forks by stars:" ;;;
     for_each (firstn 10 forks)
       (fun fork =>
          fork_full_name <~ key "full_name" (full_name fork) ;;
          fork_stars <~ key "stargazers_count" (stargazers_count fork) ;;
          fork_updated <~ key "updated_at" (updated_at fork) ;;
          say ("  " ++ fork_full_name ++ ": " ++ str fork_stars
               ++ " stars, " ++ "updated " ++ fork_updated)%string)) ;;;
  say "" ;;;
  done (lima_repo, forks).

(** The query of experiment 3 for a fork. *)
Definition fork_query (fork_owner fork_name : string) : string :=
  ("minimumLimaVersion extension:yml repo:" ++ fork_owner ++ "/"
   ++ fork_name)%string.

(** "Experiment 3: Try searching in a specific fork" *)
Definition experiment_3 (forks : list Repo) : Script unit :=
  match forks with
  | [] => done tt
  | top_fork :: _ =>
    say "Experiment 3: Search in top fork" ;;;
    say (times "-" 70) ;;;
    top_owner <~ key "owner" (owner top_fork) ;;
    fork_owner <~ key "login" (ExperimentSearchStats.login top_owner) ;;
    fork_name <~ key "name" (name top_fork) ;;
    let query := fork_query fork_owner fork_name in
    say ("Query: " ++ query)%string ;;;
    fork_results <~ lift (search_code query 50) ;;
    say ("Found " ++ str (len fork_results) ++ " templates in "
         ++ fork_owner ++ "/" ++ fork_name)%string ;;;
    say ""
  end.

(** "Experiment 4: Test if code search includes forks by default" *)
Definition experiment_4 (lima_repo : Repo) (forks : list Repo)
    : Script unit :=
  say "Experiment 4: Does code search include forks by default?" ;;;
  say (times "-" 70) ;;;
  say "According to GitHub docs:" ;;;
  say "  'Forks are only searchable if the fork has more stars than" ;;;
  say "   the parent repository.'" ;;;
  say "" ;;;
  stars <~ key "stargazers_count" (stargazers_count lima_repo) ;;
  say ("lima-vm/lima has " ++ str stars ++ " stars")%string ;;;
  (if is_empty forks then done tt
   else
     forks_with_more_stars <~
       collect_if forks
         (fun f =>
            fork_stars <~ key "stargazers_count" (stargazers_count f) ;;
            stars <~ key "stargazers_count" (stargazers_count lima_repo) ;;
            done (fork_stars >? stars)) ;;
     say ("Forks with MORE stars: "
          ++ str (len forks_with_more_stars))%string ;;;
     if is_empty forks_with_more_stars then done tt
     else
       for_each forks_with_more_stars
         (fun fork =>
            fork_full_name <~ key "full_name" (full_name fork) ;;
            fork_stars <~ key "stargazers_count" (stargazers_count fork) ;;
            say ("  " ++ fork_full_name ++ ": " ++ str fork_stars
                 ++ " stars")%string)) ;;;
  say "".

(** "Conclusion" and "Check rate limit" *)
Definition conclusion (lima_repo : Repo) : Script unit :=
  say (times "=" 70) ;;;
  say "Conclusions" ;;;
  say (times "=" 70) ;;;
  say "" ;;;
  say "✗ GitHub Code Search does NOT include forks by default" ;;;
  say "✗ Forks are only searchable if they have more stars than parent" ;;;
  stars <~ key "stargazers_count" (stargazers_count lima_repo) ;;
  say ("✗ With " ++ str stars
       ++ " stars, lima-vm/lima excludes most forks")%string ;;;
  say "" ;;;
  say "✓ We can enumerate forks using the /repos/:owner/:repo/forks API" ;;;
  say "✓ We can then check each fork individually" ;;;
  say "" ;;;
  say "Recommended approach:" ;;;
  say "1. Use code search for non-fork repositories" ;;;
  say "2. Use /repos/lima-vm/lima/forks API to list all forks" ;;;
  say "3. For each fork, check if templates directory exists and differs from parent" ;;;
  say "4. Only include modified templates from forks" ;;;
  say "" ;;;
  rate_limit <~ lift check_rate_limit ;;
  all <~ key "resources" (resources rate_limit) ;;
  core_limit <~ key "core" (core all) ;;
  core_remaining <~ key "remaining" (remaining core_limit) ;;
  say ("Rate limit used: " ++ str (5000 - core_remaining) ++ "/5000")%string.

(** [main()] *)
Definition main : Script unit :=
  banner ;;;
  if String.eqb GITHUB_TOKEN "" then
    say "ERROR: GITHUB_TOKEN not set"
  else
    experiment_1 ;;;
    found <~ experiment_2 ;;
    let '(lima_repo, forks) := found in
    experiment_3 forks ;;;
    experiment_4 lima_repo forks ;;;
    conclusion lima_repo.

End Main.

(** A fork in which every key that [main] reads is present. *)
Definition complete_fork (fork : Repo) : Prop :=
  exists fork_full_name fork_name fork_owner fork_login stars updated,
    full_name fork = Some fork_full_name
    /\ name fork = Some fork_name
    /\ owner fork = Some fork_owner
    /\ ExperimentSearchStats.login fork_owner = Some fork_login
    /\ stargazers_count fork = Some stars
    /\ updated_at fork = Some updated.

(** The repository query of experiment 3 for a fork, when its owner's
    login and its name are present. *)
Definition top_fork_query (fork : Repo) : option string :=
  match owner fork with
  | Some fork_owner =>
    match ExperimentSearchStats.login fork_owner, name fork with
    | Some fork_login, Some fork_name => Some (fork_query fork_login fork_name)
    | _, _ => None
    end
  | None => None
  end.

(** A reply of the repository endpoint that [main] reads without error:
    it decodes to [lima_repo], which has its two counts. *)
Definition describes (reply : Reply Repo) (lima_repo : Repo) : Prop :=
  fetched reply lima_repo
  /\ (exists repo_forks, forks_count lima_repo = Some repo_forks)
  /\ (exists repo_stars, stargazers_count lima_repo = Some repo_stars).

(** A reply of the forks endpoint that ends the listing with [forks]:
    a short page of forks that [main] reads without error. *)
Definition lists (reply : Reply (list Repo)) (forks : list Repo) : Prop :=
  fetched reply forks /\ len forks < 100 /\ Forall complete_fork forks.

(** A reply of the rate-limit endpoint in which [main] finds
    [resources.core.remaining]. *)
Definition reports_core (reply : Reply RateLimit) : Prop :=
  exists limits all core_limit core_remaining,
    fetched reply limits
    /\ resources limits = Some all
    /\ core all = Some core_limit
    /\ remaining core_limit = Some core_remaining.

End ExperimentForkMain.

(** * Bodies whose [items] is not a list *)

(** [SearchBody] gives [items] the type the API documents.  JSON itself
    allows any value under the key, and the two [search_code] do not
    treat all of them alike.  This module embeds both functions again
    over bodies whose [items] may be [null]; [typed_search_loop] and
    [typed_fork_search_loop] below show that on bodies with a list they
    are the functions of [ExperimentSearch] and [ExperimentForkSearch]. *)
Module Untyped.

(** The value under the [items] key: a list of records, or JSON [null]
    (Python [None]; [false] and [0] behave like it in both functions,
    being false in a test and without [len]). *)
Inductive Items (Dict : Type) : Type :=
| Records (records : list Dict)
| Null.
Arguments Records {Dict} _.
Arguments Null {Dict}.

Record Body (Dict : Type) : Type := mkBody {
  items : option (Items Dict);
  total_count : option Z
}.
Arguments mkBody {Dict} _ _.
Arguments items {Dict} _.
Arguments total_count {Dict} _.

(** [len(items)] *)
Definition py_len {Dict : Type} (items : Items Dict) : M Z :=
  match items with
  | Records records => ret (len records)
  | Null => raise TypeError
  end.

(** [not items] *)
Definition py_not {Dict : Type} (items : Items Dict) : bool :=
  match items with
  | Records records => is_empty records
  | Null => true
  end.

(** [results.extend(items)] *)
Definition extend {Dict : Type} (results : list Dict) (items : Items Dict)
    : M (list Dict) :=
  match items with
  | Records records => ret (results ++ records)
  | Null => raise TypeError
  end.

Module ExperimentSearch.

Section SearchCode.
Context {Dict : Type}.
Variable GITHUB_TOKEN : string.
Variable service : Service (Body Dict).
Variable query : string.
Variable max_results : Z.

Fixpoint search_loop (fuel : nat) (results : list Dict) (page : Z)
    : M (list Dict) :=
  match fuel with
  | O => out_of_fuel
  | S fuel =>
    if len results <? max_results then
      let url := (ExperimentSearch.BASE_URL ++ "/search/code")%string in
      let params := [("q", PStr query);
                     ("per_page", PInt ExperimentSearch.per_page);
                     ("page", PInt page)] in
      print_end ("Fetching page " ++ str page ++ "...")%string " " ;;
      response <- requests_get service url
                    (ExperimentSearch.HEADERS GITHUB_TOKEN) params ;;
      if status_code response =? 403 then
        print "Rate limit hit!" ;;
        ret results
      else if status_code response =? 422 then
        print "Query too broad or no more results" ;;
        ret results
      else
        raise_for_status response ;;
        data <- response_json response ;;
        let items := dict_get (items data) (Records []) in
        found <- py_len items ;;
        added <- py_len items ;;
        print ("Found " ++ str found ++ " items (total so far: "
               ++ str (len results + added) ++ ")")%string ;;
        if py_not items then
          ret results
        else
          results <- extend results items ;;
          let total_count := dict_get (total_count data) 0 in
          if (len results >=? total_count) || (len results >=? max_results)
          then ret results
          else
            let page := page + 1 in
            time_sleep 2 ;;
            search_loop fuel results page
    else ret results
  end.

Definition search_code : M (list Dict) :=
  search_loop (S (Z.to_nat max_results)) [] 1.

End SearchCode.

End ExperimentSearch.

Module ExperimentForkSearch.

Section SearchCode.
Context {Dict : Type}.
Variable GITHUB_TOKEN : string.
Variable service : Service (Body Dict).
Variable query : string.
Variable max_results : Z.

Fixpoint search_loop (fuel : nat) (results : list Dict) (page : Z)
    : M (list Dict) :=
  match fuel with
  | O => out_of_fuel
  | S fuel =>
    if len results <? max_results then
      let url := (ExperimentForkSearch.BASE_URL ++ "/search/code")%string in
      let params := [("q", PStr query);
                     ("per_page", PInt ExperimentForkSearch.per_page);
                     ("page", PInt page)] in
      response <- requests_get service url
                    (ExperimentForkSearch.HEADERS GITHUB_TOKEN) params ;;
      if status_code response =? 403 then
        print ("Rate limit hit after " ++ str (len results)
               ++ " results")%string ;;
        ret results
      else if status_code response =? 422 then
        print "Query error or no more results" ;;
        ret results
      else
        raise_for_status response ;;
        data <- response_json response ;;
        let items := dict_get (items data) (Records []) in
        if py_not items then
          ret results
        else
          results <- extend results items ;;
          let total_count := dict_get (total_count data) 0 in
          if (len results >=? total_count) || (len results >=? max_results)
          then ret results
          else
            let page := page + 1 in
            time_sleep 2 ;;
            search_loop fuel results page
    else ret results
  end.

Definition search_code : M (list Dict) :=
  search_loop (S (Z.to_nat max_results)) [] 1.

End SearchCode.

End ExperimentForkSearch.

(** A body seen with the types the API documents; a [null] is read as
    an absent key. *)
Definition typed_body {Dict : Type} (data : Body Dict) : SearchBody Dict :=
  mkSearchBody
    match items data with
    | Some (Records records) => Some records
    | Some Null => None
    | None => None
    end
    (total_count data).

Definition typed {Dict : Type} (service : Service (Body Dict))
    : Service (SearchBody Dict) :=
  fun served request =>
    match service served request with
    | Failed => Failed
    | Answer r =>
      Answer (mkResponse (status_code r)
                match json r with
                | Some data => Some (typed_body data)
                | None => None
                end)
    end.

(** No body of the service has [null] under [items]. *)
Definition list_valued {Dict : Type} (service : Service (Body Dict))
    : Prop :=
  forall served request r data,
    service served request = Answer r ->
    json r = Some data ->
    items data <> Some Null.

(** A successful page whose [items] is [null]. *)
Definition null_page {Dict : Type} (total : option Z)
    : Reply (Body Dict) :=
  Answer (mkResponse 200 (Some (mkBody (Some Null) total))).

End Untyped.

(** * Properties *)

(** ** Both implementations follow the core loop *)

Ltac unfold_effects :=
  unfold bind, print, print_end, requests_get, raise_for_status,
    response_json, time_sleep, ret, raise, out_of_fuel, log, observe.

Section Refinement.
Context {Dict : Type}.
Variable GITHUB_TOKEN : string.
Variable service : Service (SearchBody Dict).
Variable query : string.
Variable max_results : Z.

Lemma search_loop_observe (fuel : nat) :
  forall results page w,
    observe (ExperimentSearch.search_loop GITHUB_TOKEN service query
               max_results fuel results page w)
    = core_loop GITHUB_TOKEN service query max_results fuel results page
                (trace w).
Proof.
  induction fuel as [|fuel IH]; intros results page w; [reflexivity|].
  cbn [ExperimentSearch.search_loop core_loop].
  destruct (len results <? max_results); [|reflexivity].
  unfold_effects. cbn [trace stdout fst snd].
  unfold classify, search_request, ExperimentSearch.per_page.
  destruct (service _ _) as [|r]; [reflexivity|].
  destruct (status_code r =? 403); [reflexivity|].
  destruct (status_code r =? 422); [reflexivity|].
  destruct (is_error_status (status_code r)); [reflexivity|].
  destruct (json r) as [data|]; [|reflexivity].
  cbn zeta.
  destruct (is_empty (dict_get (items data) [])); [reflexivity|].
  destruct (_ || _); [reflexivity|].
  cbn [trace stdout].
  rewrite <- app_assoc. cbn [app].
  match goal with
  | |- (fst (ExperimentSearch.search_loop _ _ _ _ _ _ _ ?w'), _) = _ =>
    specialize (IH (results ++ dict_get (items data) []) (page + 1) w')
  end.
  unfold observe in IH. exact IH.
Qed.

End Refinement.

Section ForkRefinement.
Context {Dict : Type}.
Variable GITHUB_TOKEN : string.
Variable service : Service (SearchBody Dict).
Variable query : string.
Variable max_results : Z.

Lemma fork_search_loop_observe (fuel : nat) :
  forall results page w,
    observe (ExperimentForkSearch.search_loop GITHUB_TOKEN service query
               max_results fuel results page w)
    = core_loop GITHUB_TOKEN service query max_results fuel results page
                (trace w).
Proof.
  induction fuel as [|fuel IH]; intros results page w; [reflexivity|].
  cbn [ExperimentForkSearch.search_loop core_loop].
  destruct (len results <? max_results); [|reflexivity].
  unfold_effects. cbn [trace stdout fst snd].
  unfold classify, search_request, ExperimentForkSearch.per_page.
  destruct (service _ _) as [|r]; [reflexivity|].
  destruct (status_code r =? 403); [reflexivity|].
  destruct (status_code r =? 422); [reflexivity|].
  destruct (is_error_status (status_code r)); [reflexivity|].
  destruct (json r) as [data|]; [|reflexivity].
  cbn zeta.
  destruct (is_empty (dict_get (items data) [])); [reflexivity|].
  destruct (_ || _); [reflexivity|].
  cbn [trace stdout].
  rewrite <- app_assoc. cbn [app].
  match goal with
  | |- (fst (ExperimentForkSearch.search_loop _ _ _ _ _ _ _ ?w'), _) = _ =>
    specialize (IH (results ++ dict_get (items data) []) (page + 1) w')
  end.
  unfold observe in IH. exact IH.
Qed.

End ForkRefinement.

(** ** Traces *)

Lemma n_requests_app (t t' : list Event) :
  n_requests (t ++ t') = (n_requests t + n_requests t')%nat.
Proof.
  unfold n_requests, requests_of. rewrite filter_app, length_app. reflexivity.
Qed.

Lemma paced_cons (delay : Q) (r r' : Request) (rest : list Request) :
  paced delay (r :: r' :: rest) = Get r :: Sleep delay :: paced delay (r' :: rest).
Proof. reflexivity. Qed.

Lemma n_requests_paced (delay : Q) (reqs : list Request) :
  n_requests (paced delay reqs) = List.length reqs.
Proof.
  induction reqs as [|r [|r' rest] IH]; [reflexivity | reflexivity |].
  rewrite paced_cons.
  change (n_requests (Get r :: Sleep delay :: paced delay (r' :: rest)))
    with (S (n_requests (paced delay (r' :: rest)))).
  rewrite IH. reflexivity.
Qed.

Lemma map_seq_shift {A : Type} (f : nat -> A) (n : nat) :
  map f (seq 1 n) = map (fun i => f (S i)) (seq 0 n).
Proof. rewrite <- seq_shift, map_map. reflexivity. Qed.

(** ** The run of the core loop *)

Section CoreRun.
Context {Dict : Type}.
Variable GITHUB_TOKEN : string.
Variable service : Service (SearchBody Dict).
Variable query : string.
Variable max_results : Z.

Abbreviation reply_at := (reply_from GITHUB_TOKEN service query).
Abbreviation records_at := (records_from GITHUB_TOKEN service query).
Abbreviation verdict := (classify max_results).
Abbreviation run := (core_loop GITHUB_TOKEN service query max_results).
Abbreviation request := (search_request GITHUB_TOKEN query).

Lemma reply_from_0 served page :
  reply_at served page 0 = service served (request page).
Proof.
  unfold reply_from. rewrite Nat.add_0_r, Z.add_0_r. reflexivity.
Qed.

Lemma reply_from_shift served page i :
  reply_at (S served) (page + 1) i = reply_at served page (S i).
Proof.
  unfold reply_from. f_equal; [lia|]. f_equal. lia.
Qed.

Lemma records_from_0 results served page :
  records_at results served page 0 = results.
Proof. unfold records_from. cbn. apply app_nil_r. Qed.

Lemma records_from_S results served page n :
  records_at results served page (S n)
  = records_at results served page n
    ++ page_records (reply_at served page n).
Proof.
  unfold records_from.
  rewrite seq_S, map_app, concat_app. cbn [map List.concat Nat.add].
  rewrite app_nil_r, app_assoc. reflexivity.
Qed.

Lemma records_from_shift results served page n :
  records_at (results ++ page_records (reply_at served page 0))
               (S served) (page + 1) n
  = records_at results served page (S n).
Proof.
  unfold records_from.
  cbn [seq map List.concat]. rewrite map_seq_shift, <- app_assoc.
  do 3 f_equal. apply map_ext. intros i. rewrite reply_from_shift.
  reflexivity.
Qed.

Lemma classify_more (results : list Dict) reply page_items :
  verdict results reply = VMore page_items ->
  page_items = page_records reply
  /\ page_items <> []
  /\ len (results ++ page_items) < max_results.
Proof.
  unfold classify, page_records.
  destruct reply as [|r]; [discriminate|].
  destruct (status_code r =? 403); [discriminate|].
  destruct (status_code r =? 422); [discriminate|].
  destruct (is_error_status (status_code r)); [discriminate|].
  destruct (json r) as [data|]; [|discriminate].
  cbn zeta.
  destruct (dict_get (items data) []) as [|x xs] eqn:E; [discriminate|].
  cbn [is_empty].
  destruct (_ || _) eqn:Stop; [discriminate|].
  intros [= <-]. apply orb_false_elim in Stop as [_ Hmax].
  repeat split; [discriminate | lia].
Qed.

Lemma len_app {A : Type} (xs ys : list A) : len (xs ++ ys) = len xs + len ys.
Proof. unfold len. rewrite length_app. lia. Qed.

Lemma len_pos {A : Type} (xs : list A) : xs <> [] -> 0 < len xs.
Proof. destruct xs; [congruence|]. unfold len. cbn [List.length]. lia. Qed.

(** A run that enters the loop fetches some [k] pages that ask for
    more, then one page that ends it; the outcome is decided by that
    last page and the trace is the [k]+1 requests, paced. *)
Lemma core_run (fuel : nat) :
  forall results page t,
    len results < max_results ->
    (Z.to_nat (max_results - len results) <= fuel)%nat ->
    exists k,
      (forall i, (i < k)%nat ->
         is_more (verdict (records_at results (n_requests t) page i)
                           (reply_at (n_requests t) page i)) = true)
      /\ is_more (verdict (records_at results (n_requests t) page k)
                           (reply_at (n_requests t) page k)) = false
      /\ run fuel results page t
         = (outcome_of (verdict (records_at results (n_requests t) page k)
                                 (reply_at (n_requests t) page k))
                       (records_at results (n_requests t) page k),
            t ++ paced 2 (map (fun i => request (page + Z.of_nat i))
                              (seq 0 (S k)))).
Proof.
  induction fuel as [|fuel IH]; intros results page t Hlt Hfuel; [lia|].
  cbn [core_loop].
  apply Z.ltb_lt in Hlt as Hcond. rewrite Hcond.
  destruct (verdict results (service (n_requests t) (request page)))
    as [| | | status | | | last | more] eqn:V.
  8: {
    apply classify_more in V as Hmore. destruct Hmore as (Hrec & Hne & Hmax).
    apply len_pos in Hne. rewrite len_app in Hmax.
    destruct (IH (results ++ more) (page + 1)
                 (t ++ [Get (request page); Sleep 2])) as (k & Hk & Hstop & Hrun).
    { rewrite len_app. lia. }
    { rewrite len_app. lia. }
    assert (Hn : n_requests (t ++ [Get (request page); Sleep 2])
                 = S (n_requests t)).
    { rewrite n_requests_app. cbn. lia. }
    rewrite Hn in Hk, Hstop, Hrun.
    rewrite <- reply_from_0 in Hrec. subst more.
    exists (S k). split; [|split].
    - intros [|i] Hi.
      + rewrite records_from_0, reply_from_0, V. reflexivity.
      + rewrite <- records_from_shift, <- reply_from_shift.
        apply Hk. lia.
    - rewrite <- records_from_shift, <- reply_from_shift. exact Hstop.
    - rewrite Hrun, records_from_shift.
      rewrite <- (reply_from_shift _ _ k), <- app_assoc.
      do 2 f_equal.
      change (seq 0 (S (S k))) with (0%nat :: seq 1 (S k)).
      cbn [map]. rewrite map_seq_shift.
      cbn [seq map]. rewrite paced_cons. cbn [app Z.of_nat].
      rewrite Z.add_0_r. do 3 f_equal.
      + f_equal. lia.
      + f_equal. apply map_ext. intros i. f_equal. lia. }
  all: exists 0%nat; rewrite records_from_0, reply_from_0, V;
    cbn [seq map paced Z.of_nat]; rewrite Z.add_0_r;
    (split; [intros i Hi; lia | split; reflexivity]).
Qed.

End CoreRun.

(** ** Whole calls of [search_code] *)

Section SearchCodeFacts.
Context {Dict : Type}.
Variable GITHUB_TOKEN : string.
Variable service : Service (SearchBody Dict).
Variable query : string.
Variable max_results : Z.

Abbreviation search :=
  (ExperimentSearch.search_code GITHUB_TOKEN service query max_results).
Abbreviation reply_to := (nth_reply GITHUB_TOKEN service query).
Abbreviation before := (records_before GITHUB_TOKEN service query).
Abbreviation verdict := (classify max_results).
Abbreviation request := (search_request GITHUB_TOKEN query).

Lemma search_code_skip (w : World) :
  max_results <= 0 -> search w = (Returned [], w).
Proof.
  intros Hmax. unfold ExperimentSearch.search_code.
  cbn [ExperimentSearch.search_loop].
  replace (len (@nil Dict) <? max_results) with false; [reflexivity|].
  symmetry. apply Z.ltb_ge. exact Hmax.
Qed.

Lemma requests_issued_paced (w w' : World) (reqs : list Request) :
  trace w' = trace w ++ paced 2 reqs ->
  requests_issued w w' = List.length reqs.
Proof.
  intros Htrace. unfold requests_issued.
  rewrite Htrace, n_requests_app, n_requests_paced. lia.
Qed.

(** The run of a call that enters the loop. *)
Lemma search_code_run (w : World) :
  0 < max_results ->
  exists k,
    (forall i, (i < k)%nat ->
       is_more (verdict (before w i) (reply_to w i)) = true)
    /\ is_more (verdict (before w k) (reply_to w k)) = false
    /\ fst (search w)
       = outcome_of (verdict (before w k) (reply_to w k)) (before w k)
    /\ trace (snd (search w))
       = trace w ++ paced 2 (map (fun i => request (1 + Z.of_nat i))
                                 (seq 0 (S k))).
Proof.
  intros Hmax.
  pose proof (search_loop_observe GITHUB_TOKEN service query max_results
                (S (Z.to_nat max_results)) [] 1 w) as Hobs.
  destruct (core_run GITHUB_TOKEN service query max_results
              (S (Z.to_nat max_results)) [] 1 (trace w))
    as (k & Hmore & Hstop & Hrun).
  { exact Hmax. }
  { change (len (@nil Dict)) with 0. lia. }
  rewrite Hrun in Hobs. unfold observe in Hobs.
  injection Hobs as Hout Htrace.
  exists k. repeat split; assumption.
Qed.

(** A request that was issued and whose page does not ask for more is
    the last one, and decides the outcome. *)
Lemma search_code_stops_at (w : World) (j : nat) :
  (j < requests_issued w (snd (search w)))%nat ->
  is_more (verdict (before w j) (reply_to w j)) = false ->
  fst (search w) = outcome_of (verdict (before w j) (reply_to w j)) (before w j)
  /\ trace (snd (search w))
     = trace w ++ paced 2 (map (fun i => request (1 + Z.of_nat i))
                               (seq 0 (S j)))
  /\ requests_issued w (snd (search w)) = S j.
Proof.
  intros Hissued Hstop.
  destruct (Z_lt_le_dec 0 max_results) as [Hmax|Hmax].
  - destruct (search_code_run w Hmax) as (k & Hmore & Hlast & Hout & Htrace).
    pose proof (requests_issued_paced _ _ _ Htrace) as Hn.
    rewrite length_map, length_seq in Hn.
    assert (j = k) as ->.
    { destruct (Nat.lt_ge_cases j k) as [Hlt|Hge]; [|lia].
      rewrite (Hmore j Hlt) in Hstop. discriminate. }
    repeat split; assumption.
  - rewrite (search_code_skip w Hmax) in Hissued.
    unfold requests_issued in Hissued. cbn [snd] in Hissued. lia.
Qed.

(** A request that was issued and whose page asks for more is followed
    by another one. *)
Lemma search_code_continues_at (w : World) (j : nat) :
  (j < requests_issued w (snd (search w)))%nat ->
  is_more (verdict (before w j) (reply_to w j)) = true ->
  (S j < requests_issued w (snd (search w)))%nat.
Proof.
  intros Hissued Hmore.
  destruct (Z_lt_le_dec 0 max_results) as [Hmax|Hmax].
  - destruct (search_code_run w Hmax) as (k & _ & Hlast & _ & Htrace).
    pose proof (requests_issued_paced _ _ _ Htrace) as Hn.
    rewrite length_map, length_seq in Hn.
    assert (j <> k) by (intros ->; rewrite Hmore in Hlast; discriminate).
    lia.
  - rewrite (search_code_skip w Hmax) in Hissued.
    unfold requests_issued in Hissued. cbn [snd] in Hissued. lia.
Qed.

(** The first request is issued as soon as [max_results] is positive. *)
Lemma search_code_first_request (w : World) :
  0 < max_results -> (0 < requests_issued w (snd (search w)))%nat.
Proof.
  intros Hmax.
  destruct (search_code_run w Hmax) as (k & _ & _ & _ & Htrace).
  rewrite (requests_issued_paced _ _ _ Htrace), length_map, length_seq. lia.
Qed.

(** [search_code] always comes to an end. *)
Lemma search_code_terminates (w : World) : fst (search w) <> OutOfFuel.
Proof.
  destruct (Z_lt_le_dec 0 max_results) as [Hmax|Hmax].
  - destruct (search_code_run w Hmax) as (k & _ & Hlast & -> & _).
    destruct (verdict _ _); cbn; discriminate.
  - rewrite (search_code_skip w Hmax). discriminate.
Qed.

(** The verdict on a reply, case by case. *)
Lemma verdict_throttled_or_rejected (results : list Dict) r :
  status_code r = 403 \/ status_code r = 422 ->
  outcome_of (verdict results (Answer r)) results = Returned results
  /\ is_more (verdict results (Answer r)) = false.
Proof.
  intros [H|H]; unfold classify; rewrite H; cbn; split; reflexivity.
Qed.

Lemma verdict_http_error (results : list Dict) r :
  is_error_status (status_code r) = true ->
  status_code r <> 403 -> status_code r <> 422 ->
  verdict results (Answer r) = VHttpError (status_code r).
Proof.
  intros Herr H403 H422. unfold classify.
  apply Z.eqb_neq in H403, H422. rewrite H403, H422, Herr. reflexivity.
Qed.

Lemma verdict_fetched (results : list Dict) reply data :
  fetched reply data ->
  verdict results reply
  = let page_items := dict_get (items data) [] in
    if is_empty page_items then VEmpty
    else if (len (results ++ page_items) >=? dict_get (total_count data) 0)
            || (len (results ++ page_items) >=? max_results)
         then VLast page_items
         else VMore page_items.
Proof.
  intros (r & -> & Hok & Hjson). unfold classify.
  assert ((status_code r =? 403) = false) as ->.
  { apply Z.eqb_neq. intros E. rewrite E in Hok. discriminate. }
  assert ((status_code r =? 422) = false) as ->.
  { apply Z.eqb_neq. intros E. rewrite E in Hok. discriminate. }
  rewrite Hok, Hjson. reflexivity.
Qed.

Lemma fetched_records (reply : Reply (SearchBody Dict)) data :
  fetched reply data -> page_records reply = dict_get (items data) [].
Proof. intros (r & -> & _ & Hjson). cbn. rewrite Hjson. reflexivity. Qed.

End SearchCodeFacts.

(** ** Error signals of the search collector *)

(** C1.  Whatever the service answers, if a page request of
    [search_code] that was issued comes back with status 403 (throttled)
    or 422 (query rejected), the call returns normally, with exactly the
    records of the pages fetched before that request, in order; no
    exception is raised and no further request is issued. *)
Theorem search_code_throttled_or_rejected {Dict : Type}
    (GITHUB_TOKEN : string) (service : Service (SearchBody Dict))
    (query : string) (max_results : Z) (w : World)
    (j : nat) (r : Response (SearchBody Dict)) :
  let result :=
    ExperimentSearch.search_code GITHUB_TOKEN service query max_results w in
  (j < requests_issued w (snd result))%nat ->
  nth_reply GITHUB_TOKEN service query w j = Answer r ->
  status_code r = 403 \/ status_code r = 422 ->
  fst result = Returned (records_before GITHUB_TOKEN service query w j)
  /\ requests_issued w (snd result) = S j.
Proof.
  intros result Hissued Hreply Hstatus.
  destruct (verdict_throttled_or_rejected max_results
              (records_before GITHUB_TOKEN service query w j) r Hstatus)
    as [Hout Hstop].
  rewrite <- Hreply in Hout, Hstop.
  destruct (search_code_stops_at GITHUB_TOKEN service query max_results
              w j Hissued Hstop) as (Hfst & _ & Hn).
  split; [|exact Hn]. subst result. rewrite Hfst. exact Hout.
Qed.

Lemma search_code_throttled_or_rejected_witness :
  let service := scripted [page [1; 2]%nat (Some 10); status_only 403] in
  let result := ExperimentSearch.search_code "" service "q" 10 World0 in
  fst result = Returned [1; 2]%nat /\ requests_issued World0 (snd result) = 2%nat.
Proof.
  apply (search_code_throttled_or_rejected ""
           (scripted [page [1; 2]%nat (Some 10); status_only 403])
           "q" 10 World0 1 (mkResponse 403 None)).
  - vm_compute. apply le_n.
  - reflexivity.
  - left. reflexivity.
Defined.

(** C2, as stated, fails on "any unsuccessful status":
    [raise_for_status] rejects the statuses 400 to 599 only.  A response
    with status 304 and a decodable body is taken as a page, and its
    records are returned. *)
Lemma search_code_non_2xx_not_raised :
  ~ (forall (service : Service (SearchBody nat)) (max_results : Z)
            (w : World) (j : nat) (r : Response (SearchBody nat)),
       let result :=
         ExperimentSearch.search_code "" service "q" max_results w in
       (j < requests_issued w (snd result))%nat ->
       nth_reply "" service "q" w j = Answer r ->
       ~ (200 <= status_code r < 300) ->
       status_code r <> 403 ->
       status_code r <> 422 ->
       exists e, fst result = Raised e).
Proof.
  intros H.
  destruct (H (scripted
                 [Answer (mkResponse 304
                            (Some (mkSearchBody (Some [1; 2; 3]%nat)
                                     (Some 3))))])
              10 World0 0%nat
              (mkResponse 304
                 (Some (mkSearchBody (Some [1; 2; 3]%nat) (Some 3)))))
    as (e & He).
  - vm_compute. apply le_n.
  - reflexivity.
  - cbn. lia.
  - discriminate.
  - discriminate.
  - discriminate He.
Qed.

(** What the call returns there. *)
Example search_code_status_304 :
  let service : Service (SearchBody nat) :=
    scripted
      [Answer (mkResponse 304
                 (Some (mkSearchBody (Some [1; 2; 3]%nat) (Some 3))))] in
  fst (ExperimentSearch.search_code "" service "q" 10 World0)
  = Returned [1; 2; 3]%nat.
Proof. reflexivity. Qed.

(** C2, amended.  If a page request of [search_code] that was issued
    comes back with a status that [raise_for_status] rejects (400 to
    599: a client or a server error) other than 403 and 422, the call
    raises the HTTP error for that status; it returns no sequence at
    all, partial or not, and issues no further request. *)
Theorem search_code_other_error_raises {Dict : Type}
    (GITHUB_TOKEN : string) (service : Service (SearchBody Dict))
    (query : string) (max_results : Z) (w : World)
    (j : nat) (r : Response (SearchBody Dict)) :
  let result :=
    ExperimentSearch.search_code GITHUB_TOKEN service query max_results w in
  (j < requests_issued w (snd result))%nat ->
  nth_reply GITHUB_TOKEN service query w j = Answer r ->
  is_error_status (status_code r) = true ->
  status_code r <> 403 ->
  status_code r <> 422 ->
  fst result = Raised (HTTPError (status_code r))
  /\ (forall partial, fst result <> Returned partial)
  /\ requests_issued w (snd result) = S j.
Proof.
  intros result Hissued Hreply Herr H403 H422.
  pose proof (verdict_http_error max_results
                (records_before GITHUB_TOKEN service query w j) r
                Herr H403 H422) as Hv.
  rewrite <- Hreply in Hv.
  destruct (search_code_stops_at GITHUB_TOKEN service query max_results
              w j Hissued) as (Hfst & _ & Hn).
  { rewrite Hv. reflexivity. }
  rewrite Hv in Hfst. cbn [outcome_of] in Hfst. subst result.
  rewrite Hfst. repeat split; [discriminate | exact Hn].
Qed.

Lemma search_code_other_error_raises_witness :
  let service := scripted [page [1; 2]%nat (Some 10); status_only 500] in
  let result := ExperimentSearch.search_code "" service "q" 10 World0 in
  fst result = Raised (HTTPError 500)
  /\ (forall partial, fst result <> Returned partial)
  /\ requests_issued World0 (snd result) = 2%nat.
Proof.
  apply (search_code_other_error_raises ""
           (scripted [page [1; 2]%nat (Some 10); status_only 500])
           "q" 10 World0 1 (mkResponse 500 None)).
  - vm_compute. apply le_n.
  - reflexivity.
  - reflexivity.
  - discriminate.
  - discriminate.
Defined.

(** ** Exhaustion and the limit *)

(** C6.  If a page that [search_code] fetched successfully holds no
    records, the call stops there: it returns the records accumulated
    from the earlier pages and issues no further request.  In
    particular, when the first page is empty the call returns the empty
    sequence after exactly one request. *)
Theorem search_code_empty_page_stops {Dict : Type}
    (GITHUB_TOKEN : string) (service : Service (SearchBody Dict))
    (query : string) (max_results : Z) (w : World) :
  let result :=
    ExperimentSearch.search_code GITHUB_TOKEN service query max_results w in
  (forall j data,
     (j < requests_issued w (snd result))%nat ->
     fetched (nth_reply GITHUB_TOKEN service query w j) data ->
     dict_get (items data) [] = [] ->
     fst result = Returned (records_before GITHUB_TOKEN service query w j)
     /\ requests_issued w (snd result) = S j)
  /\ (forall data,
        0 < max_results ->
        fetched (nth_reply GITHUB_TOKEN service query w 0) data ->
        dict_get (items data) [] = [] ->
        fst result = Returned []
        /\ requests_issued w (snd result) = 1%nat).
Proof.
  intros result.
  assert (Hgen : forall j data,
     (j < requests_issued w (snd result))%nat ->
     fetched (nth_reply GITHUB_TOKEN service query w j) data ->
     dict_get (items data) [] = [] ->
     fst result = Returned (records_before GITHUB_TOKEN service query w j)
     /\ requests_issued w (snd result) = S j).
  { intros j data Hissued Hfetched Hempty.
    pose proof (verdict_fetched max_results
                  (records_before GITHUB_TOKEN service query w j)
                  _ _ Hfetched) as Hv.
    rewrite Hempty in Hv. cbn [is_empty] in Hv.
    destruct (search_code_stops_at GITHUB_TOKEN service query max_results
                w j Hissued) as (Hfst & _ & Hn).
    { rewrite Hv. reflexivity. }
    rewrite Hv in Hfst. split; assumption. }
  split; [exact Hgen|].
  intros data Hmax Hfetched Hempty.
  apply (Hgen 0%nat data); try assumption.
  apply search_code_first_request. exact Hmax.
Qed.

Lemma search_code_empty_page_stops_witness :
  let service := scripted [page [1; 2]%nat (Some 10); page [] (Some 10)] in
  let result := ExperimentSearch.search_code "" service "q" 10 World0 in
  fst result = Returned [1; 2]%nat /\ requests_issued World0 (snd result) = 2%nat.
Proof.
  apply (proj1 (search_code_empty_page_stops ""
                  (scripted [page [1; 2]%nat (Some 10); page [] (Some 10)])
                  "q" 10 World0)
               1%nat (mkSearchBody (Some []) (Some 10))).
  - vm_compute. apply le_n.
  - eexists. repeat split.
  - reflexivity.
Defined.

(** C7.  For every [max_results] at most 0, [search_code] returns the
    empty sequence and leaves the world as it found it: the loop body
    never runs, so no request is issued (and nothing is printed or
    slept). *)
Theorem search_code_nonpositive_max {Dict : Type}
    (GITHUB_TOKEN : string) (service : Service (SearchBody Dict))
    (query : string) (max_results : Z) (w : World) :
  max_results <= 0 ->
  ExperimentSearch.search_code GITHUB_TOKEN service query max_results w
  = (Returned [], w)
  /\ requests_issued w
       (snd (ExperimentSearch.search_code GITHUB_TOKEN service query
               max_results w)) = 0%nat.
Proof.
  intros Hmax. rewrite (search_code_skip _ _ _ _ w Hmax).
  split; [reflexivity|]. unfold requests_issued. cbn [snd]. lia.
Qed.

Lemma search_code_nonpositive_max_witness :
  let service := scripted [page [1; 2]%nat (Some 10)] in
  ExperimentSearch.search_code "" service "q" (-3) World0 = (Returned [], World0)
  /\ requests_issued World0
       (snd (ExperimentSearch.search_code "" service "q" (-3) World0)) = 0%nat.
Proof.
  apply (search_code_nonpositive_max ""
           (scripted [page [1; 2]%nat (Some 10)]) "q" (-3) World0).
  lia.
Defined.

(** ** The records returned *)

Section SearchCodeRecords.
Context {Dict : Type}.
Variable GITHUB_TOKEN : string.
Variable service : Service (SearchBody Dict).
Variable query : string.
Variable max_results : Z.

Abbreviation search :=
  (ExperimentSearch.search_code GITHUB_TOKEN service query max_results).
Abbreviation reply_to := (nth_reply GITHUB_TOKEN service query).
Abbreviation before := (records_before GITHUB_TOKEN service query).
Abbreviation verdict := (classify max_results).

Lemma records_before_0 (w : World) : before w 0 = [].
Proof. reflexivity. Qed.

Lemma records_before_S (w : World) (n : nat) :
  before w (S n) = before w n ++ page_records (reply_to w n).
Proof. apply records_from_S. Qed.

Lemma classify_last (results : list Dict) reply page_items :
  verdict results reply = VLast page_items ->
  page_items = page_records reply.
Proof.
  unfold classify, page_records.
  destruct reply as [|r]; [discriminate|].
  destruct (status_code r =? 403); [discriminate|].
  destruct (status_code r =? 422); [discriminate|].
  destruct (is_error_status (status_code r)); [discriminate|].
  destruct (json r) as [data|]; [|discriminate].
  cbn zeta.
  destruct (is_empty _); [discriminate|].
  destruct (_ || _); [|discriminate].
  intros [= <-]. reflexivity.
Qed.

(** A page that asks for more was fetched, and the records so far stay
    below the count the service advertises. *)
Lemma classify_more_fetched (results : list Dict) reply page_items :
  verdict results reply = VMore page_items ->
  exists data,
    fetched reply data
    /\ len (results ++ page_items) < dict_get (total_count data) 0.
Proof.
  unfold classify.
  destruct reply as [|r]; [discriminate|].
  destruct (status_code r =? 403); [discriminate|].
  destruct (status_code r =? 422); [discriminate|].
  destruct (is_error_status (status_code r)) eqn:Hok; [discriminate|].
  destruct (json r) as [data|] eqn:Hjson; [|discriminate].
  cbn zeta.
  destruct (is_empty _); [discriminate|].
  destruct (_ || _) eqn:Stop; [discriminate|].
  intros [= <-]. apply orb_false_elim in Stop as [Htotal _].
  exists data. split; [exists r; auto | lia].
Qed.

(** While the loop asks for more, the records stay below the limit. *)
Lemma records_below_limit (w : World) (k : nat) :
  0 < max_results ->
  (forall i, (i < k)%nat ->
     is_more (verdict (before w i) (reply_to w i)) = true) ->
  len (before w k) < max_results.
Proof.
  intros Hmax Hmore. destruct k as [|k]; [exact Hmax|].
  specialize (Hmore k (Nat.lt_succ_diag_r k)).
  destruct (verdict (before w k) (reply_to w k)) as [| | | | | | |more] eqn:V;
    try discriminate.
  apply classify_more in V as (-> & _ & Hlt).
  rewrite records_before_S. exact Hlt.
Qed.

(** What is returned is always a whole number of pages, in the order
    they were requested. *)
Lemma search_code_returns_pages (w : World) (results : list Dict) :
  fst (search w) = Returned results ->
  exists n, (n <= requests_issued w (snd (search w)))%nat
            /\ results = before w n.
Proof.
  destruct (Z_lt_le_dec 0 max_results) as [Hmax|Hmax].
  - destruct (search_code_run GITHUB_TOKEN service query max_results w Hmax)
      as (k & _ & _ & Hout & Htrace).
    rewrite (requests_issued_paced _ _ _ Htrace), length_map, length_seq.
    rewrite Hout.
    destruct (verdict (before w k) (reply_to w k)) as [| | | | | |last|] eqn:V;
      cbn [outcome_of]; try discriminate.
    1-3: intros [= <-]; exists k; split; [lia | reflexivity].
    intros [= <-]. exists (S k). split; [lia|].
    rewrite records_before_S. apply classify_last in V as ->. reflexivity.
  - rewrite (search_code_skip _ _ _ _ w Hmax). intros [= <-].
    exists 0%nat. split; [lia | reflexivity].
Qed.


End SearchCodeRecords.

Section FetchedPages.
Context {Dict : Type}.
Variable max_results : Z.

Lemma is_empty_false {A : Type} (xs : list A) :
  0 < len xs -> is_empty xs = false.
Proof. destruct xs; [cbn; lia | reflexivity]. Qed.

Lemma verdict_page_more (results : list Dict) reply data :
  fetched reply data ->
  0 < len (dict_get (items data) []) ->
  len (results ++ dict_get (items data) []) < dict_get (total_count data) 0 ->
  len (results ++ dict_get (items data) []) < max_results ->
  classify max_results results reply = VMore (dict_get (items data) []).
Proof.
  intros Hfetched Hne Htotal Hmax.
  rewrite (verdict_fetched max_results results reply data Hfetched).
  cbn zeta. rewrite (is_empty_false _ Hne).
  replace (_ || _) with false; [reflexivity|].
  symmetry. apply orb_false_intro; rewrite Z.geb_leb; apply Z.leb_gt; lia.
Qed.

Lemma verdict_page_last (results : list Dict) reply data :
  fetched reply data ->
  0 < len (dict_get (items data) []) ->
  dict_get (total_count data) 0 <= len (results ++ dict_get (items data) [])
  \/ max_results <= len (results ++ dict_get (items data) []) ->
  classify max_results results reply = VLast (dict_get (items data) []).
Proof.
  intros Hfetched Hne Hstop.
  rewrite (verdict_fetched max_results results reply data Hfetched).
  cbn zeta. rewrite (is_empty_false _ Hne).
  replace (_ || _) with true; [reflexivity|].
  symmetry. apply orb_true_intro.
  destruct Hstop; [left | right]; rewrite Z.geb_leb; apply Z.leb_le; lia.
Qed.

End FetchedPages.



(** C5.  [search_code] returns the records in arrival order, page after
    page and within a page as received: its result is the concatenation
    of the pages it fetched, in the order it requested them.  Given
    three pages of 100, 100 and 50 records, each advertising
    [total_count = 250], [search_code(query, 250)] returns the three
    pages concatenated (250 records) and issues exactly 3 requests. *)
Theorem search_code_arrival_order {Dict : Type}
    (GITHUB_TOKEN : string) (service : Service (SearchBody Dict))
    (query : string) (max_results : Z) (w : World) :
  let result :=
    ExperimentSearch.search_code GITHUB_TOKEN service query max_results w in
  let result250 :=
    ExperimentSearch.search_code GITHUB_TOKEN service query 250 w in
  let reply := nth_reply GITHUB_TOKEN service query w in
  (forall results,
     fst result = Returned results ->
     exists n, (n <= requests_issued w (snd result))%nat
               /\ results = records_before GITHUB_TOKEN service query w n)
  /\ (forall page1 page2 page3,
        fetched (reply 0%nat) (mkSearchBody (Some page1) (Some 250)) ->
        fetched (reply 1%nat) (mkSearchBody (Some page2) (Some 250)) ->
        fetched (reply 2%nat) (mkSearchBody (Some page3) (Some 250)) ->
        len page1 = 100 -> len page2 = 100 -> len page3 = 50 ->
        fst result250 = Returned (page1 ++ page2 ++ page3)
        /\ len (page1 ++ page2 ++ page3) = 250
        /\ requests_issued w (snd result250) = 3%nat).
Proof.
  intros result result250 reply. split.
  - intros results. apply search_code_returns_pages.
  - intros page1 page2 page3 F1 F2 F3 L1 L2 L3.
    pose proof (records_before_0 GITHUB_TOKEN service query w) as B0.
    pose proof (records_before_S GITHUB_TOKEN service query w 0) as B1.
    pose proof (records_before_S GITHUB_TOKEN service query w 1) as B2.
    fold reply in B1, B2.
    rewrite (fetched_records _ _ F1) in B1. rewrite (fetched_records _ _ F2) in B2.
    cbn [dict_get items] in B1, B2. rewrite B0 in B1. cbn [app] in B1.
    rewrite B1 in B2.
    assert (I1 : (1 < requests_issued w (snd result250))%nat).
    { apply search_code_continues_at.
      - apply search_code_first_request. lia.
      - fold reply. rewrite B0.
        rewrite (verdict_page_more 250 [] _ _ F1); cbn [dict_get items total_count app];
          [reflexivity | lia..]. }
    assert (I2 : (2 < requests_issued w (snd result250))%nat).
    { apply search_code_continues_at; [exact I1|].
      fold reply. rewrite B1.
      rewrite (verdict_page_more 250 page1 _ _ F2);
        cbn [dict_get items total_count]; rewrite ?len_app;
          [reflexivity | lia..]. }
    destruct (search_code_stops_at GITHUB_TOKEN service query 250 w 2 I2)
      as (Hfst & _ & Hn).
    { fold reply. rewrite B2.
      rewrite (verdict_page_last 250 (page1 ++ page2) _ _ F3);
        cbn [dict_get items total_count]; rewrite ?len_app;
          [reflexivity | lia | left; lia]. }
    fold reply in Hfst. rewrite B2 in Hfst.
    rewrite (verdict_page_last 250 (page1 ++ page2) _ _ F3) in Hfst;
      cbn [dict_get items total_count]; rewrite ?len_app; [|lia | left; lia].
    cbn [outcome_of dict_get items] in Hfst. rewrite <- app_assoc in Hfst.
    repeat split; [exact Hfst | rewrite ?len_app; lia | exact Hn].
Qed.

Lemma search_code_arrival_order_witness :
  let service :=
    scripted [page (seq 0 100) (Some 250); page (seq 100 100) (Some 250);
              page (seq 200 50) (Some 250)] in
  let result250 := ExperimentSearch.search_code "" service "q" 250 World0 in
  fst result250 = Returned (seq 0 100 ++ seq 100 100 ++ seq 200 50)
  /\ len (seq 0 100 ++ seq 100 100 ++ seq 200 50) = 250
  /\ requests_issued World0 (snd result250) = 3%nat.
Proof.
  apply (proj2 (search_code_arrival_order ""
                  (scripted [page (seq 0 100) (Some 250);
                             page (seq 100 100) (Some 250);
                             page (seq 200 50) (Some 250)])
                  "q" 250 World0)).
  - eexists. repeat split.
  - eexists. repeat split.
  - eexists. repeat split.
  - reflexivity.
  - reflexivity.
  - reflexivity.
Defined.

(** ** Pacing *)

(** C8.  The trace of a call of [search_code] is its page requests, for
    pages 1, 2, ... in turn, with a pause of 2 between each request and
    the next and nowhere else: the pause comes after the decision to
    fetch another page.  A call that stops after its first page makes no
    pause: with [max_results = 200] and a first page that holds all 57
    records of [total_count = 57], the call returns the 57 records and
    its trace is the single request for page 1. *)
Theorem search_code_delay_between_requests {Dict : Type}
    (GITHUB_TOKEN : string) (service : Service (SearchBody Dict))
    (query : string) (max_results : Z) (w : World) :
  let result :=
    ExperimentSearch.search_code GITHUB_TOKEN service query max_results w in
  let lima := "minimumLimaVersion extension:yml" in
  let result200 :=
    ExperimentSearch.search_code GITHUB_TOKEN service lima 200 w in
  trace (snd result)
  = trace w ++ paced 2 (map (fun i => search_request GITHUB_TOKEN query
                                        (1 + Z.of_nat i))
                            (seq 0 (requests_issued w (snd result))))
  /\ (forall records,
        fetched (nth_reply GITHUB_TOKEN service lima w 0)
                (mkSearchBody (Some records) (Some 57)) ->
        len records = 57 ->
        fst result200 = Returned records
        /\ requests_issued w (snd result200) = 1%nat
        /\ trace (snd result200)
           = trace w ++ [Get (search_request GITHUB_TOKEN lima 1)]).
Proof.
  intros result lima result200. split.
  - destruct (Z_lt_le_dec 0 max_results) as [Hmax|Hmax].
    + destruct (search_code_run GITHUB_TOKEN service query max_results w Hmax)
        as (k & _ & _ & _ & Htrace).
      fold result in Htrace.
      rewrite (requests_issued_paced _ _ _ Htrace), length_map, length_seq.
      exact Htrace.
    + subst result. rewrite (search_code_skip _ _ _ _ w Hmax).
      unfold requests_issued. cbn [snd]. rewrite Nat.sub_diag.
      cbn [seq map paced]. rewrite app_nil_r. reflexivity.
  - intros records Hfetched Hlen.
    assert (Hv : classify 200 (records_before GITHUB_TOKEN service lima w 0)
                   (nth_reply GITHUB_TOKEN service lima w 0) = VLast records).
    { rewrite (verdict_page_last 200 _ _ _ Hfetched);
        cbn [dict_get items total_count]; [reflexivity | lia |].
      left. rewrite len_app. change (len (records_before _ _ _ w 0)) with 0. lia. }
    destruct (search_code_stops_at GITHUB_TOKEN service lima 200 w 0)
      as (Hfst & Htrace & Hn).
    { apply search_code_first_request. lia. }
    { rewrite Hv. reflexivity. }
    rewrite Hv in Hfst. repeat split; assumption.
Qed.

Lemma search_code_delay_between_requests_witness :
  let service := scripted [page (seq 0 57) (Some 57)] in
  let lima := "minimumLimaVersion extension:yml" in
  let result200 := ExperimentSearch.search_code "" service lima 200 World0 in
  fst result200 = Returned (seq 0 57)
  /\ requests_issued World0 (snd result200) = 1%nat
  /\ trace (snd result200) = [Get (search_request "" lima 1)].
Proof.
  apply (proj2 (search_code_delay_between_requests ""
                  (scripted [page (seq 0 57) (Some 57)]) "q" 200 World0)).
  - eexists. repeat split.
  - reflexivity.
Defined.

(** ** The two implementations *)

Section TypedBodies.
Context {Dict : Type}.
Variable GITHUB_TOKEN : string.
Variable service : Service (Untyped.Body Dict).
Variable query : string.
Variable max_results : Z.
Hypothesis list_valued_service : Untyped.list_valued service.

(** On bodies whose [items] is a list or absent, the functions over
    untyped bodies are the functions over typed ones. *)
Lemma typed_search_loop (fuel : nat) :
  forall results page w,
    Untyped.ExperimentSearch.search_loop GITHUB_TOKEN service query
      max_results fuel results page w
    = ExperimentSearch.search_loop GITHUB_TOKEN (Untyped.typed service)
        query max_results fuel results page w.
Proof.
  induction fuel as [|fuel IH]; intros results page w; [reflexivity|].
  cbn [Untyped.ExperimentSearch.search_loop ExperimentSearch.search_loop].
  destruct (len results <? max_results); [|reflexivity].
  unfold_effects. unfold Untyped.typed. cbn [trace stdout].
  destruct (service _ _) as [|r] eqn:Hreply; [reflexivity|].
  cbn [status_code json].
  destruct (status_code r =? 403); [reflexivity|].
  destruct (status_code r =? 422); [reflexivity|].
  destruct (is_error_status (status_code r)); [reflexivity|].
  destruct (json r) as [data|] eqn:Hjson; [|reflexivity].
  unfold Untyped.typed_body. cbn [items total_count dict_get].
  destruct (Untyped.items data) as [[records|]|] eqn:Hitems.
  - cbn [dict_get Untyped.py_len Untyped.py_not Untyped.extend].
    unfold ret. destruct (is_empty records); [reflexivity|].
    destruct (_ || _); [reflexivity|]. apply IH.
  - exfalso. exact (list_valued_service _ _ _ _ Hreply Hjson Hitems).
  - cbn [dict_get Untyped.py_len Untyped.py_not Untyped.extend is_empty].
    reflexivity.
Qed.

Lemma typed_fork_search_loop (fuel : nat) :
  forall results page w,
    Untyped.ExperimentForkSearch.search_loop GITHUB_TOKEN service query
      max_results fuel results page w
    = ExperimentForkSearch.search_loop GITHUB_TOKEN (Untyped.typed service)
        query max_results fuel results page w.
Proof.
  induction fuel as [|fuel IH]; intros results page w; [reflexivity|].
  cbn [Untyped.ExperimentForkSearch.search_loop
       ExperimentForkSearch.search_loop].
  destruct (len results <? max_results); [|reflexivity].
  unfold_effects. unfold Untyped.typed. cbn [trace stdout].
  destruct (service _ _) as [|r] eqn:Hreply; [reflexivity|].
  cbn [status_code json].
  destruct (status_code r =? 403); [reflexivity|].
  destruct (status_code r =? 422); [reflexivity|].
  destruct (is_error_status (status_code r)); [reflexivity|].
  destruct (json r) as [data|] eqn:Hjson; [|reflexivity].
  unfold Untyped.typed_body. cbn [items total_count dict_get].
  destruct (Untyped.items data) as [[records|]|] eqn:Hitems.
  - cbn [dict_get Untyped.py_len Untyped.py_not Untyped.extend].
    unfold ret. destruct (is_empty records); [reflexivity|].
    destruct (_ || _); [reflexivity|]. apply IH.
  - exfalso. exact (list_valued_service _ _ _ _ Hreply Hjson Hitems).
  - cbn [dict_get Untyped.py_len Untyped.py_not Untyped.extend is_empty].
    reflexivity.
Qed.

End TypedBodies.

(** C9, as stated, fails on a decodable body whose [items] is [null]:
    [search_code] of [experiment_search.py] takes [len(items)] for the
    line it prints, before the test [if not items], and raises
    [TypeError]; [search_code] of [experiment_fork_search.py] prints
    nothing there, finds [items] false and returns what it has. *)
Lemma search_code_implementations_differ_on_null :
  ~ (forall (service : Service (Untyped.Body nat)) (query : string)
            (max_results : Z) (w : World),
       fst (Untyped.ExperimentSearch.search_code "" service query
              max_results w)
       = fst (Untyped.ExperimentForkSearch.search_code "" service query
                max_results w)).
Proof.
  intros H.
  specialize (H (scripted [Untyped.null_page (Some 1)]) "q" 10 World0).
  vm_compute in H. discriminate H.
Qed.

(** The two outcomes on that body. *)
Example search_code_null_items :
  let service : Service (Untyped.Body nat) :=
    scripted [Untyped.null_page (Some 1)] in
  fst (Untyped.ExperimentSearch.search_code "" service "q" 10 World0)
  = Raised TypeError
  /\ fst (Untyped.ExperimentForkSearch.search_code "" service "q" 10 World0)
     = Returned [].
Proof. split; reflexivity. Qed.

(** C9, amended.  On every service whose decodable bodies have a list
    under [items], or no such key, and for the same token, query,
    [max_results] and starting world, [search_code] of
    [experiment_search.py] and [search_code] of
    [experiment_fork_search.py] come to an end with the same outcome
    (the same result sequence, or the same exception) and the same trace
    of requests and pauses; they differ in what they print and in the
    default value of [max_results] (1000 and 100). *)
Theorem search_code_implementations_agree_on_lists {Dict : Type}
    (GITHUB_TOKEN : string) (service : Service (Untyped.Body Dict))
    (query : string) (max_results : Z) (w : World) :
  Untyped.list_valued service ->
  observe (Untyped.ExperimentSearch.search_code GITHUB_TOKEN service query
             max_results w)
  = observe (Untyped.ExperimentForkSearch.search_code GITHUB_TOKEN service
               query max_results w)
  /\ fst (Untyped.ExperimentSearch.search_code GITHUB_TOKEN service query
            max_results w) <> OutOfFuel
  /\ ExperimentSearch.default_max_results = 1000
  /\ ExperimentForkSearch.default_max_results = 100.
Proof.
  intros Hlists.
  unfold Untyped.ExperimentSearch.search_code,
    Untyped.ExperimentForkSearch.search_code.
  rewrite (typed_search_loop GITHUB_TOKEN service query max_results Hlists),
    (typed_fork_search_loop GITHUB_TOKEN service query max_results Hlists).
  split; [|split; [|split; reflexivity]].
  - rewrite search_loop_observe, fork_search_loop_observe. reflexivity.
  - apply (search_code_terminates GITHUB_TOKEN (Untyped.typed service) query
             max_results w).
Qed.

Lemma search_code_implementations_agree_on_lists_witness :
  let service : Service (Untyped.Body nat) :=
    scripted
      [Answer (mkResponse 200
                 (Some (Untyped.mkBody (Some (Untyped.Records [1; 2]%nat))
                          (Some 3))));
       Answer (mkResponse 200 (Some (Untyped.mkBody None (Some 3))))] in
  observe (Untyped.ExperimentSearch.search_code "" service "q" 10 World0)
  = observe (Untyped.ExperimentForkSearch.search_code "" service "q" 10
               World0)
  /\ fst (Untyped.ExperimentSearch.search_code "" service "q" 10 World0)
     <> OutOfFuel
  /\ ExperimentSearch.default_max_results = 1000
  /\ ExperimentForkSearch.default_max_results = 100.
Proof.
  intros service.
  apply (search_code_implementations_agree_on_lists "" service "q" 10 World0).
  intros served request r data Hreply Hjson. unfold service, scripted in Hreply.
  destruct served as [|[|served]]; cbn [nth] in Hreply.
  - injection Hreply as <-. injection Hjson as <-. discriminate.
  - injection Hreply as <-. injection Hjson as <-. discriminate.
  - destruct served; discriminate Hreply.
Defined.

(** The printed output does differ: on a throttled first request the two
    implementations write different lines. *)
Example search_code_prints_differ :
  let service : Service (SearchBody nat) := scripted [status_only 403] in
  stdout (snd (ExperimentSearch.search_code "" service "q" 10 World0))
  <> stdout (snd (ExperimentForkSearch.search_code "" service "q" 10 World0)).
Proof. cbv zeta. vm_compute. discriminate. Qed.

(** ** Termination and a missing [total_count] *)

Section SearchCodeFuel.
Context {Dict : Type}.
Variable GITHUB_TOKEN : string.
Variable service : Service (SearchBody Dict).
Variable query : string.
Variable max_results : Z.

(** Once the loop has come to an end, more fuel changes nothing. *)
Lemma search_loop_fuel (fuel : nat) :
  forall results page w extra,
    fst (ExperimentSearch.search_loop GITHUB_TOKEN service query max_results
           fuel results page w) <> OutOfFuel ->
    ExperimentSearch.search_loop GITHUB_TOKEN service query max_results
      (fuel + extra) results page w
    = ExperimentSearch.search_loop GITHUB_TOKEN service query max_results
        fuel results page w.
Proof.
  induction fuel as [|fuel IH]; intros results page w extra.
  { cbn. intros H. now contradiction H. }
  cbn [ExperimentSearch.search_loop Nat.add].
  destruct (len results <? max_results); [|reflexivity].
  unfold_effects. cbn [trace stdout fst snd].
  destruct (service _ _) as [|r]; [reflexivity|].
  destruct (status_code r =? 403); [reflexivity|].
  destruct (status_code r =? 422); [reflexivity|].
  destruct (is_error_status (status_code r)); [reflexivity|].
  destruct (json r) as [data|]; [|reflexivity].
  cbn zeta.
  destruct (is_empty (dict_get (items data) [])); [reflexivity|].
  destruct (_ || _); [reflexivity|].
  apply IH.
Qed.

(** [search_code] does the same with any larger amount of fuel. *)
Lemma search_code_fuel (w : World) (extra : nat) :
  ExperimentSearch.search_loop GITHUB_TOKEN service query max_results
    (S (Z.to_nat max_results) + extra) [] 1 w
  = ExperimentSearch.search_code GITHUB_TOKEN service query max_results w.
Proof.
  apply search_loop_fuel.
  apply (search_code_terminates GITHUB_TOKEN service query max_results w).
Qed.

(** Reading an absent [total_count] as 0 is all the code does with it. *)
Lemma search_loop_default_total_count (fuel : nat) :
  forall results page w,
    ExperimentSearch.search_loop GITHUB_TOKEN
      (with_default_total_count service) query max_results
      fuel results page w
    = ExperimentSearch.search_loop GITHUB_TOKEN service query max_results
        fuel results page w.
Proof.
  induction fuel as [|fuel IH]; intros results page w; [reflexivity|].
  cbn [ExperimentSearch.search_loop].
  destruct (len results <? max_results); [|reflexivity].
  unfold_effects. unfold with_default_total_count.
  cbn [trace stdout fst snd].
  destruct (service _ _) as [|r]; [reflexivity|].
  cbn [status_code json].
  destruct (status_code r =? 403); [reflexivity|].
  destruct (status_code r =? 422); [reflexivity|].
  destruct (is_error_status (status_code r)); [reflexivity|].
  destruct (json r) as [data|]; [|reflexivity].
  cbn [option_map items total_count dict_get].
  destruct (is_empty _); [reflexivity|].
  destruct (_ || _); [reflexivity|].
  apply IH.
Qed.

End SearchCodeFuel.

(** C4, as stated, fails: it is not the empty-page check that ends the
    loop when [total_count] is absent.  Against a service whose every
    page holds one record and no [total_count], [search_code(q, 10)]
    returns after the first page with one record, although that page was
    not empty, fewer than [max_results] records were collected and the
    next page would have brought another record. *)
Lemma search_code_missing_total_count_not_exhaustion :
  ~ (forall (service : Service (SearchBody nat)) (max_results : Z) (w : World),
       let result :=
         ExperimentSearch.search_code "" service "q" max_results w in
       (forall i, exists data,
          fetched (nth_reply "" service "q" w i) data
          /\ total_count data = None) ->
       forall results,
         fst result = Returned results ->
         len results < max_results ->
         exists j data,
           requests_issued w (snd result) = S j
           /\ fetched (nth_reply "" service "q" w j) data
           /\ dict_get (items data) [] = []).
Proof.
  intros H.
  destruct (H (fun _ _ => page [7%nat] None) 10 World0) with (results := [7%nat])
    as (j & data & Hn & Hfetched & Hempty).
  - intros i. exists (mkSearchBody (Some [7%nat]) None).
    split; [eexists; repeat split | reflexivity].
  - reflexivity.
  - reflexivity.
  - destruct Hfetched as (r & Hreply & _ & Hjson).
    injection Hreply as <-. injection Hjson as <-. discriminate Hempty.
Qed.

(** C4, amended.  When the bodies carry no [total_count], [search_code]
    reads it as 0 (it runs exactly as it would against the service with
    0 filled in) and comes to an end, after at most one request: a first
    page with records ends the loop at once, since the number of records
    is at least 0, and the call returns that page alone; the empty-page
    check ends the loop only when the first page itself is empty. *)
Theorem search_code_missing_total_count {Dict : Type}
    (GITHUB_TOKEN : string) (service : Service (SearchBody Dict))
    (query : string) (max_results : Z) (w : World) :
  let result :=
    ExperimentSearch.search_code GITHUB_TOKEN service query max_results w in
  (forall i data,
     fetched (nth_reply GITHUB_TOKEN service query w i) data ->
     total_count data = None) ->
  result = ExperimentSearch.search_code GITHUB_TOKEN
             (with_default_total_count service) query max_results w
  /\ fst result <> OutOfFuel
  /\ (requests_issued w (snd result) <= 1)%nat
  /\ (forall data,
        0 < max_results ->
        fetched (nth_reply GITHUB_TOKEN service query w 0) data ->
        fst result = Returned (dict_get (items data) [])
        /\ requests_issued w (snd result) = 1%nat).
Proof.
  intros result Hmissing.
  assert (Hfirst : 0 < max_results ->
            is_more (classify max_results
                       (records_before GITHUB_TOKEN service query w 0)
                       (nth_reply GITHUB_TOKEN service query w 0)) = false).
  { intros Hmax.
    destruct (classify _ _ _) as [| | | | | | |more] eqn:V; try reflexivity.
    apply classify_more_fetched in V as (data & Hfetched & Hlt).
    rewrite (Hmissing 0%nat data Hfetched) in Hlt. cbn [dict_get] in Hlt.
    unfold len in Hlt. lia. }
  split; [|split; [|split]].
  - subst result. unfold ExperimentSearch.search_code.
    symmetry. apply search_loop_default_total_count.
  - apply search_code_terminates.
  - destruct (Z_lt_le_dec 0 max_results) as [Hmax|Hmax].
    + destruct (search_code_stops_at GITHUB_TOKEN service query max_results w 0)
        as (_ & _ & Hn).
      * apply search_code_first_request. exact Hmax.
      * apply Hfirst. exact Hmax.
      * fold result in Hn. lia.
    + subst result. rewrite (search_code_skip _ _ _ _ w Hmax).
      unfold requests_issued. cbn [snd]. lia.
  - intros data Hmax Hfetched.
    destruct (search_code_stops_at GITHUB_TOKEN service query max_results w 0)
      as (Hfst & _ & Hn).
    + apply search_code_first_request. exact Hmax.
    + apply Hfirst. exact Hmax.
    + fold result in Hfst, Hn. split; [|exact Hn]. rewrite Hfst.
      rewrite (verdict_fetched max_results _ _ _ Hfetched).
      rewrite (Hmissing 0%nat data Hfetched).
      cbn [dict_get]. cbn zeta.
      destruct (dict_get (items data) []) as [|x xs] eqn:E; [reflexivity|].
      cbn [is_empty].
      replace (len (records_before GITHUB_TOKEN service query w 0 ++ x :: xs) >=? 0)
        with true; [reflexivity|].
      symmetry. rewrite Z.geb_leb. apply Z.leb_le. unfold len. lia.
Qed.

Lemma search_code_missing_total_count_witness :
  let service : Service (SearchBody nat) := fun _ _ => page [7%nat] None in
  let result := ExperimentSearch.search_code "" service "q" 10 World0 in
  result = ExperimentSearch.search_code ""
             (with_default_total_count service) "q" 10 World0
  /\ fst result <> OutOfFuel
  /\ (requests_issued World0 (snd result) <= 1)%nat
  /\ (forall data,
        0 < 10 ->
        fetched (nth_reply "" service "q" World0 0) data ->
        fst result = Returned (dict_get (items data) [])
        /\ requests_issued World0 (snd result) = 1%nat).
Proof.
  apply (search_code_missing_total_count ""
           (fun _ _ => page [7%nat] None) "q" 10 World0).
  intros i data (r & Hreply & _ & Hjson).
  injection Hreply as <-. injection Hjson as <-. reflexivity.
Defined.

(** ** The fork lister *)

Section ListForksRun.
Context {Dict : Type}.
Variable GITHUB_TOKEN : string.
Variable service : Service (list Dict).
Variables owner repo : string.
Variable max_forks : Z.

Abbreviation forks_loop :=
  (ExperimentForkSearch.forks_loop GITHUB_TOKEN service owner repo max_forks).
Abbreviation list_forks :=
  (ExperimentForkSearch.list_forks GITHUB_TOKEN service owner repo max_forks).
Abbreviation freply_at := (forks_reply_from GITHUB_TOKEN service owner repo).
Abbreviation forks_at := (forks_from GITHUB_TOKEN service owner repo).
Abbreviation freply_to := (nth_forks_reply GITHUB_TOKEN service owner repo).
Abbreviation fbefore := (forks_before GITHUB_TOKEN service owner repo).
Abbreviation frequest := (forks_request GITHUB_TOKEN owner repo).

Lemma forks_reply_from_0 served page :
  freply_at served page 0 = service served (frequest page).
Proof.
  unfold forks_reply_from. rewrite Nat.add_0_r, Z.add_0_r. reflexivity.
Qed.

Lemma forks_reply_from_shift served page i :
  freply_at (S served) (page + 1) i = freply_at served page (S i).
Proof.
  unfold forks_reply_from. f_equal; [lia|]. f_equal. lia.
Qed.

Lemma forks_from_0 forks served page : forks_at forks served page 0 = forks.
Proof. unfold forks_from. cbn. apply app_nil_r. Qed.

Lemma forks_from_S forks served page n :
  forks_at forks served page (S n)
  = forks_at forks served page n ++ page_forks (freply_at served page n).
Proof.
  unfold forks_from.
  rewrite seq_S, map_app, concat_app. cbn [map List.concat Nat.add].
  rewrite app_nil_r, app_assoc. reflexivity.
Qed.

Lemma forks_from_shift forks served page n :
  forks_at (forks ++ page_forks (freply_at served page 0))
           (S served) (page + 1) n
  = forks_at forks served page (S n).
Proof.
  unfold forks_from.
  cbn [seq map List.concat]. rewrite map_seq_shift, <- app_assoc.
  do 3 f_equal. apply map_ext. intros i. rewrite forks_reply_from_shift.
  reflexivity.
Qed.

Lemma classify_forks_full (reply : Reply (list Dict)) page_items :
  classify_forks reply = FFull page_items ->
  page_items = page_forks reply /\ 100 <= len page_items.
Proof.
  unfold classify_forks, page_forks.
  destruct reply as [|r]; [discriminate|].
  destruct (is_error_status (status_code r)); [discriminate|].
  destruct (json r) as [body|]; [|discriminate].
  destruct (is_empty body); [discriminate|].
  destruct (len body <? 100) eqn:Short; [discriminate|].
  intros [= <-]. apply Z.ltb_ge in Short. split; [reflexivity | exact Short].
Qed.

(** One turn of the loop, by the verdict on the reply. *)
Lemma forks_loop_S (fuel : nat) forks page w :
  forks_loop (S fuel) forks page w
  = if len forks <? max_forks then
      match classify_forks (service (n_requests (trace w)) (frequest page)) with
      | FFull page_items =>
        forks_loop fuel (forks ++ page_items) (page + 1)
          (mkWorld (trace w ++ [Get (frequest page); Sleep (1 # 2)]) (stdout w))
      | v => (forks_outcome_of v forks,
              mkWorld (trace w ++ [Get (frequest page)]) (stdout w))
      end
    else (Returned forks, w).
Proof.
  cbn [ExperimentForkSearch.forks_loop].
  destruct (len forks <? max_forks); [|reflexivity].
  unfold_effects. cbn [trace stdout].
  unfold classify_forks, forks_request, ExperimentForkSearch.per_page.
  destruct (service _ _) as [|r]; [reflexivity|].
  destruct (is_error_status (status_code r)); [reflexivity|].
  destruct (json r) as [body|]; [|reflexivity].
  destruct (is_empty body); [reflexivity|].
  destruct (len body <? 100); [reflexivity|].
  cbn [trace stdout]. rewrite <- app_assoc. reflexivity.
Qed.

(** A run fetches some [k] full pages; then either the limit is reached
    and the loop condition ends it, or one more request is issued whose
    reply ends it. *)
Lemma forks_run (fuel : nat) :
  forall forks page w,
    (Z.to_nat (max_forks - len forks) < fuel)%nat ->
    exists k,
      (forall i, (i < k)%nat ->
         is_full (classify_forks (freply_at (n_requests (trace w)) page i))
         = true)
      /\ let result := forks_loop fuel forks page w in
         let collected := forks_at forks (n_requests (trace w)) page k in
         let last := classify_forks (freply_at (n_requests (trace w)) page k) in
         (max_forks <= len collected
          /\ fst result = Returned collected
          /\ n_requests (trace (snd result)) = (n_requests (trace w) + k)%nat)
         \/ (len collected < max_forks
             /\ is_full last = false
             /\ fst result = forks_outcome_of last collected
             /\ n_requests (trace (snd result))
                = (n_requests (trace w) + S k)%nat).
Proof.
  induction fuel as [|fuel IH]; intros forks page w Hfuel; [lia|].
  rewrite forks_loop_S.
  destruct (len forks <? max_forks) eqn:Hcond.
  2: { apply Z.ltb_ge in Hcond. exists 0%nat. split; [intros i Hi; lia|].
       cbv zeta. rewrite forks_from_0. left. cbn [fst snd].
       repeat split; [exact Hcond | lia]. }
  apply Z.ltb_lt in Hcond.
  destruct (classify_forks (service (n_requests (trace w)) (frequest page)))
    as [|status| | |short|full] eqn:V.
  6: {
    apply classify_forks_full in V as Hfull. destruct Hfull as (Hrec & Hlen).
    set (w' := mkWorld (trace w ++ [Get (frequest page); Sleep (1 # 2)])
                       (stdout w)).
    assert (Hn : n_requests (trace w') = S (n_requests (trace w))).
    { subst w'. cbn [trace]. rewrite n_requests_app. cbn. lia. }
    destruct (IH (forks ++ full) (page + 1) w') as (k & Hk & Hrun).
    { rewrite len_app. lia. }
    rewrite Hn in Hk, Hrun. rewrite <- forks_reply_from_0 in Hrec, V.
    rewrite Hrec in Hrun.
    exists (S k). split.
    - intros [|i] Hi.
      + rewrite V. reflexivity.
      + rewrite <- forks_reply_from_shift. apply Hk. lia.
    - cbv zeta in Hrun |- *.
      rewrite forks_from_shift, forks_reply_from_shift in Hrun.
      rewrite Hrec.
      replace (n_requests (trace w) + S k)%nat
        with (S (n_requests (trace w)) + k)%nat by lia.
      replace (n_requests (trace w) + S (S k))%nat
        with (S (n_requests (trace w)) + S k)%nat by lia.
      exact Hrun. }
  all: exists 0%nat; (split; [intros i Hi; lia|]);
    cbv zeta; rewrite forks_from_0, forks_reply_from_0, V;
    right; cbn [fst snd trace]; rewrite n_requests_app;
    repeat split; try exact Hcond; cbn; lia.
Qed.

End ListForksRun.

Section ListForksFacts.
Context {Dict : Type}.
Variable GITHUB_TOKEN : string.
Variable service : Service (list Dict).
Variables owner repo : string.
Variable max_forks : Z.

Abbreviation list_forks :=
  (ExperimentForkSearch.list_forks GITHUB_TOKEN service owner repo max_forks).
Abbreviation freply_to := (nth_forks_reply GITHUB_TOKEN service owner repo).
Abbreviation fbefore := (forks_before GITHUB_TOKEN service owner repo).

Lemma forks_before_S (w : World) (n : nat) :
  fbefore w (S n) = fbefore w n ++ page_forks (freply_to w n).
Proof. apply forks_from_S. Qed.

(** The run of a whole call. *)
Lemma list_forks_run (w : World) :
  exists k,
    (forall i, (i < k)%nat -> is_full (classify_forks (freply_to w i)) = true)
    /\ ((max_forks <= len (fbefore w k)
         /\ fst (list_forks w) = Returned (fbefore w k)
         /\ requests_issued w (snd (list_forks w)) = k)
        \/ (len (fbefore w k) < max_forks
            /\ is_full (classify_forks (freply_to w k)) = false
            /\ fst (list_forks w)
               = forks_outcome_of (classify_forks (freply_to w k)) (fbefore w k)
            /\ requests_issued w (snd (list_forks w)) = S k)).
Proof.
  destruct (forks_run GITHUB_TOKEN service owner repo max_forks
              (S (Z.to_nat max_forks)) [] 1 w) as (k & Hfull & Hrun).
  { change (len (@nil Dict)) with 0. lia. }
  exists k. split; [exact Hfull|]. cbv zeta in Hrun.
  unfold requests_issued.
  destruct Hrun as [(Hmax & Hfst & Hn) | (Hlt & Hlast & Hfst & Hn)];
    [left | right]; repeat split; try assumption;
    unfold ExperimentForkSearch.list_forks; rewrite Hn; lia.
Qed.

(** A request that was issued and whose page is not a full one is the
    last, and decides the outcome. *)
Lemma list_forks_stops_at (w : World) (j : nat) :
  (j < requests_issued w (snd (list_forks w)))%nat ->
  is_full (classify_forks (freply_to w j)) = false ->
  fst (list_forks w)
  = forks_outcome_of (classify_forks (freply_to w j)) (fbefore w j)
  /\ requests_issued w (snd (list_forks w)) = S j.
Proof.
  intros Hissued Hstop.
  destruct (list_forks_run w)
    as (k & Hfull & [(Hmax & Hfst & Hn) | (Hlt & Hlast & Hfst & Hn)]).
  - rewrite Hn in Hissued. rewrite (Hfull j Hissued) in Hstop. discriminate.
  - assert (j = k) as ->.
    { destruct (Nat.lt_ge_cases j k) as [Hjk|Hjk]; [|lia].
      rewrite (Hfull j Hjk) in Hstop. discriminate. }
    split; assumption.
Qed.

(** A full page that leaves the forks below the limit is followed by
    another request. *)
Lemma list_forks_continues_at (w : World) (j : nat) :
  (j < requests_issued w (snd (list_forks w)))%nat ->
  is_full (classify_forks (freply_to w j)) = true ->
  len (fbefore w (S j)) < max_forks ->
  (S j < requests_issued w (snd (list_forks w)))%nat.
Proof.
  intros Hissued Hfull Hbelow.
  destruct (list_forks_run w)
    as (k & _ & [(Hmax & _ & Hn) | (_ & Hlast & _ & Hn)]).
  - rewrite Hn in *.
    destruct (Nat.eq_dec (S j) k) as [<-|Hne]; lia.
  - rewrite Hn in *.
    assert (j <> k) by (intros ->; rewrite Hfull in Hlast; discriminate).
    lia.
Qed.

(** [list_forks] always comes to an end. *)
Lemma list_forks_terminates (w : World) : fst (list_forks w) <> OutOfFuel.
Proof.
  destruct (list_forks_run w)
    as (k & _ & [(_ & -> & _) | (_ & Hlast & -> & _)]); [discriminate|].
  destruct (classify_forks _); cbn in Hlast |- *; discriminate.
Qed.

(** Once the loop has come to an end, more fuel changes nothing. *)
Lemma forks_loop_fuel (fuel : nat) :
  forall forks page w extra,
    fst (ExperimentForkSearch.forks_loop GITHUB_TOKEN service owner repo
           max_forks fuel forks page w) <> OutOfFuel ->
    ExperimentForkSearch.forks_loop GITHUB_TOKEN service owner repo max_forks
      (fuel + extra) forks page w
    = ExperimentForkSearch.forks_loop GITHUB_TOKEN service owner repo
        max_forks fuel forks page w.
Proof.
  induction fuel as [|fuel IH]; intros forks page w extra.
  { cbn. intros H. now contradiction H. }
  change (S fuel + extra)%nat with (S (fuel + extra)).
  rewrite !forks_loop_S.
  destruct (len forks <? max_forks); [|reflexivity].
  destruct (classify_forks _); try reflexivity.
  apply IH.
Qed.

Lemma list_forks_fuel (w : World) (extra : nat) :
  ExperimentForkSearch.forks_loop GITHUB_TOKEN service owner repo max_forks
    (S (Z.to_nat max_forks) + extra) [] 1 w
  = list_forks w.
Proof. apply forks_loop_fuel. apply list_forks_terminates. Qed.

Lemma classify_forks_error r :
  is_error_status (status_code r) = true ->
  classify_forks (@Answer (list Dict) r) = FHttpError (status_code r).
Proof. intros H. unfold classify_forks. rewrite H. reflexivity. Qed.

Lemma classify_forks_fetched (reply : Reply (list Dict)) page_items :
  fetched reply page_items ->
  page_forks reply = page_items
  /\ classify_forks reply
     = if is_empty page_items then FEmpty
       else if len page_items <? 100 then FShort page_items
            else FFull page_items.
Proof.
  intros (r & -> & Hok & Hjson). unfold classify_forks, page_forks.
  rewrite Hok, Hjson. split; reflexivity.
Qed.

End ListForksFacts.

(** C10, as stated, fails on "every non-2xx response raises":
    [raise_for_status] rejects the statuses 400 to 599 only.  A response
    with status 304 and a decodable body is taken as a page. *)
Lemma list_forks_non_2xx_not_raised :
  ~ (forall (service : Service (list nat)) (max_forks : Z) (w : World)
            (j : nat) (r : Response (list nat)),
       let result :=
         ExperimentForkSearch.list_forks "" service "lima-vm" "lima"
           max_forks w in
       (j < requests_issued w (snd result))%nat ->
       nth_forks_reply "" service "lima-vm" "lima" w j = Answer r ->
       ~ (200 <= status_code r < 300) ->
       exists e, fst result = Raised e).
Proof.
  intros H.
  destruct (H (scripted [Answer (mkResponse 304 (Some [7%nat]))]) 30 World0
              0%nat (mkResponse 304 (Some [7%nat]))) as (e & He).
  - vm_compute. apply le_n.
  - reflexivity.
  - cbn. lia.
  - discriminate He.
Qed.

(** C10, amended.  [list_forks] has no partial-result policy: a request
    that comes back with a status [raise_for_status] rejects (400 to
    599), the throttled 403 among them, makes the call raise the HTTP
    error for that status; no list is returned, partial or not.  The
    loop is ended by the short-page test: a fetched page with fewer than
    [per_page] = 100 forks is the last one and the forks collected up to
    and including it are returned, while a page of at least 100 forks
    that leaves the total below [max_forks] is followed by another
    request; the body is a bare list and carries no [total_count]. *)
Theorem list_forks_raises_on_error_status {Dict : Type}
    (GITHUB_TOKEN : string) (service : Service (list Dict))
    (owner repo : string) (max_forks : Z) (w : World) (j : nat) :
  let result :=
    ExperimentForkSearch.list_forks GITHUB_TOKEN service owner repo
      max_forks w in
  let reply := nth_forks_reply GITHUB_TOKEN service owner repo w in
  let before := forks_before GITHUB_TOKEN service owner repo w in
  (j < requests_issued w (snd result))%nat ->
  (forall r,
     reply j = Answer r ->
     is_error_status (status_code r) = true ->
     fst result = Raised (HTTPError (status_code r))
     /\ (forall partial, fst result <> Returned partial)
     /\ requests_issued w (snd result) = S j)
  /\ is_error_status 403 = true
  /\ (forall page_items,
        fetched (reply j) page_items ->
        0 < len page_items < 100 ->
        fst result = Returned (before j ++ page_items)
        /\ requests_issued w (snd result) = S j)
  /\ (forall page_items,
        fetched (reply j) page_items ->
        100 <= len page_items ->
        len (before j ++ page_items) < max_forks ->
        (S j < requests_issued w (snd result))%nat).
Proof.
  intros result reply before Hissued.
  assert (Hstops : is_full (classify_forks (reply j)) = false ->
            fst result = forks_outcome_of (classify_forks (reply j)) (before j)
            /\ requests_issued w (snd result) = S j).
  { apply list_forks_stops_at. exact Hissued. }
  split; [|split; [reflexivity|split]].
  - intros r Hreply Herr.
    pose proof (classify_forks_error r Herr) as Hv. rewrite <- Hreply in Hv.
    rewrite Hv in Hstops. destruct (Hstops eq_refl) as [Hfst Hn].
    cbn [forks_outcome_of] in Hfst.
    repeat split; [exact Hfst | rewrite Hfst; discriminate | exact Hn].
  - intros page_items Hfetched [Hne Hshort].
    destruct (classify_forks_fetched _ _ Hfetched) as (_ & Hv).
    rewrite (is_empty_false page_items Hne) in Hv.
    apply Z.ltb_lt in Hshort. rewrite Hshort in Hv.
    rewrite Hv in Hstops. exact (Hstops eq_refl).
  - intros page_items Hfetched Hlen Hbelow.
    destruct (classify_forks_fetched _ _ Hfetched) as (Hrec & Hv).
    rewrite (is_empty_false page_items) in Hv by lia.
    apply Z.ltb_ge in Hlen. rewrite Hlen in Hv.
    apply list_forks_continues_at; [exact Hissued | |].
    + fold reply. rewrite Hv. reflexivity.
    + rewrite forks_before_S. fold reply before. rewrite Hrec. exact Hbelow.
Qed.

Lemma list_forks_raises_on_error_status_witness :
  let service : Service (list nat) :=
    scripted [Answer (mkResponse 200 (Some (seq 0 100))); status_only 403] in
  let result :=
    ExperimentForkSearch.list_forks "" service "lima-vm" "lima" 300 World0 in
  fst result = Raised (HTTPError 403)
  /\ (forall partial, fst result <> Returned partial)
  /\ requests_issued World0 (snd result) = 2%nat.
Proof.
  apply (proj1 (list_forks_raises_on_error_status ""
                  (scripted [Answer (mkResponse 200 (Some (seq 0 100)));
                             status_only 403])
                  "lima-vm" "lima" 300 World0 1
                  ltac:(vm_compute; apply le_n))
               (mkResponse 403 None)).
  - reflexivity.
  - reflexivity.
Defined.

(** * Further properties of the collectors *)

(** ** [search_code]: the count rule, the number of requests, failures *)

Section SearchCodeMore.
Context {Dict : Type}.
Variable GITHUB_TOKEN : string.
Variable service : Service (SearchBody Dict).
Variable query : string.
Variable max_results : Z.

Abbreviation search :=
  (ExperimentSearch.search_code GITHUB_TOKEN service query max_results).
Abbreviation reply_to := (nth_reply GITHUB_TOKEN service query).
Abbreviation before := (records_before GITHUB_TOKEN service query).
Abbreviation verdict := (classify max_results).

(** Pages that ask for more bring at least one record each. *)
Lemma records_at_least (w : World) (k : nat) :
  (forall i, (i < k)%nat ->
     is_more (verdict (before w i) (reply_to w i)) = true) ->
  Z.of_nat k <= len (before w k).
Proof.
  induction k as [|k IH]; intros Hmore.
  - unfold len. lia.
  - assert (Hk : Z.of_nat k <= len (before w k)).
    { apply IH. intros i Hi. apply Hmore. lia. }
    specialize (Hmore k (Nat.lt_succ_diag_r k)).
    destruct (verdict (before w k) (reply_to w k)) as [| | | | | | |more] eqn:V;
      try discriminate.
    apply classify_more in V as (-> & Hne & _). apply len_pos in Hne.
    rewrite (records_before_S GITHUB_TOKEN service query), len_app. lia.
Qed.

End SearchCodeMore.

(** X1.  Rule (g) of the loop.  When a page that [search_code] fetched
    brings records, the call stops after it as soon as the records
    collected reach the advertised [total_count] (0 when absent) or
    [max_results], and returns them all; otherwise another request
    follows. *)
Theorem search_code_count_rule {Dict : Type}
    (GITHUB_TOKEN : string) (service : Service (SearchBody Dict))
    (query : string) (max_results : Z) (w : World)
    (j : nat) (data : SearchBody Dict) :
  let result :=
    ExperimentSearch.search_code GITHUB_TOKEN service query max_results w in
  let collected :=
    records_before GITHUB_TOKEN service query w j ++ dict_get (items data) [] in
  (j < requests_issued w (snd result))%nat ->
  fetched (nth_reply GITHUB_TOKEN service query w j) data ->
  0 < len (dict_get (items data) []) ->
  (dict_get (total_count data) 0 <= len collected
   \/ max_results <= len collected ->
   fst result = Returned collected
   /\ requests_issued w (snd result) = S j)
  /\ (len collected < dict_get (total_count data) 0 ->
      len collected < max_results ->
      (S j < requests_issued w (snd result))%nat).
Proof.
  intros result collected Hissued Hfetched Hne. split.
  - intros Hstop.
    pose proof (verdict_page_last max_results _ _ _ Hfetched Hne Hstop) as Hv.
    destruct (search_code_stops_at GITHUB_TOKEN service query max_results
                w j Hissued) as (Hfst & _ & Hn).
    { rewrite Hv. reflexivity. }
    rewrite Hv in Hfst. split; assumption.
  - intros Htotal Hmax.
    pose proof (verdict_page_more max_results _ _ _ Hfetched Hne Htotal Hmax)
      as Hv.
    apply search_code_continues_at; [exact Hissued|].
    rewrite Hv. reflexivity.
Qed.

Lemma search_code_count_rule_witness :
  let service := scripted [page [1; 2; 3]%nat (Some 3)] in
  let result := ExperimentSearch.search_code "" service "q" 100 World0 in
  (3 <= 3 \/ 100 <= 3 ->
   fst result = Returned [1; 2; 3]%nat
   /\ requests_issued World0 (snd result) = 1%nat)
  /\ (3 < 3 -> 3 < 100 -> (1 < requests_issued World0 (snd result))%nat).
Proof.
  apply (search_code_count_rule "" (scripted [page [1; 2; 3]%nat (Some 3)])
           "q" 100 World0 0 (mkSearchBody (Some [1; 2; 3]%nat) (Some 3))).
  - vm_compute. apply le_n.
  - eexists. repeat split.
  - reflexivity.
Defined.

(** X2.  [search_code] issues at most [max_results] requests, none when
    [max_results] is not positive; and when it returns, at most one
    request more than the number of records it returns. *)
Theorem search_code_request_bound {Dict : Type}
    (GITHUB_TOKEN : string) (service : Service (SearchBody Dict))
    (query : string) (max_results : Z) (w : World) :
  let result :=
    ExperimentSearch.search_code GITHUB_TOKEN service query max_results w in
  (requests_issued w (snd result) <= Z.to_nat max_results)%nat
  /\ (forall results,
        fst result = Returned results ->
        Z.of_nat (requests_issued w (snd result)) <= len results + 1).
Proof.
  intros result.
  destruct (Z_lt_le_dec 0 max_results) as [Hmax|Hmax].
  - destruct (search_code_run GITHUB_TOKEN service query max_results w Hmax)
      as (k & Hmore & _ & Hout & Htrace).
    fold result in Hout, Htrace.
    rewrite (requests_issued_paced _ _ _ Htrace), length_map, length_seq.
    pose proof (records_at_least GITHUB_TOKEN service query max_results w k Hmore)
      as Hleast.
    pose proof (records_below_limit GITHUB_TOKEN service query max_results
                  w k Hmax Hmore) as Hbelow.
    split; [lia|].
    intros results. rewrite Hout.
    destruct (classify _ _ _); cbn [outcome_of]; try discriminate;
      intros [= <-]; rewrite ?len_app; unfold len in *; lia.
  - subst result. rewrite (search_code_skip _ _ _ _ w Hmax).
    unfold requests_issued. cbn [fst snd]. split; [lia|].
    intros results [= <-]. unfold len. cbn. lia.
Qed.

(** X3.  A transport failure, or a body that cannot be decoded on a
    response that [raise_for_status] lets through, on any issued request
    of [search_code] propagates as an exception: nothing is returned and
    no further request is issued. *)
Theorem search_code_failure_propagates {Dict : Type}
    (GITHUB_TOKEN : string) (service : Service (SearchBody Dict))
    (query : string) (max_results : Z) (w : World) (j : nat) :
  let result :=
    ExperimentSearch.search_code GITHUB_TOKEN service query max_results w in
  let reply := nth_reply GITHUB_TOKEN service query w j in
  (j < requests_issued w (snd result))%nat ->
  (reply = Failed ->
   fst result = Raised ConnectionError
   /\ requests_issued w (snd result) = S j)
  /\ (forall r,
        reply = Answer r ->
        is_error_status (status_code r) = false ->
        json r = None ->
        fst result = Raised JSONDecodeError
        /\ requests_issued w (snd result) = S j).
Proof.
  intros result reply Hissued.
  pose proof (search_code_stops_at GITHUB_TOKEN service query max_results
                w j Hissued) as Hstops.
  fold reply in Hstops. split.
  - intros Hreply. rewrite Hreply in Hstops.
    destruct (Hstops eq_refl) as (Hfst & _ & Hn). split; assumption.
  - intros r Hreply Hok Hjson. rewrite Hreply in Hstops.
    assert (Hv : classify max_results
                   (records_before GITHUB_TOKEN service query w j) (Answer r)
                 = VBadJson).
    { unfold classify.
      assert ((status_code r =? 403) = false) as ->.
      { apply Z.eqb_neq. intros E. rewrite E in Hok. discriminate. }
      assert ((status_code r =? 422) = false) as ->.
      { apply Z.eqb_neq. intros E. rewrite E in Hok. discriminate. }
      rewrite Hok, Hjson. reflexivity. }
    rewrite Hv in Hstops.
    destruct (Hstops eq_refl) as (Hfst & _ & Hn). split; assumption.
Qed.

Lemma search_code_failure_propagates_witness :
  let service := scripted [page [1; 2]%nat (Some 10)] in
  let result := ExperimentSearch.search_code "" service "q" 10 World0 in
  fst result = Raised ConnectionError
  /\ requests_issued World0 (snd result) = 2%nat.
Proof.
  apply (proj1 (search_code_failure_propagates ""
                  (scripted [page [1; 2]%nat (Some 10)]) "q" 10 World0 1
                  ltac:(vm_compute; apply le_n))).
  reflexivity.
Defined.

(** ** [search_code] of [experiment_fork_search.py]: what it prints *)

Section ForkSearchRun.
Context {Dict : Type}.
Variable GITHUB_TOKEN : string.
Variable service : Service (SearchBody Dict).
Variable query : string.
Variable max_results : Z.

Abbreviation fork_loop :=
  (ExperimentForkSearch.search_loop GITHUB_TOKEN service query max_results).
Abbreviation fork_search :=
  (ExperimentForkSearch.search_code GITHUB_TOKEN service query max_results).
Abbreviation reply_at := (reply_from GITHUB_TOKEN service query).
Abbreviation records_at := (records_from GITHUB_TOKEN service query).
Abbreviation reply_to := (nth_reply GITHUB_TOKEN service query).
Abbreviation before := (records_before GITHUB_TOKEN service query).
Abbreviation verdict := (classify max_results).
Abbreviation request := (search_request GITHUB_TOKEN query).

(** One turn of the loop, by the verdict on the reply. *)
Lemma fork_search_loop_S (fuel : nat) results page w :
  fork_loop (S fuel) results page w
  = if len results <? max_results then
      match verdict results (service (n_requests (trace w)) (request page)) with
      | VMore page_items =>
        fork_loop fuel (results ++ page_items) (page + 1)
          (mkWorld (trace w ++ [Get (request page); Sleep 2]) (stdout w))
      | v => (outcome_of v results,
              mkWorld (trace w ++ [Get (request page)])
                      (stdout w ++ fork_says v results))
      end
    else (Returned results, w).
Proof.
  cbn [ExperimentForkSearch.search_loop].
  destruct (len results <? max_results); [|reflexivity].
  unfold_effects. cbn [trace stdout].
  unfold classify, search_request, ExperimentForkSearch.per_page.
  destruct (service _ _) as [|r];
    [cbn [outcome_of fork_says]; rewrite app_nil_r; reflexivity|].
  destruct (status_code r =? 403); [reflexivity|].
  destruct (status_code r =? 422); [reflexivity|].
  destruct (is_error_status (status_code r));
    [cbn [outcome_of fork_says]; rewrite app_nil_r; reflexivity|].
  destruct (json r) as [data|];
    [|cbn [outcome_of fork_says]; rewrite app_nil_r; reflexivity].
  cbn zeta.
  destruct (is_empty (dict_get (items data) []));
    [cbn [outcome_of fork_says]; rewrite app_nil_r; reflexivity|].
  destruct (_ || _);
    [cbn [outcome_of fork_says]; rewrite app_nil_r; reflexivity|].
  cbn [trace stdout]. rewrite <- app_assoc. reflexivity.
Qed.

(** The run of the loop, with what it prints. *)
Lemma fork_search_run (fuel : nat) :
  forall results page w,
    len results < max_results ->
    (Z.to_nat (max_results - len results) <= fuel)%nat ->
    exists k,
      (forall i, (i < k)%nat ->
         is_more (verdict (records_at results (n_requests (trace w)) page i)
                          (reply_at (n_requests (trace w)) page i)) = true)
      /\ is_more (verdict (records_at results (n_requests (trace w)) page k)
                          (reply_at (n_requests (trace w)) page k)) = false
      /\ fork_loop fuel results page w
         = (outcome_of (verdict (records_at results (n_requests (trace w)) page k)
                                (reply_at (n_requests (trace w)) page k))
                       (records_at results (n_requests (trace w)) page k),
            mkWorld
              (trace w ++ paced 2 (map (fun i => request (page + Z.of_nat i))
                                       (seq 0 (S k))))
              (stdout w
               ++ fork_says
                    (verdict (records_at results (n_requests (trace w)) page k)
                             (reply_at (n_requests (trace w)) page k))
                    (records_at results (n_requests (trace w)) page k))).
Proof.
  induction fuel as [|fuel IH]; intros results page w Hlt Hfuel; [lia|].
  rewrite fork_search_loop_S.
  apply Z.ltb_lt in Hlt as Hcond. rewrite Hcond.
  destruct (verdict results (service (n_requests (trace w)) (request page)))
    as [| | | status | | | last | more] eqn:V.
  8: {
    apply classify_more in V as Hmore. destruct Hmore as (Hrec & Hne & Hmax).
    apply len_pos in Hne. rewrite len_app in Hmax.
    set (w' := mkWorld (trace w ++ [Get (request page); Sleep 2]) (stdout w)).
    destruct (IH (results ++ more) (page + 1) w') as (k & Hk & Hstop & Hrun).
    { rewrite len_app. lia. }
    { rewrite len_app. lia. }
    assert (Hn : n_requests (trace w') = S (n_requests (trace w))).
    { subst w'. cbn [trace]. rewrite n_requests_app. cbn. lia. }
    rewrite Hn in Hk, Hstop, Hrun.
    rewrite <- (reply_from_0 GITHUB_TOKEN service query) in Hrec, V. subst more.
    rewrite (records_from_shift GITHUB_TOKEN service query) in Hstop, Hrun.
    rewrite (reply_from_shift GITHUB_TOKEN service query) in Hstop, Hrun.
    exists (S k). split; [|split].
    - intros [|i] Hi.
      + rewrite (records_from_0 GITHUB_TOKEN service query), V. reflexivity.
      + rewrite <- (records_from_shift GITHUB_TOKEN service query),
          <- (reply_from_shift GITHUB_TOKEN service query).
        apply Hk. lia.
    - exact Hstop.
    - rewrite Hrun. subst w'. cbn [trace stdout]. f_equal. f_equal.
      rewrite <- app_assoc. f_equal.
      change (seq 0 (S (S k))) with (0%nat :: seq 1 (S k)).
      cbn [map]. rewrite map_seq_shift.
      cbn [seq map]. rewrite paced_cons. cbn [app Z.of_nat].
      rewrite Z.add_0_r. do 3 f_equal.
      + f_equal. lia.
      + f_equal. apply map_ext. intros i. f_equal. lia. }
  all: exists 0%nat;
    rewrite (records_from_0 GITHUB_TOKEN service query),
      (reply_from_0 GITHUB_TOKEN service query), V;
    cbn [seq map paced Z.of_nat]; rewrite Z.add_0_r;
    (split; [intros i Hi; lia | split; reflexivity]).
Qed.

(** A request of a whole call that was issued and whose page does not
    ask for more is the last one; it decides outcome and output. *)
Lemma fork_search_stops_at (w : World) (j : nat) :
  (j < requests_issued w (snd (fork_search w)))%nat ->
  is_more (verdict (before w j) (reply_to w j)) = false ->
  fst (fork_search w)
  = outcome_of (verdict (before w j) (reply_to w j)) (before w j)
  /\ stdout (snd (fork_search w))
     = stdout w ++ fork_says (verdict (before w j) (reply_to w j)) (before w j)
  /\ requests_issued w (snd (fork_search w)) = S j.
Proof.
  intros Hissued Hstop.
  destruct (Z_lt_le_dec 0 max_results) as [Hmax|Hmax].
  - destruct (fork_search_run (S (Z.to_nat max_results)) [] 1 w)
      as (k & Hmore & Hlast & Hrun).
    { exact Hmax. }
    { change (len (@nil Dict)) with 0. lia. }
    unfold ExperimentForkSearch.search_code in *. rewrite Hrun in *.
    cbn [fst snd stdout] in *.
    assert (Hn : requests_issued w
                   (mkWorld
                      (trace w ++ paced 2 (map (fun i => request (1 + Z.of_nat i))
                                               (seq 0 (S k))))
                      (stdout w ++ fork_says
                         (verdict (records_from GITHUB_TOKEN service query []
                                     (n_requests (trace w)) 1 k)
                                  (reply_from GITHUB_TOKEN service query
                                     (n_requests (trace w)) 1 k))
                         (records_from GITHUB_TOKEN service query []
                            (n_requests (trace w)) 1 k))) = S k).
    { rewrite (requests_issued_paced w _ (map (fun i => request (1 + Z.of_nat i))
                                              (seq 0 (S k)))) by reflexivity.
      rewrite length_map, length_seq. reflexivity. }
    rewrite Hn in *.
    assert (j = k) as ->.
    { destruct (Nat.lt_ge_cases j k) as [Hjk|Hjk]; [|lia].
      unfold nth_reply, records_before in Hstop.
      rewrite (Hmore j Hjk) in Hstop. discriminate. }
    repeat split; reflexivity.
  - unfold ExperimentForkSearch.search_code in Hissued.
    cbn [ExperimentForkSearch.search_loop] in Hissued.
    replace (len (@nil Dict) <? max_results) with false in Hissued
      by (symmetry; apply Z.ltb_ge; exact Hmax).
    unfold ret, requests_issued in Hissued. cbn [snd] in Hissued. lia.
Qed.

End ForkSearchRun.

Lemma classify_says_nothing {Dict : Type} (max_results : Z)
    (results : list Dict) (reply : Reply (SearchBody Dict)) :
  (forall r, reply = Answer r -> status_code r <> 403 /\ status_code r <> 422) ->
  fork_says (classify max_results results reply) results = [].
Proof.
  intros Hstatus. unfold classify.
  destruct reply as [|r]; [reflexivity|].
  destruct (Hstatus r eq_refl) as [H403 H422].
  apply Z.eqb_neq in H403, H422. rewrite H403, H422.
  destruct (is_error_status (status_code r)); [reflexivity|].
  destruct (json r) as [data|]; [|reflexivity].
  cbn zeta. destruct (is_empty _); [reflexivity|].
  destruct (_ || _); reflexivity.
Qed.

(** X4.  [search_code] of [experiment_fork_search.py] prints at most one
    line.  When a request comes back with status 403 the line reports
    the number of records the call then returns; with status 422 it is a
    fixed line; when no request comes back with either status, nothing
    is printed. *)
Theorem fork_search_code_output {Dict : Type}
    (GITHUB_TOKEN : string) (service : Service (SearchBody Dict))
    (query : string) (max_results : Z) (w : World) :
  let result :=
    ExperimentForkSearch.search_code GITHUB_TOKEN service query max_results w in
  let reply := nth_reply GITHUB_TOKEN service query w in
  (forall j r,
     (j < requests_issued w (snd result))%nat ->
     reply j = Answer r ->
     status_code r = 403 ->
     exists results,
       fst result = Returned results
       /\ stdout (snd result)
          = stdout w ++ [(("Rate limit hit after " ++ str (len results)
                           ++ " results") ++ newline)%string])
  /\ (forall j r,
        (j < requests_issued w (snd result))%nat ->
        reply j = Answer r ->
        status_code r = 422 ->
        stdout (snd result)
        = stdout w ++ [("Query error or no more results" ++ newline)%string])
  /\ ((forall j r,
         (j < requests_issued w (snd result))%nat ->
         reply j = Answer r ->
         status_code r <> 403 /\ status_code r <> 422) ->
      stdout (snd result) = stdout w).
Proof.
  intros result reply. split; [|split].
  - intros j r Hissued Hreply Hstatus.
    assert (Hv : classify max_results
                   (records_before GITHUB_TOKEN service query w j) (reply j)
                 = VThrottled).
    { rewrite Hreply. unfold classify. rewrite Hstatus. reflexivity. }
    destruct (fork_search_stops_at GITHUB_TOKEN service query max_results
                w j Hissued) as (Hfst & Hout & _).
    { fold reply. rewrite Hv. reflexivity. }
    fold reply in Hfst, Hout. rewrite Hv in Hfst, Hout.
    exists (records_before GITHUB_TOKEN service query w j).
    split; assumption.
  - intros j r Hissued Hreply Hstatus.
    assert (Hv : classify max_results
                   (records_before GITHUB_TOKEN service query w j) (reply j)
                 = VRejected).
    { rewrite Hreply. unfold classify. rewrite Hstatus. reflexivity. }
    destruct (fork_search_stops_at GITHUB_TOKEN service query max_results
                w j Hissued) as (_ & Hout & _).
    { fold reply. rewrite Hv. reflexivity. }
    fold reply in Hout. rewrite Hv in Hout. exact Hout.
  - intros Hnone.
    destruct (Z_lt_le_dec 0 max_results) as [Hmax|Hmax].
    + destruct (fork_search_run GITHUB_TOKEN service query max_results
                  (S (Z.to_nat max_results)) [] 1 w)
        as (k & _ & Hlast & Hrun).
      { exact Hmax. }
      { change (len (@nil Dict)) with 0. lia. }
      destruct (fork_search_stops_at GITHUB_TOKEN service query max_results
                  w k) as (_ & Hout & Hn).
      { subst result. unfold ExperimentForkSearch.search_code.
        rewrite Hrun. cbn [snd].
        rewrite (requests_issued_paced w _
                   (map (fun i => search_request GITHUB_TOKEN query
                                    (1 + Z.of_nat i)) (seq 0 (S k))))
          by reflexivity.
        rewrite length_map, length_seq. lia. }
      { exact Hlast. }
      fold result in Hout, Hn. rewrite Hout.
      rewrite classify_says_nothing; [apply app_nil_r|].
      intros r Hreply. apply (Hnone k r); [lia | exact Hreply].
    + subst result. unfold ExperimentForkSearch.search_code.
      cbn [ExperimentForkSearch.search_loop].
      replace (len (@nil Dict) <? max_results) with false
        by (symmetry; apply Z.ltb_ge; exact Hmax).
      reflexivity.
Qed.

Lemma fork_search_code_output_witness :
  let service := scripted [page [1; 2]%nat (Some 10); status_only 403] in
  let result := ExperimentForkSearch.search_code "" service "q" 10 World0 in
  exists results,
    fst result = Returned results
    /\ stdout (snd result)
       = [(("Rate limit hit after " ++ str (len results) ++ " results")
           ++ newline)%string].
Proof.
  apply (proj1 (fork_search_code_output ""
                  (scripted [page [1; 2]%nat (Some 10); status_only 403])
                  "q" 10 World0)
               1%nat (mkResponse 403 None)).
  - vm_compute. apply le_n.
  - reflexivity.
  - reflexivity.
Defined.

(** ** [list_forks]: limit, pauses, failures *)

Lemma n_requests_paused (delay : Q) (reqs : list Request) :
  n_requests (paused delay reqs) = List.length reqs.
Proof.
  induction reqs as [|r rest IH]; [reflexivity|].
  change (n_requests (paused delay (r :: rest)))
    with (S (n_requests (paused delay rest))).
  rewrite IH. reflexivity.
Qed.

Lemma paced_snoc (delay : Q) (reqs : list Request) (r : Request) :
  paced delay (reqs ++ [r]) = paused delay reqs ++ [Get r].
Proof.
  induction reqs as [|r1 [|r2 rest] IH]; [reflexivity | reflexivity |].
  change ((r1 :: r2 :: rest) ++ [r]) with (r1 :: r2 :: (rest ++ [r])).
  rewrite paced_cons.
  change (r2 :: rest ++ [r]) with ((r2 :: rest) ++ [r]). rewrite IH.
  reflexivity.
Qed.

Section ListForksMore.
Context {Dict : Type}.
Variable GITHUB_TOKEN : string.
Variable service : Service (list Dict).
Variables owner repo : string.
Variable max_forks : Z.

Abbreviation forks_loop :=
  (ExperimentForkSearch.forks_loop GITHUB_TOKEN service owner repo max_forks).
Abbreviation list_forks :=
  (ExperimentForkSearch.list_forks GITHUB_TOKEN service owner repo max_forks).
Abbreviation freply_at := (forks_reply_from GITHUB_TOKEN service owner repo).
Abbreviation forks_at := (forks_from GITHUB_TOKEN service owner repo).
Abbreviation freply_to := (nth_forks_reply GITHUB_TOKEN service owner repo).
Abbreviation fbefore := (forks_before GITHUB_TOKEN service owner repo).
Abbreviation frequest := (forks_request GITHUB_TOKEN owner repo).

Lemma list_forks_skip (w : World) :
  max_forks <= 0 -> list_forks w = (Returned [], w).
Proof.
  intros Hmax. unfold ExperimentForkSearch.list_forks.
  rewrite forks_loop_S.
  replace (len (@nil Dict) <? max_forks) with false; [reflexivity|].
  symmetry. apply Z.ltb_ge. exact Hmax.
Qed.

(** The run of the loop with its trace: [k] full pages, each followed by
    a pause, while the forks stay below the limit; then the limit or one
    more reply ends the loop. *)
Lemma forks_run_trace (fuel : nat) :
  forall forks page w,
    (Z.to_nat (max_forks - len forks) < fuel)%nat ->
    exists k,
      (forall i, (i < k)%nat ->
         is_full (classify_forks (freply_at (n_requests (trace w)) page i))
         = true
         /\ len (forks_at forks (n_requests (trace w)) page i) < max_forks)
      /\ let collected := forks_at forks (n_requests (trace w)) page k in
         let last := classify_forks (freply_at (n_requests (trace w)) page k) in
         let pauses :=
           paused (1 # 2) (map (fun i => frequest (page + Z.of_nat i))
                               (seq 0 k)) in
         (max_forks <= len collected
          /\ forks_loop fuel forks page w
             = (Returned collected, mkWorld (trace w ++ pauses) (stdout w)))
         \/ (len collected < max_forks
             /\ is_full last = false
             /\ forks_loop fuel forks page w
                = (forks_outcome_of last collected,
                   mkWorld (trace w ++ pauses
                            ++ [Get (frequest (page + Z.of_nat k))])
                           (stdout w))).
Proof.
  induction fuel as [|fuel IH]; intros forks page w Hfuel; [lia|].
  rewrite forks_loop_S.
  destruct (len forks <? max_forks) eqn:Hcond.
  2: { apply Z.ltb_ge in Hcond. exists 0%nat. split; [intros i Hi; lia|].
       cbv zeta. rewrite (forks_from_0 GITHUB_TOKEN service owner repo).
       left. cbn [seq map paused]. rewrite app_nil_r.
       split; [exact Hcond | destruct w; reflexivity]. }
  apply Z.ltb_lt in Hcond.
  destruct (classify_forks (service (n_requests (trace w)) (frequest page)))
    as [|status| | |short|full] eqn:V.
  6: {
    apply classify_forks_full in V as Hfull. destruct Hfull as (Hrec & Hlen).
    set (w' := mkWorld (trace w ++ [Get (frequest page); Sleep (1 # 2)])
                       (stdout w)).
    assert (Hn : n_requests (trace w') = S (n_requests (trace w))).
    { subst w'. cbn [trace]. rewrite n_requests_app. cbn. lia. }
    destruct (IH (forks ++ full) (page + 1) w') as (k & Hk & Hrun).
    { rewrite len_app. lia. }
    rewrite Hn in Hk, Hrun.
    rewrite <- (forks_reply_from_0 GITHUB_TOKEN service owner repo) in Hrec, V.
    rewrite Hrec in Hk, Hrun.
    exists (S k). split.
    - intros [|i] Hi.
      + rewrite V, (forks_from_0 GITHUB_TOKEN service owner repo).
        split; [reflexivity | exact Hcond].
      + rewrite <- (forks_reply_from_shift GITHUB_TOKEN service owner repo),
          <- (forks_from_shift GITHUB_TOKEN service owner repo).
        apply Hk. lia.
    - cbv zeta in Hrun |- *. rewrite Hrec.
      rewrite (forks_from_shift GITHUB_TOKEN service owner repo),
        (forks_reply_from_shift GITHUB_TOKEN service owner repo) in Hrun.
      assert (Hpauses :
        trace w' ++ paused (1 # 2)
                      (map (fun i => frequest (page + 1 + Z.of_nat i)) (seq 0 k))
        = trace w ++ paused (1 # 2)
                      (map (fun i => frequest (page + Z.of_nat i))
                           (seq 0 (S k)))).
      { subst w'. cbn [trace]. rewrite <- app_assoc. f_equal.
        change (seq 0 (S k)) with (0%nat :: seq 1 k).
        cbn [map paused app Z.of_nat]. rewrite Z.add_0_r, map_seq_shift.
        do 3 f_equal. apply map_ext. intros i. f_equal. lia. }
      replace (page + 1 + Z.of_nat k) with (page + Z.of_nat (S k)) in Hrun
        by lia.
      rewrite !app_assoc in Hrun |- *. rewrite Hpauses in Hrun.
      exact Hrun. }
  all: exists 0%nat; (split; [intros i Hi; lia|]);
    cbv zeta; rewrite (forks_from_0 GITHUB_TOKEN service owner repo),
      (forks_reply_from_0 GITHUB_TOKEN service owner repo), V;
    right; cbn [seq map paused app Z.of_nat]; rewrite Z.add_0_r;
    repeat split; exact Hcond.
Qed.

(** The same for a whole call. *)
Lemma list_forks_run_trace (w : World) :
  exists k,
    (forall i, (i < k)%nat ->
       is_full (classify_forks (freply_to w i)) = true
       /\ len (fbefore w i) < max_forks)
    /\ let pauses :=
         paused (1 # 2) (map (fun i => frequest (1 + Z.of_nat i)) (seq 0 k)) in
       (max_forks <= len (fbefore w k)
        /\ list_forks w
           = (Returned (fbefore w k), mkWorld (trace w ++ pauses) (stdout w))
        /\ requests_issued w (snd (list_forks w)) = k)
       \/ (len (fbefore w k) < max_forks
           /\ is_full (classify_forks (freply_to w k)) = false
           /\ list_forks w
              = (forks_outcome_of (classify_forks (freply_to w k)) (fbefore w k),
                 mkWorld (trace w ++ pauses
                          ++ [Get (frequest (1 + Z.of_nat k))])
                         (stdout w))
           /\ requests_issued w (snd (list_forks w)) = S k).
Proof.
  destruct (forks_run_trace (S (Z.to_nat max_forks)) [] 1 w)
    as (k & Hfull & Hrun).
  { change (len (@nil Dict)) with 0. lia. }
  exists k. split; [exact Hfull|]. cbv zeta in Hrun |- *.
  unfold ExperimentForkSearch.list_forks, requests_issued.
  destruct Hrun as [(Hmax & Hrun) | (Hlt & Hlast & Hrun)]; [left | right];
    rewrite Hrun; cbn [snd trace]; repeat split; try assumption;
    rewrite ?app_assoc, !n_requests_app, n_requests_paused, length_map,
      length_seq; cbn; lia.
Qed.

(** Full pages bring at least 100 forks each. *)
Lemma forks_at_least (w : World) (k : nat) :
  (forall i, (i < k)%nat ->
     is_full (classify_forks (freply_to w i)) = true
     /\ len (fbefore w i) < max_forks) ->
  100 * Z.of_nat k <= len (fbefore w k).
Proof.
  induction k as [|k IH]; intros Hfull.
  - unfold len. cbn. lia.
  - assert (Hk : 100 * Z.of_nat k <= len (fbefore w k)).
    { apply IH. intros i Hi. apply Hfull. lia. }
    destruct (Hfull k (Nat.lt_succ_diag_r k)) as [Hv _].
    destruct (classify_forks (freply_to w k)) as [| | | | |full] eqn:V;
      try discriminate.
    apply classify_forks_full in V as (-> & Hlen).
    rewrite (forks_before_S GITHUB_TOKEN service owner repo), len_app. lia.
Qed.

End ListForksMore.

(** X5.  [list_forks] issues at most one request per started hundred of
    [max_forks], and none when [max_forks] is not positive, in which case
    it returns the empty list and leaves the world as it found it. *)
Theorem list_forks_request_bound {Dict : Type}
    (GITHUB_TOKEN : string) (service : Service (list Dict))
    (owner repo : string) (max_forks : Z) (w : World) :
  let result :=
    ExperimentForkSearch.list_forks GITHUB_TOKEN service owner repo
      max_forks w in
  (requests_issued w (snd result) <= Z.to_nat ((max_forks + 99) / 100))%nat
  /\ (max_forks <= 0 -> result = (Returned [], w)).
Proof.
  intros result. split; [|apply list_forks_skip].
  destruct (list_forks_run_trace GITHUB_TOKEN service owner repo max_forks w)
    as (k & Hfull & Hrun). cbv zeta in Hrun. fold result in Hrun.
  destruct Hrun as [(Hmax & _ & Hn) | (Hlt & _ & _ & Hn)]; rewrite Hn.
  - destruct k as [|k]; [lia|].
    assert (Hk : 100 * Z.of_nat k
                 <= len (forks_before GITHUB_TOKEN service owner repo w k)).
    { apply (forks_at_least GITHUB_TOKEN service owner repo max_forks).
      intros i Hi. apply Hfull. lia. }
    destruct (Hfull k (Nat.lt_succ_diag_r k)) as [_ Hbelow].
    assert (Z.of_nat (S k) <= (max_forks + 99) / 100).
    { apply Z.div_le_lower_bound; lia. }
    lia.
  - pose proof (forks_at_least GITHUB_TOKEN service owner repo max_forks
                  w k Hfull) as Hk.
    assert (Z.of_nat (S k) <= (max_forks + 99) / 100).
    { apply Z.div_le_lower_bound; lia. }
    lia.
Qed.

(** X6.  [list_forks] tests its limit only at the top of the loop.  When
    a full page (at least 100 forks) brings the forks collected to
    [max_forks] or more, the call still pauses for half a second and
    then returns all the forks collected, without clamping them to
    [max_forks] and without another request: its trace ends with a
    pause. *)
Theorem list_forks_limit_after_pause {Dict : Type}
    (GITHUB_TOKEN : string) (service : Service (list Dict))
    (owner repo : string) (max_forks : Z) (w : World)
    (j : nat) (page_items : list Dict) :
  let result :=
    ExperimentForkSearch.list_forks GITHUB_TOKEN service owner repo
      max_forks w in
  let collected :=
    forks_before GITHUB_TOKEN service owner repo w j ++ page_items in
  (j < requests_issued w (snd result))%nat ->
  fetched (nth_forks_reply GITHUB_TOKEN service owner repo w j) page_items ->
  100 <= len page_items ->
  max_forks <= len collected ->
  fst result = Returned collected
  /\ requests_issued w (snd result) = S j
  /\ trace (snd result)
     = trace w
       ++ paused (1 # 2)
            (map (fun i => forks_request GITHUB_TOKEN owner repo
                             (1 + Z.of_nat i))
                 (seq 0 (S j))).
Proof.
  intros result collected Hissued Hfetched Hlen Hmax.
  destruct (classify_forks_fetched _ _ Hfetched) as (Hrec & Hv).
  rewrite (is_empty_false page_items) in Hv by lia.
  apply Z.ltb_ge in Hlen as Hlenb. rewrite Hlenb in Hv.
  assert (Hnext : forks_before GITHUB_TOKEN service owner repo w (S j)
                  = collected).
  { rewrite forks_before_S, Hrec. reflexivity. }
  destruct (list_forks_run_trace GITHUB_TOKEN service owner repo max_forks w)
    as (k & Hfull & Hrun). cbv zeta in Hrun. fold result in Hrun.
  destruct Hrun as [(_ & Hrun & Hn) | (Hlt & Hlast & _ & Hn)].
  - rewrite Hn in Hissued.
    assert (S j = k) as <-.
    { destruct (Nat.eq_dec (S j) k) as [E|E]; [exact E|].
      destruct (Hfull (S j)) as [_ Hbelow]; [lia|].
      rewrite Hnext in Hbelow. lia. }
    rewrite Hnext in Hrun. rewrite Hrun. cbn [fst snd trace].
    rewrite Hrun in Hn. cbn [snd] in Hn.
    repeat split; [exact Hn].
  - rewrite Hn in Hissued.
    destruct (Nat.eq_dec j k) as [->|E].
    { rewrite Hv in Hlast. discriminate. }
    destruct (Nat.eq_dec (S j) k) as [<-|E'].
    { rewrite Hnext in Hlt. lia. }
    destruct (Hfull (S j)) as [_ Hbelow]; [lia|].
    rewrite Hnext in Hbelow. lia.
Qed.

Lemma list_forks_limit_after_pause_witness :
  let service : Service (list nat) :=
    scripted [Answer (mkResponse 200 (Some (seq 0 100)))] in
  let result :=
    ExperimentForkSearch.list_forks "" service "lima-vm" "lima" 30 World0 in
  fst result = Returned (seq 0 100)
  /\ requests_issued World0 (snd result) = 1%nat
  /\ trace (snd result)
     = [Get (forks_request "" "lima-vm" "lima" 1); Sleep (1 # 2)].
Proof.
  apply (list_forks_limit_after_pause ""
           (scripted [Answer (mkResponse 200 (Some (seq 0 100)))])
           "lima-vm" "lima" 30 World0 0 (seq 0 100)).
  - vm_compute. apply le_n.
  - eexists. repeat split.
  - vm_compute. discriminate.
  - vm_compute. discriminate.
Defined.

(** X7.  What [list_forks] returns is always a whole number of pages, in
    the order they were requested; when no page holds more than 100
    forks and [max_forks] is positive, fewer than [max_forks] + 100
    forks are returned. *)
Theorem list_forks_returns_pages {Dict : Type}
    (GITHUB_TOKEN : string) (service : Service (list Dict))
    (owner repo : string) (max_forks : Z) (w : World) (forks : list Dict) :
  let result :=
    ExperimentForkSearch.list_forks GITHUB_TOKEN service owner repo
      max_forks w in
  fst result = Returned forks ->
  (exists n, (n <= requests_issued w (snd result))%nat
             /\ forks = forks_before GITHUB_TOKEN service owner repo w n)
  /\ (0 < max_forks ->
      (forall i,
         len (page_forks (nth_forks_reply GITHUB_TOKEN service owner repo w i))
         <= 100) ->
      len forks < max_forks + 100).
Proof.
  intros result.
  destruct (list_forks_run_trace GITHUB_TOKEN service owner repo max_forks w)
    as (k & Hfull & Hrun). cbv zeta in Hrun. fold result in Hrun.
  destruct Hrun as [(Hmax & Hrun & Hn) | (Hlt & Hlast & Hrun & Hn)];
    rewrite Hn, Hrun; cbn [fst].
  - intros [= <-]. split; [exists k; split; [lia | reflexivity]|].
    intros Hpos Hsize. destruct k as [|k].
    + unfold len. cbn. lia.
    + destruct (Hfull k (Nat.lt_succ_diag_r k)) as [_ Hbelow].
      rewrite forks_before_S, len_app. specialize (Hsize k). lia.
  - destruct (classify_forks _) as [| | | |short|full] eqn:V;
      cbn [forks_outcome_of]; try discriminate.
    + intros [= <-]. split; [exists k; split; [lia | reflexivity]|]. lia.
    + intros [= <-].
      assert (Hrec : short
                     = page_forks
                         (nth_forks_reply GITHUB_TOKEN service owner repo w k)).
      { revert V. unfold classify_forks, page_forks.
        destruct (nth_forks_reply _ _ _ _ _ _) as [|r]; [discriminate|].
        destruct (is_error_status _); [discriminate|].
        destruct (json r) as [body|]; [|discriminate].
        destruct (is_empty body); [discriminate|].
        destruct (len body <? 100); [|discriminate].
        intros [= <-]. reflexivity. }
      split.
      * exists (S k). split; [lia|]. rewrite forks_before_S, Hrec. reflexivity.
      * intros _ Hsize. rewrite len_app, Hrec. specialize (Hsize k). lia.
Qed.

Lemma list_forks_returns_pages_witness :
  let service : Service (list nat) :=
    scripted [Answer (mkResponse 200 (Some (seq 0 100)));
              Answer (mkResponse 200 (Some (seq 100 20)))] in
  let result :=
    ExperimentForkSearch.list_forks "" service "lima-vm" "lima" 150 World0 in
  (exists n, (n <= requests_issued World0 (snd result))%nat
             /\ seq 0 120 = forks_before "" service "lima-vm" "lima" World0 n)
  /\ (0 < 150 ->
      (forall i,
         len (page_forks (nth_forks_reply "" service "lima-vm" "lima" World0 i))
         <= 100) ->
      len (seq 0 120) < 150 + 100).
Proof.
  apply (list_forks_returns_pages ""
           (scripted [Answer (mkResponse 200 (Some (seq 0 100)));
                      Answer (mkResponse 200 (Some (seq 100 20)))])
           "lima-vm" "lima" 150 World0 (seq 0 120)).
  reflexivity.
Defined.

(** X8.  In [list_forks] a transport failure, or an undecodable body on
    a response that [raise_for_status] lets through, propagates as an
    exception, and no forks are returned; a fetched page without forks
    ends the loop and the forks of the earlier pages are returned. *)
Theorem list_forks_failure_and_empty_page {Dict : Type}
    (GITHUB_TOKEN : string) (service : Service (list Dict))
    (owner repo : string) (max_forks : Z) (w : World) (j : nat) :
  let result :=
    ExperimentForkSearch.list_forks GITHUB_TOKEN service owner repo
      max_forks w in
  let reply := nth_forks_reply GITHUB_TOKEN service owner repo w j in
  (j < requests_issued w (snd result))%nat ->
  (reply = Failed ->
   fst result = Raised ConnectionError
   /\ requests_issued w (snd result) = S j)
  /\ (forall r,
        reply = Answer r ->
        is_error_status (status_code r) = false ->
        json r = None ->
        fst result = Raised JSONDecodeError
        /\ requests_issued w (snd result) = S j)
  /\ (fetched reply [] ->
      fst result = Returned (forks_before GITHUB_TOKEN service owner repo w j)
      /\ requests_issued w (snd result) = S j).
Proof.
  intros result reply Hissued.
  pose proof (list_forks_stops_at GITHUB_TOKEN service owner repo max_forks
                w j Hissued) as Hstops.
  fold reply result in Hstops. split; [|split].
  - intros Hreply. rewrite Hreply in Hstops. exact (Hstops eq_refl).
  - intros r Hreply Hok Hjson. rewrite Hreply in Hstops.
    unfold classify_forks in Hstops. rewrite Hok, Hjson in Hstops.
    exact (Hstops eq_refl).
  - intros Hfetched.
    destruct (classify_forks_fetched _ _ Hfetched) as (_ & Hv).
    cbn [is_empty] in Hv. rewrite Hv in Hstops. exact (Hstops eq_refl).
Qed.

Lemma list_forks_failure_and_empty_page_witness :
  let service : Service (list nat) :=
    scripted [Answer (mkResponse 200 (Some (seq 0 100)))] in
  let result :=
    ExperimentForkSearch.list_forks "" service "lima-vm" "lima" 300 World0 in
  fst result = Raised ConnectionError
  /\ requests_issued World0 (snd result) = 2%nat.
Proof.
  apply (proj1 (list_forks_failure_and_empty_page ""
                  (scripted [Answer (mkResponse 200 (Some (seq 0 100)))])
                  "lima-vm" "lima" 300 World0 1
                  ltac:(vm_compute; apply le_n))).
  reflexivity.
Defined.

(** * [analyze_results] *)

Module StatsFacts.
Import ExperimentSearchStats.

(** ** The order on strings *)

Lemma ascii_compare_refl (c : ascii) : Ascii.compare c c = Eq.
Proof. unfold Ascii.compare. apply N.compare_refl. Qed.

Lemma ascii_compare_lt_trans (a b c : ascii) :
  Ascii.compare a b = Lt -> Ascii.compare b c = Lt -> Ascii.compare a c = Lt.
Proof.
  unfold Ascii.compare. rewrite !N.compare_lt_iff. apply N.lt_trans.
Qed.

Lemma string_compare_lt_trans (a : string) :
  forall b c,
    String.compare a b = Lt -> String.compare b c = Lt ->
    String.compare a c = Lt.
Proof.
  induction a as [|a0 a IH]; intros [|b0 b] [|c0 c]; cbn;
    try discriminate; try reflexivity.
  destruct (Ascii.compare a0 b0) eqn:Hab; try discriminate;
    destruct (Ascii.compare b0 c0) eqn:Hbc; try discriminate.
  - apply Ascii.compare_eq_iff in Hab, Hbc. subst.
    rewrite ascii_compare_refl. apply IH.
  - apply Ascii.compare_eq_iff in Hab. subst. rewrite Hbc. reflexivity.
  - apply Ascii.compare_eq_iff in Hbc. subst. rewrite Hab. reflexivity.
  - rewrite (ascii_compare_lt_trans _ _ _ Hab Hbc). reflexivity.
Qed.

Lemma ltb_lt (a b : string) : String.ltb a b = true <-> String.compare a b = Lt.
Proof. unfold String.ltb. destruct (String.compare a b); split; congruence. Qed.

Lemma ltb_trans (a b c : string) :
  String.ltb a b = true -> String.ltb b c = true -> String.ltb a c = true.
Proof. rewrite !ltb_lt. apply string_compare_lt_trans. Qed.

Lemma ltb_irrefl (a : string) : String.ltb a a = false.
Proof.
  unfold String.ltb. replace (String.compare a a) with Eq; [reflexivity|].
  symmetry. induction a as [|c a IH]; [reflexivity|].
  cbn. rewrite ascii_compare_refl. exact IH.
Qed.

Lemma ltb_asym (a b : string) :
  String.ltb a b = true -> String.ltb b a = true -> False.
Proof.
  intros Hab Hba. pose proof (ltb_trans _ _ _ Hab Hba) as H.
  rewrite ltb_irrefl in H. discriminate.
Qed.

Lemma leb_ltb (a b : string) :
  String.leb a b = true -> a <> b -> String.ltb a b = true.
Proof.
  unfold String.leb, String.ltb. intros Hle Hne.
  destruct (String.compare a b) eqn:C; try reflexivity; try discriminate.
  apply String.compare_eq_iff in C. contradiction.
Qed.

Lemma not_leb_ltb (a b : string) :
  String.leb a b = false -> String.ltb b a = true.
Proof.
  unfold String.leb, String.ltb. rewrite (String.compare_antisym a b).
  destruct (String.compare b a); cbn; congruence.
Qed.

(** ** Sets and sorting *)

Lemma set_mem_In (x : string) (s : list string) :
  set_mem x s = true <-> In x s.
Proof.
  unfold set_mem. rewrite existsb_exists. split.
  - intros (y & Hy & E). apply String.eqb_eq in E. subst. exact Hy.
  - intros H. exists x. split; [exact H | apply String.eqb_refl].
Qed.

Lemma set_add_In (x y : string) (s : list string) :
  In y (set_add x s) <-> y = x \/ In y s.
Proof.
  unfold set_add. destruct (set_mem x s) eqn:M.
  - apply set_mem_In in M. split; [auto | intros [->|H]; assumption].
  - rewrite in_app_iff. cbn. intuition.
Qed.

Lemma set_add_NoDup (x : string) (s : list string) :
  NoDup s -> NoDup (set_add x s).
Proof.
  intros H. unfold set_add. destruct (set_mem x s) eqn:M; [exact H|].
  apply NoDup_app; [exact H | repeat constructor; intros [] |].
  intros y Hy [<-|[]]. apply set_mem_In in Hy. congruence.
Qed.

Lemma set_add_length (x : string) (s : list string) :
  len s <= len (set_add x s) <= len s + 1.
Proof.
  unfold set_add, len. destruct (set_mem x s); [lia|].
  rewrite length_app. cbn. lia.
Qed.

Lemma insert_sorted_In (x y : string) (l : list string) :
  In y (insert_sorted x l) <-> y = x \/ In y l.
Proof.
  induction l as [|z l IH]; cbn; [intuition|].
  destruct (String.leb x z); cbn; [intuition|]. rewrite IH. intuition.
Qed.

Lemma insert_sorted_length (x : string) (l : list string) :
  List.length (insert_sorted x l) = S (List.length l).
Proof.
  induction l as [|z l IH]; cbn; [reflexivity|].
  destruct (String.leb x z); cbn; [reflexivity|]. rewrite IH. reflexivity.
Qed.

Lemma insert_sorted_ascending (x : string) (l : list string) :
  ascending l -> ~ In x l -> ascending (insert_sorted x l).
Proof.
  unfold ascending. induction l as [|z l IH]; intros Hl Hx; cbn.
  - repeat constructor.
  - apply StronglySorted_inv in Hl as [Hl Hz].
    destruct (String.leb x z) eqn:L.
    + assert (Hxz : String.ltb x z = true).
      { apply leb_ltb; [exact L|]. intros ->. apply Hx. left. reflexivity. }
      constructor; [constructor; assumption|].
      constructor; [exact Hxz|].
      rewrite Forall_forall in Hz |- *. intros y Hy.
      apply (ltb_trans _ z); [exact Hxz | apply Hz; exact Hy].
    + constructor.
      * apply IH; [exact Hl|]. intros H. apply Hx. right. exact H.
      * rewrite Forall_forall in Hz |- *. intros y Hy.
        apply insert_sorted_In in Hy as [->|Hy];
          [apply not_leb_ltb; exact L | apply Hz; exact Hy].
Qed.

Lemma sorted_In (x : string) (s : list string) : In x (sorted s) <-> In x s.
Proof.
  unfold sorted. induction s as [|y s IH]; cbn; [reflexivity|].
  rewrite insert_sorted_In, IH. intuition.
Qed.

Lemma sorted_length (s : list string) : len (sorted s) = len s.
Proof.
  unfold sorted, len. induction s as [|y s IH]; cbn [fold_right List.length];
    [reflexivity|].
  rewrite insert_sorted_length. lia.
Qed.

Lemma sorted_ascending (s : list string) : NoDup s -> ascending (sorted s).
Proof.
  unfold sorted. induction s as [|y s IH]; intros H; cbn.
  - constructor.
  - apply NoDup_cons_iff in H as [Hy Hs].
    apply insert_sorted_ascending; [apply IH; exact Hs|].
    change (fold_right insert_sorted [] s) with (sorted s).
    rewrite sorted_In. exact Hy.
Qed.

(** An ascending list is determined by its elements. *)
Lemma ascending_unique (l1 : list string) :
  forall l2,
    ascending l1 -> ascending l2 ->
    (forall x, In x l1 <-> In x l2) ->
    l1 = l2.
Proof.
  unfold ascending.
  induction l1 as [|a l1 IH]; intros [|b l2] H1 H2 Hin.
  - reflexivity.
  - exfalso. apply (proj2 (Hin b)). left. reflexivity.
  - exfalso. apply (proj1 (Hin a)). left. reflexivity.
  - apply StronglySorted_inv in H1 as [H1 Ha].
    apply StronglySorted_inv in H2 as [H2 Hb].
    rewrite Forall_forall in Ha, Hb.
    assert (a = b) as <-.
    { destruct (proj1 (Hin a) (or_introl eq_refl)) as [E|Hal2]; [auto|].
      destruct (proj2 (Hin b) (or_introl eq_refl)) as [E|Hbl1]; [auto|].
      exfalso. apply (ltb_asym a b); [apply Ha | apply Hb]; assumption. }
    f_equal. apply IH; [exact H1 | exact H2|].
    intros x. split; intros Hx.
    + destruct (proj1 (Hin x) (or_intror Hx)) as [E|H]; [|exact H].
      subst x. specialize (Ha a Hx). rewrite ltb_irrefl in Ha. discriminate.
    + destruct (proj2 (Hin x) (or_intror Hx)) as [E|H]; [|exact H].
      subst x. specialize (Hb a Hx). rewrite ltb_irrefl in Hb. discriminate.
Qed.

(** ** The loop *)

Lemma missing_key_complete (item : Item) :
  missing_key item = None <-> complete item.
Proof.
  unfold missing_key, complete. split.
  - destruct (repository item) as [r|]; [|discriminate].
    destruct (full_name r) as [fn|] eqn:Hfn; [|discriminate].
    destruct (owner r) as [o|] eqn:Ho; [|discriminate].
    destruct (login o) as [lg|] eqn:Hlg; [|discriminate].
    destruct (path item) as [pa|]; [|discriminate].
    intros _. exists r, o, fn, lg, pa. auto.
  - intros (r & o & fn & lg & pa & -> & -> & -> & -> & ->). reflexivity.
Qed.

Lemma visit_missing (vars : Vars) (item : Item) (key : string) :
  missing_key item = Some key -> visit vars item = KeyError key.
Proof.
  destruct vars as [[[[r o] p] l] f]. unfold missing_key, visit.
  destruct (repository item) as [rp|]; [|congruence].
  destruct (full_name rp); [|congruence].
  destruct (owner rp) as [ow|]; [|congruence].
  destruct (login ow); [|congruence].
  destruct (path item); [discriminate | congruence].
Qed.

Lemma visit_complete (item : Item) :
  complete item ->
  exists fn ow tp,
    item_full_name item = Some fn
    /\ item_owner item = Some ow
    /\ item_template item = Some tp
    /\ forall r o p l f,
         visit (r, o, p, l, f) item
         = Ok (set_add fn r, set_add ow o, set_add tp p,
               l + (if from_lima_vm item then 1 else 0),
               f + (if from_fork item then 1 else 0)).
Proof.
  intros (rp & ow & fn & lg & pa & Hr & Hfn & Ho & Hlg & Hpa).
  exists fn, lg, (fn ++ "/" ++ pa)%string.
  unfold item_full_name, item_owner, item_template, item_full_name,
    from_lima_vm, item_full_name, from_fork, visit.
  rewrite Hr, Hfn, Ho, Hlg, Hpa. repeat split.
  intros r o p l f.
  destruct (String.prefix _ fn); destruct (dict_get (fork rp) false);
    rewrite ?Z.add_0_r; reflexivity.
Qed.

Lemma extends_nil get (s : list string) : extends get [] s s.
Proof.
  unfold extends. split; [tauto|split].
  - intros x. split; [intros H; left; exact H|].
    intros [H|(item & [] & _)]. exact H.
  - unfold len. cbn. lia.
Qed.

Lemma extends_cons get (item : Item) (results : list Item) (x : string)
    (s s' : list string) :
  get item = Some x ->
  extends get results (set_add x s) s' ->
  extends get (item :: results) s s'.
Proof.
  intros Hget (Hnd & Hin & Hlen). unfold extends. repeat split.
  - intros H. apply Hnd, set_add_NoDup, H.
  - rewrite Hin, set_add_In.
    intros [[->|H]|(it & Hit & Hx)]; [right | left | right].
    + exists item. split; [left; reflexivity | exact Hget].
    + exact H.
    + exists it. split; [right; exact Hit | exact Hx].
  - rewrite Hin, set_add_In.
    intros [H|(it & [<-|Hit] & Hx)].
    + left. right. exact H.
    + left. left. congruence.
    + right. exists it. split; assumption.
  - pose proof (set_add_length x s). lia.
  - pose proof (set_add_length x s). unfold len in *. cbn [List.length]. lia.
Qed.

Lemma count_cons {A : Type} (f : A -> bool) (a : A) (l : list A) :
  len (filter f (a :: l)) = (if f a then 1 else 0) + len (filter f l).
Proof. cbn. destruct (f a); unfold len; cbn [List.length]; lia. Qed.

(** The loop over complete items, in closed form. *)
Lemma visit_all_complete (results : list Item) :
  Forall complete results ->
  forall r o p l f,
  exists r' o' p',
    visit_all (r, o, p, l, f) results
    = Ok (r', o', p',
          l + len (filter from_lima_vm results),
          f + len (filter from_fork results))
    /\ extends item_full_name results r r'
    /\ extends item_owner results o o'
    /\ extends item_template results p p'.
Proof.
  induction 1 as [|item results Hitem _ IH]; intros r o p l f.
  - exists r, o, p. cbn [visit_all filter].
    change (len (@nil Item)) with 0. rewrite !Z.add_0_r.
    split; [reflexivity|]. split; [|split]; apply extends_nil.
  - destruct (visit_complete item Hitem) as (fn & ow & tp & Hfn & How & Htp & Hv).
    destruct (IH (set_add fn r) (set_add ow o) (set_add tp p)
                 (l + (if from_lima_vm item then 1 else 0))
                 (f + (if from_fork item then 1 else 0)))
      as (r' & o' & p' & Hrun & Hr & Ho & Hp).
    exists r', o', p'. cbn [visit_all]. rewrite Hv, Hrun, !count_cons.
    split; [f_equal; f_equal; [f_equal|]; lia|].
    split; [|split]; eapply extends_cons; eassumption.
Qed.

Lemma visit_all_ok (results : list Item) :
  forall vars vars',
    visit_all vars results = Ok vars' -> Forall complete results.
Proof.
  induction results as [|item results IH]; intros vars vars' H; [constructor|].
  cbn in H. destruct (missing_key item) as [key|] eqn:K.
  - rewrite (visit_missing vars item key K) in H. discriminate.
  - apply missing_key_complete in K.
    destruct (visit vars item) as [vars1|] eqn:V; [|discriminate].
    constructor; [exact K | eapply IH; exact H].
Qed.

Lemma visit_all_key_error (good : list Item) :
  forall vars bad rest key,
    Forall complete good ->
    missing_key bad = Some key ->
    visit_all vars (good ++ bad :: rest) = KeyError key.
Proof.
  induction good as [|item good IH]; intros vars bad rest key Hgood Hbad.
  - cbn. rewrite (visit_missing vars bad key Hbad). reflexivity.
  - apply Forall_cons_iff in Hgood as [Hitem Hgood].
    destruct vars as [[[[r o] p] l] f].
    destruct (visit_complete item Hitem) as (fn & ow & tp & _ & _ & _ & Hv).
    cbn [app visit_all]. rewrite Hv. apply IH; assumption.
Qed.

(** [analyze_results] on complete items, in closed form. *)
Lemma analyze_results_complete (results : list Item) :
  Forall complete results ->
  exists r o p,
    analyze_results results
    = Ok {| total_files := len results;
            unique_repos := len r;
            unique_owners := len o;
            unique_templates := len p;
            lima_vm_templates := len (filter from_lima_vm results);
            fork_templates := len (filter from_fork results);
            non_lima_vm_templates :=
              len results - len (filter from_lima_vm results);
            repos := sorted r;
            owners := sorted o |}
    /\ extends item_full_name results [] r
    /\ extends item_owner results [] o
    /\ extends item_template results [] p.
Proof.
  intros Hall.
  destruct (visit_all_complete results Hall [] [] [] 0 0)
    as (r & o & p & Hrun & Hr & Ho & Hp).
  exists r, o, p. unfold analyze_results. rewrite Hrun. cbn [Z.add].
  split; [reflexivity|]. split; [|split]; assumption.
Qed.

Lemma analyze_results_ok (results : list Item) (stats : Stats) :
  analyze_results results = Ok stats -> Forall complete results.
Proof.
  unfold analyze_results.
  destruct (visit_all _ results) as [vars|] eqn:V; [|discriminate].
  intros _. eapply visit_all_ok. exact V.
Qed.

Lemma count_bounds {A : Type} (f : A -> bool) (l : list A) :
  0 <= len (filter f l) <= len l
  /\ len (filter f l) + len (filter (fun a => negb (f a)) l) = len l.
Proof.
  induction l as [|a l IH]; [unfold len; cbn; lia|].
  rewrite !count_cons. destruct (f a); cbn [negb];
    unfold len in *; cbn [List.length]; lia.
Qed.

Lemma count_permutation {A : Type} (f : A -> bool) (l l' : list A) :
  Permutation l l' -> len (filter f l) = len (filter f l').
Proof.
  induction 1 as [|a l l' _ IH|a b l|l l' l'' _ IH1 _ IH2].
  - reflexivity.
  - rewrite !count_cons, IH. reflexivity.
  - rewrite !count_cons. lia.
  - congruence.
Qed.

Lemma extends_permutation get (results results' : list Item)
    (s s' : list string) :
  Permutation results results' ->
  extends get results [] s ->
  extends get results' [] s' ->
  len s = len s' /\ sorted s = sorted s'.
Proof.
  intros Hperm (Hnd & Hin & _) (Hnd' & Hin' & _).
  specialize (Hnd (NoDup_nil _)). specialize (Hnd' (NoDup_nil _)).
  assert (Hsame : forall x, In x s <-> In x s').
  { intros x. rewrite Hin, Hin'. split.
    - intros [[]|(item & Hitem & Hx)]. right. exists item.
      split; [apply (Permutation_in _ Hperm); exact Hitem | exact Hx].
    - intros [[]|(item & Hitem & Hx)]. right. exists item.
      split; [apply (Permutation_in _ (Permutation_sym Hperm)); exact Hitem
             | exact Hx]. }
  split.
  - unfold len. f_equal. apply Permutation_length.
    apply NoDup_Permutation; assumption.
  - apply ascending_unique; try (apply sorted_ascending; assumption).
    intros x. rewrite !sorted_In. apply Hsame.
Qed.

(** X9.  When [analyze_results] returns, [total_files] is the number of
    results, [lima_vm_templates] the number of results whose repository
    name starts with [lima-vm/lima], [fork_templates] the number whose
    repository is marked as a fork (an absent [fork] key counts as not a
    fork) and [non_lima_vm_templates] the number of the other results;
    so the two template counts add up to [total_files] and every count
    lies between 0 and [total_files]. *)
Theorem analyze_results_counts (results : list Item) (stats : Stats) :
  analyze_results results = Ok stats ->
  total_files stats = len results
  /\ lima_vm_templates stats = len (filter from_lima_vm results)
  /\ fork_templates stats = len (filter from_fork results)
  /\ non_lima_vm_templates stats
     = len (filter (fun item => negb (from_lima_vm item)) results)
  /\ lima_vm_templates stats + non_lima_vm_templates stats = total_files stats
  /\ 0 <= lima_vm_templates stats <= total_files stats
  /\ 0 <= fork_templates stats <= total_files stats
  /\ 0 <= non_lima_vm_templates stats <= total_files stats.
Proof.
  intros H. pose proof (analyze_results_ok _ _ H) as Hall.
  destruct (analyze_results_complete results Hall) as (r & o & p & E & _).
  rewrite E in H. injection H as <-. cbn.
  pose proof (count_bounds from_lima_vm results).
  pose proof (count_bounds from_fork results).
  repeat split; lia.
Qed.

Lemma analyze_results_counts_witness :
  let lima :=
    mkItem (Some (mkRepository (Some "lima-vm/lima")
                    (Some (mkOwner (Some "lima-vm"))) None))
           (Some "templates/default.yaml") in
  let other :=
    mkItem (Some (mkRepository (Some "annie444/utils-util")
                    (Some (mkOwner (Some "annie444"))) (Some true)))
           (Some "lima-template.yaml") in
  exists stats,
    analyze_results [lima; other; lima] = Ok stats
    /\ total_files stats = 3
    /\ lima_vm_templates stats = 2
    /\ fork_templates stats = 1
    /\ non_lima_vm_templates stats = 1.
Proof.
  intros lima other. eexists. split; [reflexivity|].
  pose proof (analyze_results_counts [lima; other; lima] _ eq_refl)
    as (Htotal & Hlima & Hfork & Hother & _).
  repeat split; assumption.
Defined.

(** X10.  When [analyze_results] returns, [repos] lists exactly the
    repository names that occur in the results, in strictly ascending
    order (sorted, each name once), and [unique_repos] is the length of
    that list; the same holds of [owners] and [unique_owners] for the
    owner logins. *)
Theorem analyze_results_sorted_names (results : list Item) (stats : Stats) :
  analyze_results results = Ok stats ->
  ascending (repos stats)
  /\ (forall x,
        In x (repos stats)
        <-> exists item, In item results /\ item_full_name item = Some x)
  /\ unique_repos stats = len (repos stats)
  /\ ascending (owners stats)
  /\ (forall x,
        In x (owners stats)
        <-> exists item, In item results /\ item_owner item = Some x)
  /\ unique_owners stats = len (owners stats).
Proof.
  intros H. pose proof (analyze_results_ok _ _ H) as Hall.
  destruct (analyze_results_complete results Hall)
    as (r & o & p & E & (Hr & Hrin & _) & (Ho & Hoin & _) & _).
  rewrite E in H. injection H as <-. cbn [repos owners unique_repos unique_owners].
  specialize (Hr (NoDup_nil _)). specialize (Ho (NoDup_nil _)).
  repeat split.
  - apply sorted_ascending. exact Hr.
  - rewrite sorted_In, Hrin. intros [[]|Hx]. exact Hx.
  - rewrite sorted_In, Hrin. intros Hx. right. exact Hx.
  - symmetry. apply sorted_length.
  - apply sorted_ascending. exact Ho.
  - rewrite sorted_In, Hoin. intros [[]|Hx]. exact Hx.
  - rewrite sorted_In, Hoin. intros Hx. right. exact Hx.
  - symmetry. apply sorted_length.
Qed.

Lemma analyze_results_sorted_names_witness :
  let lima :=
    mkItem (Some (mkRepository (Some "lima-vm/lima")
                    (Some (mkOwner (Some "lima-vm"))) None))
           (Some "templates/default.yaml") in
  let other :=
    mkItem (Some (mkRepository (Some "annie444/utils-util")
                    (Some (mkOwner (Some "annie444"))) (Some true)))
           (Some "lima-template.yaml") in
  exists stats,
    analyze_results [lima; other; lima] = Ok stats
    /\ repos stats = ["annie444/utils-util"; "lima-vm/lima"]
    /\ ascending (repos stats)
    /\ unique_repos stats = len (repos stats).
Proof.
  intros lima other. eexists. split; [reflexivity|]. split; [reflexivity|].
  split;
    [exact (proj1 (analyze_results_sorted_names [lima; other; lima] _ eq_refl))
    |exact (proj1 (proj2 (proj2 (analyze_results_sorted_names
                                   [lima; other; lima] _ eq_refl))))].
Defined.

(** X11.  When [analyze_results] returns, [unique_repos], [unique_owners]
    and [unique_templates] are at most [total_files], and at least 1 as
    soon as there is a result; [unique_templates] is the number of
    distinct strings [full_name/path] among the results. *)
Theorem analyze_results_unique_bounds (results : list Item) (stats : Stats) :
  analyze_results results = Ok stats ->
  unique_repos stats <= total_files stats
  /\ unique_owners stats <= total_files stats
  /\ unique_templates stats <= total_files stats
  /\ (results <> [] ->
      1 <= unique_repos stats
      /\ 1 <= unique_owners stats
      /\ 1 <= unique_templates stats)
  /\ exists templates,
       NoDup templates
       /\ (forall x,
             In x templates
             <-> exists item, In item results /\ item_template item = Some x)
       /\ unique_templates stats = len templates.
Proof.
  intros H. pose proof (analyze_results_ok _ _ H) as Hall.
  destruct (analyze_results_complete results Hall)
    as (r & o & p & E & (_ & Hrin & Hrlen) & (_ & Hoin & Holen)
        & (Hp & Hpin & Hplen)).
  rewrite E in H. injection H as <-.
  cbn [unique_repos unique_owners unique_templates total_files].
  change (len (@nil string)) with 0 in *.
  split; [lia|]. split; [lia|]. split; [lia|]. split.
  - intros Hne. destruct results as [|item rest]; [congruence|].
    apply Forall_cons_iff in Hall as [Hitem _].
    destruct (visit_complete item Hitem) as (fn & ow & tp & Hfn & How & Htp & _).
    assert (Hone : forall (s : list string) x, In x s -> 1 <= len s).
    { intros [|y s] x Hx; [destruct Hx|]. unfold len. cbn [List.length]. lia. }
    repeat split.
    + apply (Hone r fn), Hrin. right. exists item. split; [left; reflexivity | exact Hfn].
    + apply (Hone o ow), Hoin. right. exists item. split; [left; reflexivity | exact How].
    + apply (Hone p tp), Hpin. right. exists item. split; [left; reflexivity | exact Htp].
  - exists p. split; [apply Hp; constructor|]. split; [|reflexivity].
    intros x. rewrite Hpin. split; [intros [[]|Hx]; exact Hx | intros Hx; right; exact Hx].
Qed.

Lemma analyze_results_unique_bounds_witness :
  let lima :=
    mkItem (Some (mkRepository (Some "lima-vm/lima")
                    (Some (mkOwner (Some "lima-vm"))) None))
           (Some "templates/default.yaml") in
  exists stats,
    analyze_results [lima; lima] = Ok stats
    /\ unique_repos stats <= total_files stats
    /\ unique_templates stats = 1.
Proof.
  intros lima. eexists. split; [reflexivity|].
  split; [exact (proj1 (analyze_results_unique_bounds [lima; lima] _ eq_refl))
         | reflexivity].
Defined.

(** X12.  [analyze_results] does not depend on the order of the results:
    when it returns for a list, it returns the same statistics for every
    permutation of that list. *)
Theorem analyze_results_permutation (results results' : list Item)
    (stats : Stats) :
  Permutation results results' ->
  analyze_results results = Ok stats ->
  analyze_results results' = Ok stats.
Proof.
  intros Hperm H. pose proof (analyze_results_ok _ _ H) as Hall.
  assert (Hall' : Forall complete results').
  { eapply Permutation_Forall; eassumption. }
  destruct (analyze_results_complete results Hall)
    as (r & o & p & E & Hr & Ho & Hp).
  destruct (analyze_results_complete results' Hall')
    as (r' & o' & p' & E' & Hr' & Ho' & Hp').
  rewrite E in H. injection H as <-. rewrite E'.
  destruct (extends_permutation _ _ _ _ _ Hperm Hr Hr') as [-> ->].
  destruct (extends_permutation _ _ _ _ _ Hperm Ho Ho') as [-> ->].
  destruct (extends_permutation _ _ _ _ _ Hperm Hp Hp') as [-> _].
  rewrite !(count_permutation _ _ _ Hperm).
  assert (len results = len results') as ->.
  { unfold len. f_equal. apply Permutation_length. exact Hperm. }
  reflexivity.
Qed.

Lemma analyze_results_permutation_witness :
  let lima :=
    mkItem (Some (mkRepository (Some "lima-vm/lima")
                    (Some (mkOwner (Some "lima-vm"))) None))
           (Some "templates/default.yaml") in
  let other :=
    mkItem (Some (mkRepository (Some "annie444/utils-util")
                    (Some (mkOwner (Some "annie444"))) (Some true)))
           (Some "lima-template.yaml") in
  analyze_results [other; lima] = analyze_results [lima; other].
Proof.
  intros lima other.
  rewrite (analyze_results_permutation [lima; other] [other; lima]
             _ (perm_swap other lima []) eq_refl).
  reflexivity.
Defined.

(** X13.  [analyze_results] returns exactly when every result carries
    the keys [repository], [full_name], [owner], [login] and [path]; an
    absent [fork] key is no error.  Otherwise it raises [KeyError] for
    the first key found absent in the first incomplete result. *)
Theorem analyze_results_key_error (results : list Item) :
  ((exists stats, analyze_results results = Ok stats)
   <-> Forall complete results)
  /\ (forall good bad rest key,
        results = good ++ bad :: rest ->
        Forall complete good ->
        missing_key bad = Some key ->
        analyze_results results = KeyError key).
Proof.
  split; [split|].
  - intros (stats & H). eapply analyze_results_ok. exact H.
  - intros Hall.
    destruct (analyze_results_complete results Hall) as (r & o & p & E & _).
    eexists. exact E.
  - intros good bad rest key -> Hgood Hbad. unfold analyze_results.
    rewrite (visit_all_key_error good _ bad rest key Hgood Hbad). reflexivity.
Qed.

Lemma analyze_results_key_error_witness :
  let lima :=
    mkItem (Some (mkRepository (Some "lima-vm/lima")
                    (Some (mkOwner (Some "lima-vm"))) None))
           (Some "templates/default.yaml") in
  let no_owner :=
    mkItem (Some (mkRepository (Some "a/b") None (Some false))) None in
  analyze_results [lima; no_owner; lima] = KeyError "owner".
Proof.
  intros lima no_owner.
  apply (proj2 (analyze_results_key_error [lima; no_owner; lima])
               [lima] no_owner [lima] "owner" eq_refl).
  - repeat constructor. apply missing_key_complete. reflexivity.
  - reflexivity.
Defined.

End StatsFacts.

(** * [main] of [experiment_search.py] *)

Module MainFacts.
Import ExperimentSearchStats ExperimentSearchMain.

Create HintDb script discriminated.

(** ** Blocks that only print *)

Lemma say_run (text : string) (w : World) :
  say text w
  = (Value tt, mkWorld (trace w) (stdout w ++ [(text ++ newline)%string])).
Proof. reflexivity. Qed.

Lemma quiet_say (text : string) : quiet (say text).
Proof. intros w. eexists. apply say_run. Qed.

Lemma quiet_done : quiet (done tt).
Proof. intros w. exists (stdout w). destruct w. reflexivity. Qed.

Lemma quiet_then (m k : Script unit) :
  quiet m -> quiet k -> quiet (m ;;; k).
Proof.
  intros Hm Hk w. unfold and_then.
  destruct (Hm w) as (out & ->). destruct (Hk (mkWorld (trace w) out))
    as (out' & ->).
  exists out'. reflexivity.
Qed.

Lemma quiet_if (b : bool) (m k : Script unit) :
  quiet m -> quiet k -> quiet (if b then m else k).
Proof. destruct b; auto. Qed.

Lemma quiet_for_each {A : Type} (xs : list A) (body : A -> Script unit) :
  (forall x, quiet (body x)) -> quiet (for_each xs body).
Proof.
  intros Hbody. induction xs as [|x xs IH]; cbn [for_each].
  - apply quiet_done.
  - apply quiet_then; [apply Hbody | exact IH].
Qed.

#[local] Hint Resolve quiet_say quiet_done quiet_then quiet_if
  quiet_for_each : script.

Lemma quiet_banner : quiet banner.
Proof. unfold banner. auto 10 with script. Qed.

Lemma quiet_no_token : quiet no_token.
Proof. unfold no_token. auto 20 with script. Qed.

(** ** Blocks driven by the trace *)

Lemma trace_driven_done {A : Type} (a : A) : trace_driven (done a).
Proof. intros w w' H. unfold outcome_and_trace. cbn. rewrite H. reflexivity. Qed.

Lemma trace_driven_throw {A : Type} (e : PyError) :
  trace_driven (@throw A e).
Proof. intros w w' H. unfold outcome_and_trace. cbn. rewrite H. reflexivity. Qed.

Lemma trace_driven_then {A B : Type} (m : Script A) (k : A -> Script B) :
  trace_driven m -> (forall a, trace_driven (k a)) ->
  trace_driven (and_then m k).
Proof.
  intros Hm Hk w w' H. specialize (Hm w w' H).
  unfold outcome_and_trace, and_then in *.
  destruct (m w) as [[a| e |] w1], (m w') as [[a'| e' |] w1'];
    cbn [fst snd] in *; try congruence.
  injection Hm as <- Ht. apply Hk. exact Ht.
Qed.

Lemma trace_driven_quiet (m : Script unit) : quiet m -> trace_driven m.
Proof.
  intros Hm w w' H. destruct (Hm w) as (out & ->), (Hm w') as (out' & ->).
  unfold outcome_and_trace. cbn. rewrite H. reflexivity.
Qed.

Lemma trace_driven_if {A : Type} (b : bool) (m k : Script A) :
  trace_driven m -> trace_driven k -> trace_driven (if b then m else k).
Proof. destruct b; auto. Qed.

Lemma trace_driven_key {A : Type} (name : string) (field : option A) :
  trace_driven (key name field).
Proof.
  destruct field; [apply trace_driven_done | apply trace_driven_throw].
Qed.

Lemma trace_driven_checked {A : Type} (c : Checked A) :
  trace_driven (checked c).
Proof.
  destruct c; [apply trace_driven_done | apply trace_driven_throw].
Qed.

Lemma trace_driven_try {A : Type} (body : Script A) (handler : Z -> Script A) :
  trace_driven body -> (forall status, trace_driven (handler status)) ->
  trace_driven (try_except_http body handler).
Proof.
  intros Hb Hh w w' H. specialize (Hb w w' H).
  unfold outcome_and_trace, try_except_http in *.
  destruct (body w) as [[a| e |] w1], (body w') as [[a'| e' |] w1'];
    cbn [fst snd] in *; try congruence.
  injection Hb as <- Ht.
  destruct e as [[| status | |]| |]; cbn [fst snd]; try congruence.
  apply Hh. exact Ht.
Qed.

Lemma trace_driven_lift {A : Type} (m : M A) :
  (forall w w', trace w = trace w' -> observe (m w) = observe (m w')) ->
  trace_driven (lift m).
Proof.
  intros Hm w w' H. specialize (Hm w w' H).
  unfold outcome_and_trace, observe, lift in *.
  destruct (m w) as [[a| e |] w1], (m w') as [[a'| e' |] w1'];
    cbn [fst snd] in *; congruence.
Qed.

Section Blocks.
Variable GITHUB_TOKEN : string.
Variable rate_service : Service RateLimit.
Variable search_service : Service (SearchBody Item).
Variable fromtimestamp : Z -> option string.
Variable http_error_text : Z -> string.

Lemma trace_driven_search (query : string) (max_results : Z) :
  trace_driven (lift (search_code GITHUB_TOKEN search_service query max_results)).
Proof.
  apply trace_driven_lift. intros w w' H.
  unfold search_code, ExperimentSearch.search_code.
  rewrite !search_loop_observe, H. reflexivity.
Qed.

Lemma check_rate_limit_run (w : World) :
  check_rate_limit GITHUB_TOKEN rate_service w
  = let w' := mkWorld (trace w ++ [Get (rate_limit_request GITHUB_TOKEN)])
                      (stdout w) in
    match rate_service (n_requests (trace w))
                       (rate_limit_request GITHUB_TOKEN) with
    | Failed => (Raised ConnectionError, w')
    | Answer r =>
      if is_error_status (status_code r)
      then (Raised (HTTPError (status_code r)), w')
      else match json r with
           | Some data => (Returned data, w')
           | None => (Raised JSONDecodeError, w')
           end
    end.
Proof.
  unfold check_rate_limit, rate_limit_request. unfold_effects.
  destruct (rate_service _ _) as [|r]; [reflexivity|].
  destruct (is_error_status (status_code r)); [reflexivity|].
  destruct (json r); reflexivity.
Qed.

Lemma trace_driven_check_rate_limit :
  trace_driven (lift (check_rate_limit GITHUB_TOKEN rate_service)).
Proof.
  apply trace_driven_lift. intros w w' H. rewrite !check_rate_limit_run.
  cbv zeta. rewrite H.
  destruct (rate_service _ _) as [|r]; [reflexivity|].
  destruct (is_error_status (status_code r)); [reflexivity|].
  destruct (json r); reflexivity.
Qed.

(** Running a block after another. *)
Lemma then_quiet {B : Type} (m : Script unit) (k : Script B) (w : World) :
  quiet m -> exists out, (m ;;; k) w = k (mkWorld (trace w) out).
Proof.
  intros Hm. destruct (Hm w) as (out & E). exists out.
  unfold and_then. rewrite E. reflexivity.
Qed.

Lemma then_value {A B : Type} (m : Script A) (k : A -> Script B)
    (w : World) (a : A) (t : list Event) :
  outcome_and_trace (m w) = (Value a, t) ->
  trace_driven (k a) ->
  outcome_and_trace (and_then m k w) = outcome_and_trace (k a (at_trace t)).
Proof.
  unfold outcome_and_trace, and_then. intros E Hk.
  destruct (m w) as [[a'| e |] w1]; cbn [fst snd] in E; try discriminate.
  injection E as -> <-. apply Hk. reflexivity.
Qed.

Lemma then_uncaught {A B : Type} (m : Script A) (k : A -> Script B)
    (w : World) (e : PyError) (t : list Event) :
  outcome_and_trace (m w) = (Uncaught e, t) ->
  outcome_and_trace (and_then m k w) = (Uncaught e, t).
Proof.
  unfold outcome_and_trace, and_then. intros E.
  destruct (m w) as [[a'| e' |] w1]; cbn [fst snd] in E |- *;
    try discriminate.
  injection E as -> ->. reflexivity.
Qed.

Lemma lift_observe {A : Type} (m : M A) (w : World) (a : A) (t : list Event) :
  observe (m w) = (Returned a, t) ->
  outcome_and_trace (lift m w) = (Value a, t).
Proof.
  unfold observe, outcome_and_trace, lift.
  destruct (m w) as [[a'| e |] w1]; cbn [fst snd]; congruence.
Qed.

Ltac drive :=
  repeat (intros;
    first
      [ solve [apply trace_driven_quiet; auto 40 with script]
      | apply trace_driven_then
      | apply trace_driven_key
      | apply trace_driven_checked
      | apply trace_driven_search
      | apply trace_driven_check_rate_limit
      | apply trace_driven_done
      | apply trace_driven_throw
      | apply trace_driven_try
      | match goal with
        | |- trace_driven (if ?b then _ else _) => destruct b
        | |- trace_driven (match ?x with _ => _ end) => destruct x
        end ]).

Lemma trace_driven_final_check :
  trace_driven (final_rate_limit_check GITHUB_TOKEN rate_service).
Proof. unfold final_rate_limit_check. drive. Qed.

Lemma trace_driven_no_results :
  trace_driven (no_results GITHUB_TOKEN search_service).
Proof. unfold no_results. drive. Qed.

Lemma trace_driven_report (results : list Item) :
  trace_driven (report GITHUB_TOKEN rate_service results).
Proof.
  unfold report.
  apply trace_driven_then; [apply trace_driven_checked|]. intros stats.
  repeat (apply trace_driven_then;
          [solve [apply trace_driven_quiet; auto 10 with script]|]; intros _).
  drive.
Qed.

Lemma trace_driven_search_and_report :
  trace_driven (search_and_report GITHUB_TOKEN rate_service search_service).
Proof.
  unfold search_and_report.
  repeat (apply trace_driven_then;
          [solve [apply trace_driven_quiet; auto 10 with script]|]; intros _).
  apply trace_driven_then; [apply trace_driven_search|]. intros results.
  repeat (apply trace_driven_then;
          [solve [apply trace_driven_quiet; auto 10 with script]|]; intros _).
  destruct (is_empty results);
    [apply trace_driven_no_results | apply trace_driven_report].
Qed.

(** ** The first rate-limit check *)

Abbreviation first_check :=
  (first_rate_limit_check GITHUB_TOKEN rate_service fromtimestamp
     http_error_text).
Abbreviation rate_reply w :=
  (rate_service (n_requests (trace w)) (rate_limit_request GITHUB_TOKEN)).
Abbreviation rate := (Get (rate_limit_request GITHUB_TOKEN)).

Ltac run_first_check Hreply :=
  unfold outcome_and_trace, first_rate_limit_check, try_except_http,
    and_then, say, lift, print, print_end, key, done, throw;
  cbn [trace stdout fst snd]; rewrite check_rate_limit_run;
  cbn [trace stdout fst snd]; rewrite Hreply.

Lemma first_check_failed (w : World) :
  rate_reply w = Failed ->
  outcome_and_trace (first_check w)
  = (Uncaught (LibraryError ConnectionError), trace w ++ [rate]).
Proof. intros Hreply. run_first_check Hreply. reflexivity. Qed.

Lemma first_check_http_error (w : World) r :
  rate_reply w = Answer r ->
  is_error_status (status_code r) = true ->
  outcome_and_trace (first_check w) = (Value true, trace w ++ [rate]).
Proof.
  intros Hreply Herr. run_first_check Hreply. rewrite Herr. reflexivity.
Qed.

Lemma first_check_undecodable (w : World) r :
  rate_reply w = Answer r ->
  is_error_status (status_code r) = false ->
  json r = None ->
  outcome_and_trace (first_check w)
  = (Uncaught (LibraryError JSONDecodeError), trace w ++ [rate]).
Proof.
  intros Hreply Hok Hjson. run_first_check Hreply. rewrite Hok, Hjson.
  reflexivity.
Qed.

Lemma first_check_no_resources (w : World) r :
  rate_reply w = Answer r ->
  is_error_status (status_code r) = false ->
  json r = Some (mkRateLimit None) ->
  outcome_and_trace (first_check w)
  = (Uncaught (MissingKey "resources"), trace w ++ [rate]).
Proof.
  intros Hreply Hok Hjson. run_first_check Hreply. rewrite Hok, Hjson.
  reflexivity.
Qed.

Lemma first_check_reports (w : World) (search_remaining : Z) :
  reports fromtimestamp (rate_reply w) search_remaining ->
  outcome_and_trace (first_check w)
  = (Value (negb (search_remaining <? 10)), trace w ++ [rate]).
Proof.
  intros (status & cr & cl & cre & sl & sre & text & Hreply & Hok & Hstamp).
  run_first_check Hreply. cbn [status_code json]. rewrite Hok.
  cbn [resources core search remaining limit reset]. rewrite Hstamp.
  destruct (search_remaining <? 10); reflexivity.
Qed.

(** ** The searches *)

(** A call of [search_code] whose first page ends the loop. *)
Lemma search_single_request (query : string) (max_results : Z) (w : World) :
  0 < max_results ->
  is_more (classify max_results []
             (search_service (n_requests (trace w))
                (search_request GITHUB_TOKEN query 1))) = false ->
  observe (search_code GITHUB_TOKEN search_service query max_results w)
  = (outcome_of (classify max_results []
                   (search_service (n_requests (trace w))
                      (search_request GITHUB_TOKEN query 1))) [],
     trace w ++ [Get (search_request GITHUB_TOKEN query 1)]).
Proof.
  intros Hmax Hstop. unfold search_code.
  destruct (search_code_stops_at GITHUB_TOKEN search_service query max_results
              w 0) as (Hfst & Htrace & _).
  - apply search_code_first_request. exact Hmax.
  - unfold nth_reply. rewrite reply_from_0. exact Hstop.
  - unfold nth_reply in Hfst. rewrite reply_from_0 in Hfst.
    unfold observe. rewrite Hfst, Htrace. reflexivity.
Qed.

Ltac skip_say :=
  match goal with
  | |- context [and_then (say ?x) (fun _ => ?k) ?w] =>
    let out := fresh "out" in
    let E := fresh "E" in
    destruct (then_quiet (say x) k w (quiet_say x)) as (out & E);
    rewrite E; clear E; cbn [trace]
  end.

Abbreviation search_page1 query :=
  (Get (search_request GITHUB_TOKEN query 1)).

(** The branch [if not results] when the simpler search is refused at
    its first request. *)
Lemma no_results_refused (w : World) r :
  search_service (n_requests (trace w))
    (search_request GITHUB_TOKEN simple_query 1) = Answer r ->
  status_code r = 403 \/ status_code r = 422 ->
  outcome_and_trace (no_results GITHUB_TOKEN search_service w)
  = (Value tt, trace w ++ [search_page1 simple_query]).
Proof.
  intros Hreply Hstatus. unfold no_results. do 3 skip_say.
  pose proof (verdict_throttled_or_rejected 100 (@nil Item) r Hstatus)
    as [Hout Hstop].
  rewrite <- Hreply in Hout, Hstop.
  match goal with
  | |- outcome_and_trace (and_then _ _ ?w1) = _ =>
    pose proof (search_single_request simple_query 100 w1 ltac:(lia) Hstop)
      as Hrun
  end.
  cbn [trace] in Hrun. rewrite Hout in Hrun.
  rewrite (then_value _ _ _ _ _ (lift_observe _ _ _ _ Hrun)).
  - reflexivity.
  - cbn [is_empty]. apply trace_driven_done.
Qed.

(** The final rate-limit check. *)
Lemma final_check_http_error (w : World) r :
  rate_reply w = Answer r ->
  is_error_status (status_code r) = true ->
  outcome_and_trace (final_rate_limit_check GITHUB_TOKEN rate_service w)
  = (Uncaught (LibraryError (HTTPError (status_code r))), trace w ++ [rate]).
Proof.
  intros Hreply Herr.
  unfold outcome_and_trace, final_rate_limit_check, and_then, say, lift,
    print, print_end, key, done, throw.
  cbn [trace stdout fst snd]. rewrite check_rate_limit_run.
  cbn [trace stdout fst snd]. rewrite Hreply, Herr. reflexivity.
Qed.

Lemma final_check_reports (w : World) r all search_limit remaining_ limit_ :
  rate_reply w = Answer r ->
  is_error_status (status_code r) = false ->
  json r = Some (mkRateLimit (Some all)) ->
  search all = Some search_limit ->
  remaining search_limit = Some remaining_ ->
  limit search_limit = Some limit_ ->
  outcome_and_trace (final_rate_limit_check GITHUB_TOKEN rate_service w)
  = (Value tt, trace w ++ [rate]).
Proof.
  intros Hreply Hok Hjson Hsearch Hrem Hlim.
  unfold outcome_and_trace, final_rate_limit_check, and_then, say, lift,
    print, print_end, key, done, throw.
  cbn [trace stdout fst snd]. rewrite check_rate_limit_run.
  cbn [trace stdout fst snd]. rewrite Hreply, Hok, Hjson.
  cbn [resources]. rewrite Hsearch, Hrem, Hlim. reflexivity.
Qed.

(** The report, when every result is complete, comes down to the final
    check. *)
Lemma report_complete (results : list Item) (w : World) :
  Forall complete results ->
  outcome_and_trace (report GITHUB_TOKEN rate_service results w)
  = outcome_and_trace
      (final_rate_limit_check GITHUB_TOKEN rate_service (at_trace (trace w))).
Proof.
  intros Hall.
  destruct (StatsFacts.analyze_results_complete results Hall)
    as (r & o & p & Hstats & _).
  unfold report. rewrite Hstats.
  unfold checked. unfold and_then at 1. unfold done at 1.
  repeat skip_say.
  repeat match goal with
  | |- context [and_then ?m (fun _ => ?k) ?w] =>
    let out := fresh "out" in
    let E := fresh "E" in
    destruct (then_quiet m k w ltac:(auto 10 with script)) as (out & E);
    rewrite E; clear E; cbn [trace]; repeat skip_say
  end.
  apply trace_driven_final_check. reflexivity.
Qed.

(** ** [main], block after block *)

Abbreviation the_main :=
  (main GITHUB_TOKEN rate_service search_service fromtimestamp
     http_error_text).
Abbreviation searching :=
  (search_and_report GITHUB_TOKEN rate_service search_service).

Lemma first_check_lets_through (w : World) :
  lets_through fromtimestamp (rate_reply w) ->
  outcome_and_trace (first_check w) = (Value true, trace w ++ [rate]).
Proof.
  intros [(r & Hreply & Herr) | (remaining_ & Hreports & Henough)].
  - apply (first_check_http_error w r Hreply Herr).
  - rewrite (first_check_reports w remaining_ Hreports).
    replace (remaining_ <? 10) with false; [reflexivity|].
    symmetry. apply Z.ltb_ge. exact Henough.
Qed.

(** With a token, [main] is its first check and what that leads to. *)
Lemma main_with_token (w : World) :
  String.eqb GITHUB_TOKEN "" = false ->
  exists out,
    the_main w
    = and_then first_check
        (fun go_on : bool => if go_on then searching else done tt)
        (mkWorld (trace w) out).
Proof.
  intros Htoken. unfold main. rewrite Htoken.
  apply (then_quiet banner _ w quiet_banner).
Qed.

Lemma main_go_on (w : World) :
  String.eqb GITHUB_TOKEN "" = false ->
  lets_through fromtimestamp (rate_reply w) ->
  outcome_and_trace (the_main w)
  = outcome_and_trace (searching (at_trace (trace w ++ [rate]))).
Proof.
  intros Htoken Hthrough.
  destruct (main_with_token w Htoken) as (out & ->).
  rewrite (then_value _ _ _ true (trace w ++ [rate])).
  - reflexivity.
  - apply (first_check_lets_through (mkWorld (trace w) out)). exact Hthrough.
  - apply trace_driven_search_and_report.
Qed.

Lemma main_stops_at_check (w : World) (e : PyError) :
  String.eqb GITHUB_TOKEN "" = false ->
  (forall w', trace w' = trace w ->
     outcome_and_trace (first_check w') = (Uncaught e, trace w ++ [rate])) ->
  outcome_and_trace (the_main w) = (Uncaught e, trace w ++ [rate]).
Proof.
  intros Htoken Hcheck.
  destruct (main_with_token w Htoken) as (out & ->).
  apply then_uncaught. apply Hcheck. reflexivity.
Qed.

Ltac drive_tail :=
  cbv beta;
  repeat (apply trace_driven_then;
          [solve [apply trace_driven_quiet; auto 10 with script]|]; intros _);
  first
    [ match goal with
      | |- trace_driven (if is_empty ?results then _ else _) =>
        destruct (is_empty results);
        [apply trace_driven_no_results | apply trace_driven_report]
      end
    | drive ].

(** Both searches refused at their first request. *)
Lemma searching_refused (w : World) r1 r2 :
  search_service (n_requests (trace w))
    (search_request GITHUB_TOKEN query 1) = Answer r1 ->
  status_code r1 = 403 \/ status_code r1 = 422 ->
  search_service (S (n_requests (trace w)))
    (search_request GITHUB_TOKEN simple_query 1) = Answer r2 ->
  status_code r2 = 403 \/ status_code r2 = 422 ->
  outcome_and_trace (searching w)
  = (Value tt, trace w ++ [search_page1 query; search_page1 simple_query]).
Proof.
  intros Hreply1 Hstatus1 Hreply2 Hstatus2.
  unfold search_and_report. do 4 skip_say.
  pose proof (verdict_throttled_or_rejected 1000 (@nil Item) r1 Hstatus1)
    as [Hout Hstop].
  rewrite <- Hreply1 in Hout, Hstop.
  match goal with
  | |- outcome_and_trace (and_then _ _ ?w1) = _ =>
    pose proof (search_single_request query 1000 w1 ltac:(lia) Hstop) as Hrun
  end.
  cbn [trace] in Hrun. rewrite Hout in Hrun.
  rewrite (then_value _ _ _ _ _ (lift_observe _ _ _ _ Hrun)); [|drive_tail].
  do 5 skip_say. cbn [is_empty].
  rewrite (no_results_refused _ r2).
  - unfold at_trace. cbn [trace]. rewrite <- app_assoc. reflexivity.
  - unfold at_trace. cbn [trace]. rewrite n_requests_app. cbn.
    rewrite Nat.add_1_r. exact Hreply2.
  - exact Hstatus2.
Qed.

(** A first page of complete results that ends the search. *)
Lemma searching_single_page (w : World) (data : SearchBody Item) :
  fetched (search_service (n_requests (trace w))
             (search_request GITHUB_TOKEN query 1)) data ->
  0 < len (dict_get (items data) []) ->
  Forall complete (dict_get (items data) []) ->
  dict_get (total_count data) 0 <= len (dict_get (items data) [])
  \/ 1000 <= len (dict_get (items data) []) ->
  outcome_and_trace (searching w)
  = outcome_and_trace
      (final_rate_limit_check GITHUB_TOKEN rate_service
         (at_trace (trace w ++ [search_page1 query]))).
Proof.
  intros Hfetched Hne Hall Hstop.
  unfold search_and_report. do 4 skip_say.
  pose proof (verdict_page_last 1000 (@nil Item) _ _ Hfetched Hne Hstop) as Hv.
  match goal with
  | |- outcome_and_trace (and_then _ _ ?w1) = _ =>
    pose proof (search_single_request query 1000 w1 ltac:(lia)) as Hrun
  end.
  cbn [trace] in Hrun. rewrite Hv in Hrun. specialize (Hrun eq_refl).
  cbn [outcome_of app] in Hrun.
  rewrite (then_value _ _ _ _ _ (lift_observe _ _ _ _ Hrun)); [|drive_tail].
  do 5 skip_say. rewrite (is_empty_false _ Hne).
  rewrite (report_complete _ _ Hall). reflexivity.
Qed.

End Blocks.

(** X14.  Without a token ([GITHUB_TOKEN] unset or empty) [main] only
    prints: it returns normally and issues no request and no pause. *)
Theorem main_without_token (rate_service : Service RateLimit)
    (search_service : Service (SearchBody Item))
    (fromtimestamp : Z -> option string) (http_error_text : Z -> string)
    (w : World) :
  outcome_and_trace
    (main "" rate_service search_service fromtimestamp http_error_text w)
  = (Value tt, trace w).
Proof.
  unfold main. cbn [String.eqb].
  destruct (quiet_then _ _ quiet_banner quiet_no_token w) as (out & ->).
  reflexivity.
Qed.

(** X15.  With a token, when the rate-limit endpoint reports fewer than
    10 remaining search requests, [main] returns after that one request:
    no search is made. *)
Theorem main_low_quota (GITHUB_TOKEN : string)
    (rate_service : Service RateLimit)
    (search_service : Service (SearchBody Item))
    (fromtimestamp : Z -> option string) (http_error_text : Z -> string)
    (w : World) (search_remaining : Z) :
  String.eqb GITHUB_TOKEN "" = false ->
  reports fromtimestamp
    (rate_service (n_requests (trace w)) (rate_limit_request GITHUB_TOKEN))
    search_remaining ->
  search_remaining < 10 ->
  outcome_and_trace
    (main GITHUB_TOKEN rate_service search_service fromtimestamp
       http_error_text w)
  = (Value tt, trace w ++ [Get (rate_limit_request GITHUB_TOKEN)]).
Proof.
  intros Htoken Hreports Hlow.
  destruct (main_with_token GITHUB_TOKEN rate_service search_service
              fromtimestamp http_error_text w Htoken) as (out & ->).
  rewrite (then_value _ _ _ false
             (trace w ++ [Get (rate_limit_request GITHUB_TOKEN)])).
  - reflexivity.
  - rewrite (first_check_reports GITHUB_TOKEN rate_service fromtimestamp
               http_error_text (mkWorld (trace w) out) search_remaining
               Hreports).
    apply Z.ltb_lt in Hlow. rewrite Hlow. reflexivity.
  - apply trace_driven_done.
Qed.

Lemma main_low_quota_witness :
  let rate_service : Service RateLimit :=
    scripted
      [Answer (mkResponse 200
                 (Some (mkRateLimit
                          (Some (mkResources
                                   (Some (mkLimit (Some 4990) (Some 5000) None))
                                   (Some (mkLimit (Some 3) (Some 30)
                                                  (Some 0))))))))] in
  let search_service : Service (SearchBody Item) := scripted [] in
  outcome_and_trace
    (main "token" rate_service search_service (fun _ => Some "then")
       (fun _ => "") World0)
  = (Value tt, [Get (rate_limit_request "token")]).
Proof.
  intros rate_service search_service.
  apply (main_low_quota "token" rate_service search_service
           (fun _ => Some "then") (fun _ => "") World0 3).
  - reflexivity.
  - do 7 eexists. repeat split.
  - lia.
Defined.

(** X16.  The [try] around the first rate-limit check catches
    [HTTPError] only.  A transport failure, an undecodable body or a
    body without the [resources] key make [main] end with that
    exception, after the one request. *)
Theorem main_first_check_failure (GITHUB_TOKEN : string)
    (rate_service : Service RateLimit)
    (search_service : Service (SearchBody Item))
    (fromtimestamp : Z -> option string) (http_error_text : Z -> string)
    (w : World) :
  let reply :=
    rate_service (n_requests (trace w)) (rate_limit_request GITHUB_TOKEN) in
  let run :=
    outcome_and_trace
      (main GITHUB_TOKEN rate_service search_service fromtimestamp
         http_error_text w) in
  let after := trace w ++ [Get (rate_limit_request GITHUB_TOKEN)] in
  String.eqb GITHUB_TOKEN "" = false ->
  (reply = Failed -> run = (Uncaught (LibraryError ConnectionError), after))
  /\ (forall r,
        reply = Answer r ->
        is_error_status (status_code r) = false ->
        json r = None ->
        run = (Uncaught (LibraryError JSONDecodeError), after))
  /\ (forall r,
        reply = Answer r ->
        is_error_status (status_code r) = false ->
        json r = Some (mkRateLimit None) ->
        run = (Uncaught (MissingKey "resources"), after)).
Proof.
  intros reply run after Htoken. subst reply run after. split; [|split].
  - intros Hreply. apply main_stops_at_check; [exact Htoken|].
    intros w' Hw'. rewrite <- Hw'. apply first_check_failed.
    rewrite Hw'. exact Hreply.
  - intros r Hreply Hok Hjson. apply main_stops_at_check; [exact Htoken|].
    intros w' Hw'. rewrite <- Hw'. apply (first_check_undecodable _ _ _ _ _ r).
    + rewrite Hw'. exact Hreply.
    + exact Hok.
    + exact Hjson.
  - intros r Hreply Hok Hjson. apply main_stops_at_check; [exact Htoken|].
    intros w' Hw'. rewrite <- Hw'. apply (first_check_no_resources _ _ _ _ _ r).
    + rewrite Hw'. exact Hreply.
    + exact Hok.
    + exact Hjson.
Qed.

Lemma main_first_check_failure_witness :
  outcome_and_trace
    (main "token" (scripted []) (scripted []) (fun _ => Some "then")
       (fun _ => "") World0)
  = (Uncaught (LibraryError ConnectionError),
     [Get (rate_limit_request "token")]).
Proof.
  apply (proj1 (main_first_check_failure "token" (scripted []) (scripted [])
                  (fun _ => Some "then") (fun _ => "") World0 eq_refl)).
  reflexivity.
Defined.

(** X17.  An HTTP error on the first rate-limit check is caught and
    [main] goes on.  When its search is then refused (403 or 422) at the
    first request, [main] tries the simpler query; when that is refused
    too, [main] returns normally after these three requests, without
    pause and without the final rate-limit check. *)
Theorem main_searches_refused (GITHUB_TOKEN : string)
    (rate_service : Service RateLimit)
    (search_service : Service (SearchBody Item))
    (fromtimestamp : Z -> option string) (http_error_text : Z -> string)
    (w : World) (r1 r2 : Response (SearchBody Item)) :
  let n := n_requests (trace w) in
  String.eqb GITHUB_TOKEN "" = false ->
  lets_through fromtimestamp
    (rate_service n (rate_limit_request GITHUB_TOKEN)) ->
  search_service (S n) (search_request GITHUB_TOKEN query 1) = Answer r1 ->
  status_code r1 = 403 \/ status_code r1 = 422 ->
  search_service (S (S n)) (search_request GITHUB_TOKEN simple_query 1)
  = Answer r2 ->
  status_code r2 = 403 \/ status_code r2 = 422 ->
  outcome_and_trace
    (main GITHUB_TOKEN rate_service search_service fromtimestamp
       http_error_text w)
  = (Value tt,
     trace w ++ [Get (rate_limit_request GITHUB_TOKEN);
                 Get (search_request GITHUB_TOKEN query 1);
                 Get (search_request GITHUB_TOKEN simple_query 1)]).
Proof.
  intros n Htoken Hthrough Hreply1 Hstatus1 Hreply2 Hstatus2.
  rewrite (main_go_on _ _ _ _ _ w Htoken Hthrough).
  assert (Hn : n_requests (trace w ++ [Get (rate_limit_request GITHUB_TOKEN)])
               = S n).
  { rewrite n_requests_app. cbn. subst n. lia. }
  rewrite (searching_refused GITHUB_TOKEN rate_service search_service _ r1 r2).
  - unfold at_trace. cbn [trace]. rewrite <- app_assoc. reflexivity.
  - unfold at_trace. cbn [trace]. rewrite Hn. exact Hreply1.
  - exact Hstatus1.
  - unfold at_trace. cbn [trace]. rewrite Hn. exact Hreply2.
  - exact Hstatus2.
Qed.

Lemma main_searches_refused_witness :
  let rate_service : Service RateLimit := scripted [status_only 403] in
  let search_service : Service (SearchBody Item) :=
    scripted [Failed; status_only 403; status_only 422] in
  outcome_and_trace
    (main "token" rate_service search_service (fun _ => Some "then")
       (fun _ => "") World0)
  = (Value tt,
     [Get (rate_limit_request "token");
      Get (search_request "token" query 1);
      Get (search_request "token" simple_query 1)]).
Proof.
  intros rate_service search_service.
  apply (main_searches_refused "token" rate_service search_service
           (fun _ => Some "then") (fun _ => "") World0
           (mkResponse 403 None) (mkResponse 422 None)).
  - reflexivity.
  - left. eexists. split; reflexivity.
  - reflexivity.
  - left. reflexivity.
  - reflexivity.
  - right. reflexivity.
Defined.

(** X18.  The final rate-limit check is not guarded.  When the search
    ends with a first page of complete results, [main] reports and asks
    the rate-limit endpoint once more: an HTTP error there ends [main]
    with that exception (the first check would have caught it), and a
    body carrying the search quota lets [main] return normally; either
    way after three requests and no pause. *)
Theorem main_final_check_unguarded (GITHUB_TOKEN : string)
    (rate_service : Service RateLimit)
    (search_service : Service (SearchBody Item))
    (fromtimestamp : Z -> option string) (http_error_text : Z -> string)
    (w : World) (data : SearchBody Item) :
  let n := n_requests (trace w) in
  let run :=
    outcome_and_trace
      (main GITHUB_TOKEN rate_service search_service fromtimestamp
         http_error_text w) in
  let after :=
    trace w ++ [Get (rate_limit_request GITHUB_TOKEN);
                Get (search_request GITHUB_TOKEN query 1);
                Get (rate_limit_request GITHUB_TOKEN)] in
  let last := rate_service (S (S n)) (rate_limit_request GITHUB_TOKEN) in
  String.eqb GITHUB_TOKEN "" = false ->
  lets_through fromtimestamp
    (rate_service n (rate_limit_request GITHUB_TOKEN)) ->
  fetched (search_service (S n) (search_request GITHUB_TOKEN query 1)) data ->
  0 < len (dict_get (items data) []) ->
  Forall complete (dict_get (items data) []) ->
  dict_get (total_count data) 0 <= len (dict_get (items data) [])
  \/ 1000 <= len (dict_get (items data) []) ->
  (forall r,
     last = Answer r ->
     is_error_status (status_code r) = true ->
     run = (Uncaught (LibraryError (HTTPError (status_code r))), after))
  /\ (forall r all search_limit remaining_ limit_,
        last = Answer r ->
        is_error_status (status_code r) = false ->
        json r = Some (mkRateLimit (Some all)) ->
        search all = Some search_limit ->
        remaining search_limit = Some remaining_ ->
        limit search_limit = Some limit_ ->
        run = (Value tt, after)).
Proof.
  intros n run after last Htoken Hthrough Hfetched Hne Hall Hstop.
  assert (Hn1 : n_requests (trace w ++ [Get (rate_limit_request GITHUB_TOKEN)])
                = S n).
  { rewrite n_requests_app. cbn. subst n. lia. }
  assert (Hn2 : n_requests
                  ((trace w ++ [Get (rate_limit_request GITHUB_TOKEN)])
                   ++ [Get (search_request GITHUB_TOKEN query 1)])
                = S (S n)).
  { rewrite n_requests_app, Hn1. cbn. lia. }
  assert (Hrun : run
                 = outcome_and_trace
                     (final_rate_limit_check GITHUB_TOKEN rate_service
                        (at_trace
                           ((trace w ++ [Get (rate_limit_request GITHUB_TOKEN)])
                            ++ [Get (search_request GITHUB_TOKEN query 1)])))).
  { subst run. rewrite (main_go_on _ _ _ _ _ w Htoken Hthrough).
    exact (searching_single_page GITHUB_TOKEN rate_service search_service
             (at_trace (trace w ++ [Get (rate_limit_request GITHUB_TOKEN)]))
             data
             ltac:(unfold at_trace; cbn [trace]; rewrite Hn1; exact Hfetched)
             Hne Hall Hstop). }
  assert (Hafter : ((trace w ++ [Get (rate_limit_request GITHUB_TOKEN)])
                    ++ [Get (search_request GITHUB_TOKEN query 1)])
                   ++ [Get (rate_limit_request GITHUB_TOKEN)] = after).
  { subst after. rewrite <- !app_assoc. reflexivity. }
  split.
  - intros r Hlast Herr. rewrite Hrun.
    rewrite (final_check_http_error GITHUB_TOKEN rate_service _ r).
    + unfold at_trace. cbn [trace]. rewrite Hafter. reflexivity.
    + unfold at_trace. cbn [trace]. rewrite Hn2. exact Hlast.
    + exact Herr.
  - intros r all search_limit remaining_ limit_ Hlast Hok Hjson Hsearch
      Hrem Hlim. rewrite Hrun.
    rewrite (final_check_reports GITHUB_TOKEN rate_service _ r all
               search_limit remaining_ limit_).
    + unfold at_trace. cbn [trace]. rewrite Hafter. reflexivity.
    + unfold at_trace. cbn [trace]. rewrite Hn2. exact Hlast.
    + exact Hok.
    + exact Hjson.
    + exact Hsearch.
    + exact Hrem.
    + exact Hlim.
Qed.

Lemma main_final_check_unguarded_witness :
  let item :=
    mkItem (Some (mkRepository (Some "annie444/utils-util")
                    (Some (mkOwner (Some "annie444"))) None))
           (Some "lima-template.yaml") in
  let rate_service : Service RateLimit :=
    scripted [status_only 500; Failed; status_only 403] in
  let search_service : Service (SearchBody Item) :=
    scripted [Failed; page [item] (Some 1)] in
  outcome_and_trace
    (main "token" rate_service search_service (fun _ => Some "then")
       (fun _ => "") World0)
  = (Uncaught (LibraryError (HTTPError 403)),
     [Get (rate_limit_request "token");
      Get (search_request "token" query 1);
      Get (rate_limit_request "token")]).
Proof.
  intros item rate_service search_service.
  refine (proj1 (main_final_check_unguarded "token" rate_service search_service
                  (fun _ => Some "then") (fun _ => "") World0
                  (mkSearchBody (Some [item]) (Some 1)) _ _ _ _ _ _)
               (mkResponse 403 None) _ _).
  - reflexivity.
  - left. eexists. split; reflexivity.
  - eexists. repeat split.
  - reflexivity.
  - repeat constructor. apply StatsFacts.missing_key_complete. reflexivity.
  - left. vm_compute. discriminate.
  - reflexivity.
  - reflexivity.
Defined.

End MainFacts.

(** * [main] of [experiment_fork_search.py] *)

Module ForkMainFacts.
Import ExperimentSearchMain ExperimentForkMain MainFacts.

#[local] Hint Resolve quiet_say quiet_done quiet_then quiet_if
  quiet_for_each : script.

(** ** Blocks *)

Lemma trace_driven_for_each {A : Type} (xs : list A)
    (body : A -> Script unit) :
  (forall x, trace_driven (body x)) -> trace_driven (for_each xs body).
Proof.
  intros Hbody. induction xs as [|x xs IH]; cbn [for_each].
  - apply trace_driven_done.
  - apply trace_driven_then; [apply Hbody | intros _; exact IH].
Qed.

Lemma trace_driven_collect {A B : Type} (xs : list A) (f : A -> Script B) :
  (forall x, trace_driven (f x)) -> trace_driven (collect xs f).
Proof.
  intros Hf. induction xs as [|x xs IH]; cbn [collect].
  - apply trace_driven_done.
  - apply trace_driven_then; [apply Hf|]. intros y.
    apply trace_driven_then; [exact IH|]. intros ys. apply trace_driven_done.
Qed.

Lemma trace_driven_collect_if {A : Type} (xs : list A)
    (test : A -> Script bool) :
  (forall x, trace_driven (test x)) -> trace_driven (collect_if xs test).
Proof.
  intros Ht. induction xs as [|x xs IH]; cbn [collect_if].
  - apply trace_driven_done.
  - apply trace_driven_then; [apply Ht|]. intros keep.
    apply trace_driven_then; [exact IH|]. intros ys. apply trace_driven_done.
Qed.

Section Blocks.
Variable GITHUB_TOKEN : string.
Variable search_service : Service (SearchBody ExperimentSearchStats.Item).
Variable repo_service : Service Repo.
Variable forks_service : Service (list Repo).
Variable rate_service : Service RateLimit.

Lemma fork_search_observe (query : string) (max_results : Z) (w : World) :
  observe (search_code GITHUB_TOKEN search_service query max_results w)
  = observe (ExperimentSearchMain.search_code GITHUB_TOKEN search_service
               query max_results w).
Proof.
  unfold search_code, ExperimentSearchMain.search_code,
    ExperimentForkSearch.search_code, ExperimentSearch.search_code.
  rewrite fork_search_loop_observe, search_loop_observe. reflexivity.
Qed.

Lemma trace_driven_fork_search (query : string) (max_results : Z) :
  trace_driven (lift (search_code GITHUB_TOKEN search_service query
                        max_results)).
Proof.
  apply trace_driven_lift. intros w w' H.
  unfold search_code, ExperimentForkSearch.search_code.
  rewrite !fork_search_loop_observe, H. reflexivity.
Qed.

Lemma forks_loop_observe (owner repo : string) (max_forks : Z) (fuel : nat) :
  forall forks page w w',
    trace w = trace w' ->
    observe (ExperimentForkSearch.forks_loop GITHUB_TOKEN forks_service
               owner repo max_forks fuel forks page w)
    = observe (ExperimentForkSearch.forks_loop GITHUB_TOKEN forks_service
                 owner repo max_forks fuel forks page w').
Proof.
  induction fuel as [|fuel IH]; intros forks page w w' H.
  - unfold observe. cbn. rewrite H. reflexivity.
  - rewrite !forks_loop_S, H.
    destruct (len forks <? max_forks);
      [|unfold observe; cbn; rewrite H; reflexivity].
    destruct (classify_forks _); try reflexivity.
    apply IH. reflexivity.
Qed.

Lemma trace_driven_list_forks (owner repo : string) (max_forks : Z) :
  trace_driven (lift (list_forks GITHUB_TOKEN forks_service owner repo
                        max_forks)).
Proof.
  apply trace_driven_lift. intros w w' H.
  apply forks_loop_observe. exact H.
Qed.

Lemma get_repo_info_run (owner repo : string) (w : World) :
  get_repo_info GITHUB_TOKEN repo_service owner repo w
  = let w' := mkWorld (trace w ++ [Get (repo_request GITHUB_TOKEN owner repo)])
                      (stdout w) in
    match repo_service (n_requests (trace w))
                       (repo_request GITHUB_TOKEN owner repo) with
    | Failed => (Raised ConnectionError, w')
    | Answer r =>
      if is_error_status (status_code r)
      then (Raised (HTTPError (status_code r)), w')
      else match json r with
           | Some data => (Returned data, w')
           | None => (Raised JSONDecodeError, w')
           end
    end.
Proof.
  unfold get_repo_info, repo_request. unfold_effects.
  destruct (repo_service _ _) as [|r]; [reflexivity|].
  destruct (is_error_status (status_code r)); [reflexivity|].
  destruct (json r); reflexivity.
Qed.

Lemma trace_driven_get_repo_info (owner repo : string) :
  trace_driven (lift (get_repo_info GITHUB_TOKEN repo_service owner repo)).
Proof.
  apply trace_driven_lift. intros w w' H. rewrite !get_repo_info_run.
  cbv zeta. rewrite H.
  destruct (repo_service _ _) as [|r]; [reflexivity|].
  destruct (is_error_status (status_code r)); [reflexivity|].
  destruct (json r); reflexivity.
Qed.

Lemma fork_check_rate_limit_run (w : World) :
  check_rate_limit GITHUB_TOKEN rate_service w
  = let w' := mkWorld (trace w ++ [Get (rate_limit_request GITHUB_TOKEN)])
                      (stdout w) in
    match rate_service (n_requests (trace w))
                       (rate_limit_request GITHUB_TOKEN) with
    | Failed => (Raised ConnectionError, w')
    | Answer r =>
      if is_error_status (status_code r)
      then (Raised (HTTPError (status_code r)), w')
      else match json r with
           | Some data => (Returned data, w')
           | None => (Raised JSONDecodeError, w')
           end
    end.
Proof.
  unfold check_rate_limit, rate_limit_request. unfold_effects.
  destruct (rate_service _ _) as [|r]; [reflexivity|].
  destruct (is_error_status (status_code r)); [reflexivity|].
  destruct (json r); reflexivity.
Qed.

Lemma trace_driven_fork_check_rate_limit :
  trace_driven (lift (check_rate_limit GITHUB_TOKEN rate_service)).
Proof.
  apply trace_driven_lift. intros w w' H. rewrite !fork_check_rate_limit_run.
  cbv zeta. rewrite H.
  destruct (rate_service _ _) as [|r]; [reflexivity|].
  destruct (is_error_status (status_code r)); [reflexivity|].
  destruct (json r); reflexivity.
Qed.

Ltac drive :=
  repeat (intros;
    first
      [ solve [apply trace_driven_quiet; auto 40 with script]
      | apply trace_driven_fork_search
      | apply trace_driven_list_forks
      | apply trace_driven_get_repo_info
      | apply trace_driven_fork_check_rate_limit
      | apply trace_driven_key
      | apply trace_driven_done
      | apply trace_driven_throw
      | apply trace_driven_for_each
      | apply trace_driven_collect
      | apply trace_driven_collect_if
      | apply trace_driven_then
      | match goal with
        | |- trace_driven (if ?b then _ else _) => destruct b
        | |- trace_driven (match ?x with _ => _ end) => destruct x
        end ]).

Lemma trace_driven_experiment_1 :
  trace_driven (experiment_1 GITHUB_TOKEN search_service).
Proof. unfold experiment_1. drive. Qed.

Lemma trace_driven_experiment_2 :
  trace_driven (experiment_2 GITHUB_TOKEN repo_service forks_service).
Proof. unfold experiment_2. drive. Qed.

Lemma trace_driven_experiment_3 (forks : list Repo) :
  trace_driven (experiment_3 GITHUB_TOKEN search_service forks).
Proof. unfold experiment_3. drive. Qed.

Lemma trace_driven_experiment_4 (lima_repo : Repo) (forks : list Repo) :
  trace_driven (experiment_4 lima_repo forks).
Proof. unfold experiment_4. drive. Qed.

Lemma trace_driven_conclusion (lima_repo : Repo) :
  trace_driven (conclusion GITHUB_TOKEN rate_service lima_repo).
Proof. unfold conclusion. drive. Qed.

Ltac skip_say :=
  match goal with
  | |- context [and_then (say ?x) (fun _ => ?k) ?w] =>
    let out := fresh "out" in
    let E := fresh "E" in
    destruct (then_quiet (say x) k w (quiet_say x)) as (out & E);
    rewrite E; clear E; cbn [trace]
  end.

Lemma Forall_firstn {A : Type} (P : A -> Prop) (n : nat) (l : list A) :
  Forall P l -> Forall P (firstn n l).
Proof.
  intros H. revert n. induction H as [|x l Hx _ IH]; intros [|n]; cbn;
    constructor; auto.
Qed.

(** ** Experiment 1 *)

Lemma experiment_1_refused (w : World) r :
  search_service (n_requests (trace w))
    (search_request GITHUB_TOKEN query 1) = Answer r ->
  status_code r = 403 \/ status_code r = 422 ->
  outcome_and_trace (experiment_1 GITHUB_TOKEN search_service w)
  = (Value tt, trace w ++ [Get (search_request GITHUB_TOKEN query 1)]).
Proof.
  intros Hreply Hstatus. unfold experiment_1. do 3 skip_say.
  pose proof (verdict_throttled_or_rejected 200
                (@nil ExperimentSearchStats.Item) r Hstatus) as [Hout Hstop].
  rewrite <- Hreply in Hout, Hstop.
  match goal with
  | |- outcome_and_trace (and_then _ _ ?w1) = _ =>
    pose proof (search_single_request GITHUB_TOKEN search_service query 200 w1
                  ltac:(lia) Hstop) as Hrun
  end.
  cbn [trace] in Hrun. rewrite Hout, <- fork_search_observe in Hrun.
  rewrite (then_value _ _ _ _ _ (lift_observe _ _ _ _ Hrun)).
  - cbv beta. skip_say. cbn [is_empty].
    unfold and_then at 1. unfold done at 1. rewrite say_run.
    unfold at_trace. reflexivity.
  - cbv beta. drive.
Qed.

(** ** Experiment 2 *)

Lemma list_forks_single_request (max_forks : Z) (w : World) :
  0 < max_forks ->
  is_full (classify_forks
             (forks_service (n_requests (trace w))
                (forks_request GITHUB_TOKEN "lima-vm" "lima" 1))) = false ->
  observe (list_forks GITHUB_TOKEN forks_service "lima-vm" "lima" max_forks w)
  = (forks_outcome_of
       (classify_forks
          (forks_service (n_requests (trace w))
             (forks_request GITHUB_TOKEN "lima-vm" "lima" 1))) [],
     trace w ++ [Get (forks_request GITHUB_TOKEN "lima-vm" "lima" 1)]).
Proof.
  intros Hmax Hstop. unfold list_forks, ExperimentForkSearch.list_forks.
  rewrite forks_loop_S.
  replace (len (@nil Repo) <? max_forks) with true
    by (symmetry; apply Z.ltb_lt; exact Hmax).
  destruct (classify_forks _); try discriminate; reflexivity.
Qed.

(** Printing the top forks only prints when their keys are present. *)
Lemma quiet_top_forks (forks : list Repo) :
  Forall complete_fork forks ->
  quiet (for_each forks
           (fun fork =>
              fork_full_name <~ key "full_name" (full_name fork) ;;
              fork_stars <~ key "stargazers_count" (stargazers_count fork) ;;
              fork_updated <~ key "updated_at" (updated_at fork) ;;
              say ("  " ++ fork_full_name ++ ": " ++ str fork_stars
                   ++ " stars, " ++ "updated " ++ fork_updated)%string)).
Proof.
  induction 1 as [|fork forks Hfork _ IH]; cbn [for_each].
  - apply quiet_done.
  - apply quiet_then; [|exact IH].
    destruct Hfork as (fn & nm & ow & lg & st & up & -> & _ & _ & _ & -> & ->).
    cbn. apply quiet_say.
Qed.

Lemma experiment_2_run (w : World) (lima_repo : Repo) (forks : list Repo)
    (repo_forks repo_stars : Z) :
  fetched (repo_service (n_requests (trace w))
             (repo_request GITHUB_TOKEN "lima-vm" "lima")) lima_repo ->
  forks_count lima_repo = Some repo_forks ->
  stargazers_count lima_repo = Some repo_stars ->
  fetched (forks_service (S (n_requests (trace w)))
             (forks_request GITHUB_TOKEN "lima-vm" "lima" 1)) forks ->
  len forks < 100 ->
  Forall complete_fork forks ->
  outcome_and_trace (experiment_2 GITHUB_TOKEN repo_service forks_service w)
  = (Value (lima_repo, forks),
     trace w ++ [Get (repo_request GITHUB_TOKEN "lima-vm" "lima");
                 Get (forks_request GITHUB_TOKEN "lima-vm" "lima" 1)]).
Proof.
  intros (r & Hreply & Hok & Hjson) Hforks_count Hstars Hfetched Hshort Hall.
  unfold experiment_2. do 3 skip_say.
  unfold and_then at 1. unfold lift at 1. rewrite get_repo_info_run.
  cbn [trace stdout]. rewrite Hreply, Hok, Hjson, Hforks_count.
  unfold key at 1. unfold and_then at 1. unfold done at 1.
  skip_say. rewrite Hstars.
  unfold key at 1. unfold and_then at 1. unfold done at 1.
  do 3 skip_say.
  destruct (classify_forks_fetched _ _ Hfetched) as (_ & Hv).
  assert (Hstop : is_full (classify_forks
                    (forks_service (S (n_requests (trace w)))
                       (forks_request GITHUB_TOKEN "lima-vm" "lima" 1)))
                  = false).
  { rewrite Hv. destruct (is_empty forks); [reflexivity|].
    replace (len forks <? 100) with true
      by (symmetry; apply Z.ltb_lt; exact Hshort).
    reflexivity. }
  match goal with
  | |- outcome_and_trace (and_then _ _ ?w1) = _ =>
    pose proof (list_forks_single_request 30 w1 ltac:(lia)) as Hrun
  end.
  cbn [trace] in Hrun. rewrite n_requests_app in Hrun.
  change (n_requests [Get (repo_request GITHUB_TOKEN "lima-vm" "lima")])
    with 1%nat in Hrun.
  rewrite Nat.add_1_r in Hrun. specialize (Hrun Hstop).
  assert (Hout : forks_outcome_of
                   (classify_forks
                      (forks_service (S (n_requests (trace w)))
                         (forks_request GITHUB_TOKEN "lima-vm" "lima" 1))) []
                 = Returned forks).
  { rewrite Hv. destruct forks as [|f fs]; [reflexivity|]. cbn [is_empty].
    replace (len (f :: fs) <? 100) with true
      by (symmetry; apply Z.ltb_lt; exact Hshort).
    reflexivity. }
  rewrite Hout in Hrun.
  rewrite (then_value _ _ _ _ _ (lift_observe _ _ _ _ Hrun)).
  - cbv beta. do 2 skip_say.
    match goal with
    | |- context [and_then ?m (fun _ => ?k) ?w1] =>
      destruct (then_quiet m k w1) as (out' & E)
    end.
    { destruct (is_empty forks); [apply quiet_done|].
      apply quiet_then; [apply quiet_say|].
      apply quiet_top_forks, Forall_firstn, Hall. }
    rewrite E. skip_say. unfold at_trace. cbn [trace].
    rewrite <- app_assoc. reflexivity.
  - cbv beta. drive.
Qed.

Lemma experiment_2_forks_error (w : World) (lima_repo : Repo)
    (repo_forks repo_stars : Z) r :
  fetched (repo_service (n_requests (trace w))
             (repo_request GITHUB_TOKEN "lima-vm" "lima")) lima_repo ->
  forks_count lima_repo = Some repo_forks ->
  stargazers_count lima_repo = Some repo_stars ->
  forks_service (S (n_requests (trace w)))
    (forks_request GITHUB_TOKEN "lima-vm" "lima" 1) = Answer r ->
  is_error_status (status_code r) = true ->
  outcome_and_trace (experiment_2 GITHUB_TOKEN repo_service forks_service w)
  = (Uncaught (LibraryError (HTTPError (status_code r))),
     trace w ++ [Get (repo_request GITHUB_TOKEN "lima-vm" "lima");
                 Get (forks_request GITHUB_TOKEN "lima-vm" "lima" 1)]).
Proof.
  intros (r0 & Hreply & Hok & Hjson) Hforks_count Hstars Hforks Herr.
  unfold experiment_2. do 3 skip_say.
  unfold and_then at 1. unfold lift at 1. rewrite get_repo_info_run.
  cbn [trace stdout]. rewrite Hreply, Hok, Hjson, Hforks_count.
  unfold key at 1. unfold and_then at 1. unfold done at 1.
  skip_say. rewrite Hstars.
  unfold key at 1. unfold and_then at 1. unfold done at 1.
  do 3 skip_say.
  match goal with
  | |- outcome_and_trace (and_then _ _ ?w1) = _ =>
    pose proof (list_forks_single_request 30 w1 ltac:(lia)) as Hrun
  end.
  cbn [trace] in Hrun. rewrite n_requests_app in Hrun.
  change (n_requests [Get (repo_request GITHUB_TOKEN "lima-vm" "lima")])
    with 1%nat in Hrun.
  rewrite Nat.add_1_r, Hforks in Hrun. unfold classify_forks in Hrun.
  rewrite Herr in Hrun. specialize (Hrun eq_refl).
  cbn [forks_outcome_of] in Hrun.
  apply then_uncaught.
  unfold outcome_and_trace, observe, lift in *.
  destruct (list_forks _ _ _ _ _ _) as [[a|e|] w1]; cbn [fst snd] in *;
    try discriminate.
  injection Hrun as -> ->. rewrite <- app_assoc. reflexivity.
Qed.

(** ** Experiments 3 and 4, conclusion *)

Lemma experiment_3_none (w : World) :
  outcome_and_trace (experiment_3 GITHUB_TOKEN search_service [] w)
  = (Value tt, trace w).
Proof. reflexivity. Qed.

Lemma experiment_3_refused (w : World) (top_fork : Repo) (rest : list Repo)
    (fork_search : string) r :
  complete_fork top_fork ->
  top_fork_query top_fork = Some fork_search ->
  search_service (n_requests (trace w))
    (search_request GITHUB_TOKEN fork_search 1) = Answer r ->
  status_code r = 403 \/ status_code r = 422 ->
  outcome_and_trace
    (experiment_3 GITHUB_TOKEN search_service (top_fork :: rest) w)
  = (Value tt, trace w ++ [Get (search_request GITHUB_TOKEN fork_search 1)]).
Proof.
  intros (fn & nm & ow & lg & st & up & _ & Hname & Howner & Hlogin & _ & _)
    Hquery Hreply Hstatus.
  unfold top_fork_query in Hquery. rewrite Howner, Hlogin, Hname in Hquery.
  injection Hquery as <-.
  unfold experiment_3. do 2 skip_say. rewrite Howner.
  unfold key at 1. unfold and_then at 1. unfold done at 1. rewrite Hlogin.
  unfold key at 1. unfold and_then at 1. unfold done at 1. rewrite Hname.
  unfold key at 1. unfold and_then at 1. unfold done at 1.
  cbv zeta. skip_say.
  pose proof (verdict_throttled_or_rejected 50
                (@nil ExperimentSearchStats.Item) r Hstatus) as [Hout Hstop].
  rewrite <- Hreply in Hout, Hstop.
  match goal with
  | |- outcome_and_trace (and_then _ _ ?w1) = _ =>
    pose proof (search_single_request GITHUB_TOKEN search_service
                  (fork_query lg nm) 50 w1 ltac:(lia) Hstop) as Hrun
  end.
  cbn [trace] in Hrun. rewrite Hout, <- fork_search_observe in Hrun.
  rewrite (then_value _ _ _ _ _ (lift_observe _ _ _ _ Hrun)).
  - cbv beta. skip_say. rewrite say_run. unfold at_trace. reflexivity.
  - cbv beta. drive.
Qed.

(** A comprehension whose test only computes is a [filter]. *)
Lemma collect_if_filter {A : Type} (xs : list A) (test : A -> Script bool)
    (p : A -> bool) :
  Forall (fun x => forall w, test x w = (Value (p x), w)) xs ->
  forall w, collect_if xs test w = (Value (filter p xs), w).
Proof.
  induction 1 as [|x xs Hx _ IH]; intros w; cbn [collect_if filter].
  - reflexivity.
  - unfold and_then at 1. rewrite Hx. unfold and_then at 1. rewrite IH.
    unfold done. destruct (p x); reflexivity.
Qed.

(** Selecting the forks with more stars changes nothing in the world
    when the keys are present, and keeps forks of the list only. *)
Lemma collect_if_complete (lima_repo : Repo) (repo_stars : Z)
    (forks : list Repo) :
  stargazers_count lima_repo = Some repo_stars ->
  Forall complete_fork forks ->
  exists kept,
    Forall complete_fork kept
    /\ forall w,
         collect_if forks
           (fun f =>
              fork_stars <~ key "stargazers_count" (stargazers_count f) ;;
              stars <~ key "stargazers_count" (stargazers_count lima_repo) ;;
              done (fork_stars >? stars)) w
         = (Value kept, w).
Proof.
  intros Hstars Hall.
  exists (filter (fun f => match stargazers_count f with
                           | Some fork_stars => fork_stars >? repo_stars
                           | None => false
                           end) forks).
  split.
  - rewrite Forall_forall in Hall |- *. intros f Hf.
    apply filter_In in Hf. apply Hall, Hf.
  - apply collect_if_filter. rewrite Forall_forall in Hall |- *.
    intros f Hf w.
    destruct (Hall f Hf)
      as (fn & nm & ow & lg & st & up & _ & _ & _ & _ & Hst & _).
    rewrite Hst, Hstars. reflexivity.
Qed.

Lemma quiet_more_stars (forks : list Repo) :
  Forall complete_fork forks ->
  quiet (for_each forks
           (fun fork =>
              fork_full_name <~ key "full_name" (full_name fork) ;;
              fork_stars <~ key "stargazers_count" (stargazers_count fork) ;;
              say ("  " ++ fork_full_name ++ ": " ++ str fork_stars
                   ++ " stars")%string)).
Proof.
  induction 1 as [|fork forks Hfork _ IH]; cbn [for_each].
  - apply quiet_done.
  - apply quiet_then; [|exact IH].
    destruct Hfork as (fn & nm & ow & lg & st & up & -> & _ & _ & _ & -> & _).
    cbn. apply quiet_say.
Qed.

Lemma quiet_experiment_4 (lima_repo : Repo) (repo_stars : Z)
    (forks : list Repo) :
  stargazers_count lima_repo = Some repo_stars ->
  Forall complete_fork forks ->
  quiet (experiment_4 lima_repo forks).
Proof.
  intros Hstars Hall. unfold experiment_4.
  destruct (collect_if_complete lima_repo repo_stars forks Hstars Hall)
    as (kept & Hkept & Hrun).
  rewrite Hstars in Hrun.
  do 6 (apply quiet_then; [apply quiet_say|]).
  rewrite Hstars. intros w. unfold key at 1. unfold and_then at 1.
  unfold done at 1. revert w.
  apply quiet_then; [apply quiet_say|].
  apply quiet_then; [|apply quiet_say].
  destruct (is_empty forks); [apply quiet_done|].
  intros w. unfold and_then at 1. rewrite Hrun. revert w.
  apply quiet_then; [apply quiet_say|].
  destruct (is_empty kept); [apply quiet_done|].
  apply quiet_more_stars. exact Hkept.
Qed.

Lemma conclusion_run (w : World) (lima_repo : Repo) (repo_stars : Z)
    (limits : RateLimit) all core_limit core_remaining :
  stargazers_count lima_repo = Some repo_stars ->
  fetched (rate_service (n_requests (trace w))
             (rate_limit_request GITHUB_TOKEN)) limits ->
  resources limits = Some all ->
  core all = Some core_limit ->
  remaining core_limit = Some core_remaining ->
  outcome_and_trace (conclusion GITHUB_TOKEN rate_service lima_repo w)
  = (Value tt, trace w ++ [Get (rate_limit_request GITHUB_TOKEN)]).
Proof.
  intros Hstars (r & Hreply & Hok & Hjson) Hall Hcore Hrem.
  unfold conclusion. do 6 skip_say. rewrite Hstars.
  unfold key at 1. unfold and_then at 1. unfold done at 1.
  do 10 skip_say.
  unfold outcome_and_trace, and_then, say, lift, print, print_end, key, done,
    throw.
  rewrite fork_check_rate_limit_run. cbn [trace stdout fst snd].
  rewrite Hreply, Hok, Hjson, Hall, Hcore, Hrem. reflexivity.
Qed.

(** ** [main], block after block *)

Abbreviation the_main :=
  (main GITHUB_TOKEN search_service repo_service forks_service rate_service).

Lemma quiet_fork_banner : quiet ExperimentForkMain.banner.
Proof. unfold ExperimentForkMain.banner. auto 10 with script. Qed.

Lemma trace_driven_after_2 (found : Repo * list Repo) :
  trace_driven
    (let '(lima_repo, forks) := found in
     experiment_3 GITHUB_TOKEN search_service forks ;;;
     experiment_4 lima_repo forks ;;;
     conclusion GITHUB_TOKEN rate_service lima_repo).
Proof.
  destruct found as [lima_repo forks].
  apply trace_driven_then; [apply trace_driven_experiment_3|]. intros _.
  apply trace_driven_then; [apply trace_driven_experiment_4|]. intros _.
  apply trace_driven_conclusion.
Qed.

Lemma trace_driven_after_1 :
  trace_driven
    (found <~ experiment_2 GITHUB_TOKEN repo_service forks_service ;;
     let '(lima_repo, forks) := found in
     experiment_3 GITHUB_TOKEN search_service forks ;;;
     experiment_4 lima_repo forks ;;;
     conclusion GITHUB_TOKEN rate_service lima_repo).
Proof.
  apply trace_driven_then; [apply trace_driven_experiment_2|].
  apply trace_driven_after_2.
Qed.

(** With a token and a first search refused at once, [main] is what
    follows experiment 1. *)
Lemma main_after_1 (w : World) r :
  String.eqb GITHUB_TOKEN "" = false ->
  search_service (n_requests (trace w))
    (search_request GITHUB_TOKEN query 1) = Answer r ->
  status_code r = 403 \/ status_code r = 422 ->
  outcome_and_trace (the_main w)
  = outcome_and_trace
      ((found <~ experiment_2 GITHUB_TOKEN repo_service forks_service ;;
        let '(lima_repo, forks) := found in
        experiment_3 GITHUB_TOKEN search_service forks ;;;
        experiment_4 lima_repo forks ;;;
        conclusion GITHUB_TOKEN rate_service lima_repo)
         (at_trace (trace w ++ [Get (search_request GITHUB_TOKEN query 1)]))).
Proof.
  intros Htoken Hreply Hstatus. unfold main. rewrite Htoken.
  destruct (then_quiet banner
              (experiment_1 GITHUB_TOKEN search_service ;;;
               (found <~ experiment_2 GITHUB_TOKEN repo_service forks_service ;;
                let '(lima_repo, forks) := found in
                experiment_3 GITHUB_TOKEN search_service forks ;;;
                experiment_4 lima_repo forks ;;;
                conclusion GITHUB_TOKEN rate_service lima_repo))
              w quiet_fork_banner) as (out & E).
  rewrite E.
  rewrite (then_value _ _ _ tt
             (trace w ++ [Get (search_request GITHUB_TOKEN query 1)])).
  - reflexivity.
  - apply (experiment_1_refused (mkWorld (trace w) out) r Hreply Hstatus).
  - apply trace_driven_after_1.
Qed.

Abbreviation first_requests :=
  [Get (search_request GITHUB_TOKEN query 1);
   Get (repo_request GITHUB_TOKEN "lima-vm" "lima");
   Get (forks_request GITHUB_TOKEN "lima-vm" "lima" 1)].

Lemma n_requests_snoc_get (t : list Event) (request : Request) :
  n_requests (t ++ [Get request]) = S (n_requests t).
Proof.
  rewrite n_requests_app.
  change (n_requests [Get request]) with 1%nat. apply Nat.add_1_r.
Qed.

(** With a token, a first search refused at once and a readable
    repository, [main] is what follows experiment 2. *)
Lemma main_after_2 (w : World) r (lima_repo : Repo) (forks : list Repo) :
  String.eqb GITHUB_TOKEN "" = false ->
  search_service (n_requests (trace w))
    (search_request GITHUB_TOKEN query 1) = Answer r ->
  status_code r = 403 \/ status_code r = 422 ->
  describes (repo_service (S (n_requests (trace w)))
               (repo_request GITHUB_TOKEN "lima-vm" "lima")) lima_repo ->
  lists (forks_service (S (S (n_requests (trace w))))
           (forks_request GITHUB_TOKEN "lima-vm" "lima" 1)) forks ->
  outcome_and_trace (the_main w)
  = outcome_and_trace
      ((experiment_3 GITHUB_TOKEN search_service forks ;;;
        experiment_4 lima_repo forks ;;;
        conclusion GITHUB_TOKEN rate_service lima_repo)
         (at_trace (trace w ++ first_requests))).
Proof.
  intros Htoken Hreply Hstatus
    (Hrepo & (repo_forks & Hforks_count) & (repo_stars & Hstars))
    (Hforks & Hshort & Hall).
  rewrite (main_after_1 w r Htoken Hreply Hstatus).
  rewrite (then_value _ _ _ (lima_repo, forks)
             ((trace w ++ [Get (search_request GITHUB_TOKEN query 1)])
                ++ [Get (repo_request GITHUB_TOKEN "lima-vm" "lima");
                    Get (forks_request GITHUB_TOKEN "lima-vm" "lima" 1)])).
  - rewrite <- app_assoc. reflexivity.
  - apply (experiment_2_run
             (at_trace (trace w ++ [Get (search_request GITHUB_TOKEN query 1)]))
             lima_repo forks repo_forks repo_stars);
      unfold at_trace; cbn [trace]; rewrite ?n_requests_snoc_get; assumption.
  - apply (trace_driven_after_2 (lima_repo, forks)).
Qed.

(** The same, when the forks endpoint answers with an error status. *)
Lemma main_stops_at_forks (w : World) r (lima_repo : Repo) r' :
  String.eqb GITHUB_TOKEN "" = false ->
  search_service (n_requests (trace w))
    (search_request GITHUB_TOKEN query 1) = Answer r ->
  status_code r = 403 \/ status_code r = 422 ->
  describes (repo_service (S (n_requests (trace w)))
               (repo_request GITHUB_TOKEN "lima-vm" "lima")) lima_repo ->
  forks_service (S (S (n_requests (trace w))))
    (forks_request GITHUB_TOKEN "lima-vm" "lima" 1) = Answer r' ->
  is_error_status (status_code r') = true ->
  outcome_and_trace (the_main w)
  = (Uncaught (LibraryError (HTTPError (status_code r'))),
     trace w ++ first_requests).
Proof.
  intros Htoken Hreply Hstatus
    (Hrepo & (repo_forks & Hforks_count) & (repo_stars & Hstars))
    Hforks Herr.
  rewrite (main_after_1 w r Htoken Hreply Hstatus).
  rewrite (then_uncaught _ _ _ (LibraryError (HTTPError (status_code r')))
             ((trace w ++ [Get (search_request GITHUB_TOKEN query 1)])
                ++ [Get (repo_request GITHUB_TOKEN "lima-vm" "lima");
                    Get (forks_request GITHUB_TOKEN "lima-vm" "lima" 1)])).
  - rewrite <- app_assoc. reflexivity.
  - apply (experiment_2_forks_error
             (at_trace (trace w ++ [Get (search_request GITHUB_TOKEN query 1)]))
             lima_repo repo_forks repo_stars r');
      unfold at_trace; cbn [trace]; rewrite ?n_requests_snoc_get; assumption.
Qed.

(** Once experiment 3 is over, [main] prints and asks for the rate
    limit. *)
Lemma main_ending (w : World) (lima_repo : Repo) (forks : list Repo)
    (t : list Event) :
  outcome_and_trace (experiment_3 GITHUB_TOKEN search_service forks w)
  = (Value tt, t) ->
  (exists repo_stars, stargazers_count lima_repo = Some repo_stars) ->
  Forall complete_fork forks ->
  reports_core (rate_service (n_requests t)
                  (rate_limit_request GITHUB_TOKEN)) ->
  outcome_and_trace
    ((experiment_3 GITHUB_TOKEN search_service forks ;;;
      experiment_4 lima_repo forks ;;;
      conclusion GITHUB_TOKEN rate_service lima_repo) w)
  = (Value tt, t ++ [Get (rate_limit_request GITHUB_TOKEN)]).
Proof.
  intros Hrun (repo_stars & Hstars) Hall
    (limits & all & core_limit & core_remaining & Hrate & Hres & Hcore
     & Hrem).
  rewrite (then_value _ _ _ tt t Hrun).
  - destruct (then_quiet (experiment_4 lima_repo forks)
                (conclusion GITHUB_TOKEN rate_service lima_repo)
                (at_trace t)
                (quiet_experiment_4 lima_repo repo_stars forks Hstars Hall))
      as (out & E).
    rewrite E.
    apply (conclusion_run (mkWorld (trace (at_trace t)) out) lima_repo
             repo_stars limits all core_limit core_remaining Hstars Hrate
             Hres Hcore Hrem).
  - apply trace_driven_then; [apply trace_driven_experiment_4|]. intros _.
    apply trace_driven_conclusion.
Qed.

End Blocks.

(** ** [main] of the fork investigation *)

(** X19.  Without a token, [main] of the fork investigation only
    prints: it returns normally and sends no request. *)
Theorem fork_main_without_token
    (search_service : Service (SearchBody ExperimentSearchStats.Item))
    (repo_service : Service Repo) (forks_service : Service (list Repo))
    (rate_service : Service RateLimit) (w : World) :
  outcome_and_trace
    (ExperimentForkMain.main "" search_service repo_service forks_service
       rate_service w)
  = (Value tt, trace w).
Proof.
  unfold ExperimentForkMain.main.
  destruct (then_quiet ExperimentForkMain.banner
              (if String.eqb "" "" then say "ERROR: GITHUB_TOKEN not set"
               else
                 experiment_1 "" search_service ;;;
                 (found <~ experiment_2 "" repo_service forks_service ;;
                  let '(lima_repo, forks) := found in
                  experiment_3 "" search_service forks ;;;
                  experiment_4 lima_repo forks ;;;
                  conclusion "" rate_service lima_repo))
              w quiet_fork_banner) as (out & E).
  rewrite E. reflexivity.
Qed.

(** X20.  The order of the requests of [main] when the forks are listed.
    With a token, a first search refused at once (403 or 422), a
    readable repository and a short page of forks that starts with
    [top_fork], [main] searches in [top_fork] with the query built from
    its owner's login and its name; when that search is refused too and
    the rate limit is readable, [main] returns normally after exactly
    five requests: search, repository, forks, search in the top fork,
    rate limit. *)
Theorem fork_main_request_order (GITHUB_TOKEN : string)
    (search_service : Service (SearchBody ExperimentSearchStats.Item))
    (repo_service : Service Repo) (forks_service : Service (list Repo))
    (rate_service : Service RateLimit) (w : World)
    (r1 r3 : Response (SearchBody ExperimentSearchStats.Item))
    (lima_repo top_fork : Repo) (rest : list Repo) (fork_search : string) :
  let n := n_requests (trace w) in
  String.eqb GITHUB_TOKEN "" = false ->
  search_service n (search_request GITHUB_TOKEN query 1) = Answer r1 ->
  status_code r1 = 403 \/ status_code r1 = 422 ->
  describes (repo_service (S n) (repo_request GITHUB_TOKEN "lima-vm" "lima"))
    lima_repo ->
  lists (forks_service (S (S n))
           (forks_request GITHUB_TOKEN "lima-vm" "lima" 1))
    (top_fork :: rest) ->
  top_fork_query top_fork = Some fork_search ->
  search_service (S (S (S n))) (search_request GITHUB_TOKEN fork_search 1)
  = Answer r3 ->
  status_code r3 = 403 \/ status_code r3 = 422 ->
  reports_core (rate_service (S (S (S (S n))))
                  (rate_limit_request GITHUB_TOKEN)) ->
  outcome_and_trace
    (ExperimentForkMain.main GITHUB_TOKEN search_service repo_service
       forks_service rate_service w)
  = (Value tt,
     trace w ++ [Get (search_request GITHUB_TOKEN query 1);
                 Get (repo_request GITHUB_TOKEN "lima-vm" "lima");
                 Get (forks_request GITHUB_TOKEN "lima-vm" "lima" 1);
                 Get (search_request GITHUB_TOKEN fork_search 1);
                 Get (rate_limit_request GITHUB_TOKEN)]).
Proof.
  intros n Htoken Hreply1 Hstatus1 Hrepo Hforks Hquery Hreply3 Hstatus3
    Hrate.
  rewrite (main_after_2 GITHUB_TOKEN search_service repo_service
             forks_service rate_service w r1 lima_repo (top_fork :: rest)
             Htoken Hreply1 Hstatus1 Hrepo Hforks).
  assert (Hn : n_requests
                 (trace w
                  ++ [Get (search_request GITHUB_TOKEN query 1);
                      Get (repo_request GITHUB_TOKEN "lima-vm" "lima");
                      Get (forks_request GITHUB_TOKEN "lima-vm" "lima" 1)])
               = S (S (S n))).
  { rewrite n_requests_app. subst n.
    change (n_requests
              [Get (search_request GITHUB_TOKEN query 1);
               Get (repo_request GITHUB_TOKEN "lima-vm" "lima");
               Get (forks_request GITHUB_TOKEN "lima-vm" "lima" 1)])
      with 3%nat.
    lia. }
  destruct Hrepo as (_ & _ & Hstars). destruct Hforks as (_ & _ & Hall).
  rewrite (main_ending GITHUB_TOKEN search_service rate_service _ lima_repo
             (top_fork :: rest)
             ((trace w
               ++ [Get (search_request GITHUB_TOKEN query 1);
                   Get (repo_request GITHUB_TOKEN "lima-vm" "lima");
                   Get (forks_request GITHUB_TOKEN "lima-vm" "lima" 1)])
              ++ [Get (search_request GITHUB_TOKEN fork_search 1)])).
  - rewrite <- !app_assoc. reflexivity.
  - apply (experiment_3_refused GITHUB_TOKEN search_service
             (at_trace
                (trace w
                 ++ [Get (search_request GITHUB_TOKEN query 1);
                     Get (repo_request GITHUB_TOKEN "lima-vm" "lima");
                     Get (forks_request GITHUB_TOKEN "lima-vm" "lima" 1)]))
             top_fork rest fork_search r3).
    + inversion Hall; assumption.
    + exact Hquery.
    + unfold at_trace. cbn [trace]. rewrite Hn. exact Hreply3.
    + exact Hstatus3.
  - exact Hstars.
  - exact Hall.
  - rewrite n_requests_snoc_get, Hn. exact Hrate.
Qed.

Lemma fork_main_request_order_witness :
  let lima_repo :=
    mkRepo (Some "lima-vm/lima") (Some "lima") (Some (ExperimentSearchStats.mkOwner (Some "lima-vm")))
           (Some 15000) (Some 600) (Some "2025-01-01T00:00:00Z") in
  let top_fork :=
    mkRepo (Some "annie444/lima") (Some "lima")
           (Some (ExperimentSearchStats.mkOwner (Some "annie444"))) (Some 3) (Some 0)
           (Some "2024-06-01T00:00:00Z") in
  let limits :=
    mkRateLimit
      (Some (mkResources (Some (mkLimit (Some 4990) None None)) None)) in
  let search_service : Service (SearchBody ExperimentSearchStats.Item) :=
    scripted [status_only 403; Failed; Failed; status_only 422] in
  let repo_service : Service Repo :=
    scripted [Failed; Answer (mkResponse 200 (Some lima_repo))] in
  let forks_service : Service (list Repo) :=
    scripted [Failed; Failed; Answer (mkResponse 200 (Some [top_fork]))] in
  let rate_service : Service RateLimit :=
    scripted [Failed; Failed; Failed; Failed;
              Answer (mkResponse 200 (Some limits))] in
  outcome_and_trace
    (ExperimentForkMain.main "token" search_service repo_service
       forks_service rate_service World0)
  = (Value tt,
     [Get (search_request "token" query 1);
      Get (repo_request "token" "lima-vm" "lima");
      Get (forks_request "token" "lima-vm" "lima" 1);
      Get (search_request "token"
             "minimumLimaVersion extension:yml repo:annie444/lima" 1);
      Get (rate_limit_request "token")]).
Proof.
  intros lima_repo top_fork limits search_service repo_service forks_service
    rate_service.
  refine (fork_main_request_order "token" search_service repo_service
            forks_service rate_service World0
            (mkResponse 403 None) (mkResponse 422 None)
            lima_repo top_fork []
            "minimumLimaVersion extension:yml repo:annie444/lima"
            _ _ _ _ _ _ _ _ _).
  - reflexivity.
  - reflexivity.
  - left. reflexivity.
  - split; [|split].
    + eexists. split; [reflexivity|]. split; reflexivity.
    + eexists. reflexivity.
    + eexists. reflexivity.
  - split; [|split].
    + eexists. split; [reflexivity|]. split; reflexivity.
    + reflexivity.
    + constructor; [|constructor].
      do 6 eexists. split; [reflexivity|]. split; [reflexivity|].
      split; [reflexivity|]. split; [reflexivity|]. split; reflexivity.
  - reflexivity.
  - reflexivity.
  - right. reflexivity.
  - exists limits. do 3 eexists. split.
    + eexists. split; [reflexivity|]. split; reflexivity.
    + split; [reflexivity|]. split; reflexivity.
Defined.

(** X21.  When the repository has no fork, [main] skips the search in a
    fork: in the setting of X20 with an empty page of forks, [main]
    returns normally after exactly four requests: search, repository,
    forks, rate limit. *)
Theorem fork_main_without_forks (GITHUB_TOKEN : string)
    (search_service : Service (SearchBody ExperimentSearchStats.Item))
    (repo_service : Service Repo) (forks_service : Service (list Repo))
    (rate_service : Service RateLimit) (w : World)
    (r1 : Response (SearchBody ExperimentSearchStats.Item))
    (lima_repo : Repo) :
  let n := n_requests (trace w) in
  String.eqb GITHUB_TOKEN "" = false ->
  search_service n (search_request GITHUB_TOKEN query 1) = Answer r1 ->
  status_code r1 = 403 \/ status_code r1 = 422 ->
  describes (repo_service (S n) (repo_request GITHUB_TOKEN "lima-vm" "lima"))
    lima_repo ->
  fetched (forks_service (S (S n))
             (forks_request GITHUB_TOKEN "lima-vm" "lima" 1)) [] ->
  reports_core (rate_service (S (S (S n)))
                  (rate_limit_request GITHUB_TOKEN)) ->
  outcome_and_trace
    (ExperimentForkMain.main GITHUB_TOKEN search_service repo_service
       forks_service rate_service w)
  = (Value tt,
     trace w ++ [Get (search_request GITHUB_TOKEN query 1);
                 Get (repo_request GITHUB_TOKEN "lima-vm" "lima");
                 Get (forks_request GITHUB_TOKEN "lima-vm" "lima" 1);
                 Get (rate_limit_request GITHUB_TOKEN)]).
Proof.
  intros n Htoken Hreply1 Hstatus1 Hrepo Hforks Hrate.
  assert (Hlists : lists (forks_service (S (S n))
                            (forks_request GITHUB_TOKEN "lima-vm" "lima" 1))
                     []).
  { split; [exact Hforks|]. split; [reflexivity | constructor]. }
  rewrite (main_after_2 GITHUB_TOKEN search_service repo_service
             forks_service rate_service w r1 lima_repo []
             Htoken Hreply1 Hstatus1 Hrepo Hlists).
  assert (Hn : n_requests
                 (trace w
                  ++ [Get (search_request GITHUB_TOKEN query 1);
                      Get (repo_request GITHUB_TOKEN "lima-vm" "lima");
                      Get (forks_request GITHUB_TOKEN "lima-vm" "lima" 1)])
               = S (S (S n))).
  { rewrite n_requests_app. subst n.
    change (n_requests
              [Get (search_request GITHUB_TOKEN query 1);
               Get (repo_request GITHUB_TOKEN "lima-vm" "lima");
               Get (forks_request GITHUB_TOKEN "lima-vm" "lima" 1)])
      with 3%nat.
    lia. }
  destruct Hrepo as (_ & _ & Hstars).
  rewrite (main_ending GITHUB_TOKEN search_service rate_service _ lima_repo
             []
             (trace w
              ++ [Get (search_request GITHUB_TOKEN query 1);
                  Get (repo_request GITHUB_TOKEN "lima-vm" "lima");
                  Get (forks_request GITHUB_TOKEN "lima-vm" "lima" 1)])).
  - rewrite <- !app_assoc. reflexivity.
  - reflexivity.
  - exact Hstars.
  - constructor.
  - rewrite Hn. exact Hrate.
Qed.

Lemma fork_main_without_forks_witness :
  let lima_repo :=
    mkRepo (Some "lima-vm/lima") (Some "lima") (Some (ExperimentSearchStats.mkOwner (Some "lima-vm")))
           (Some 15000) (Some 0) (Some "2025-01-01T00:00:00Z") in
  let limits :=
    mkRateLimit
      (Some (mkResources (Some (mkLimit (Some 4990) None None)) None)) in
  let search_service : Service (SearchBody ExperimentSearchStats.Item) :=
    scripted [status_only 422] in
  let repo_service : Service Repo :=
    scripted [Failed; Answer (mkResponse 200 (Some lima_repo))] in
  let forks_service : Service (list Repo) :=
    scripted [Failed; Failed; Answer (mkResponse 200 (Some []))] in
  let rate_service : Service RateLimit :=
    scripted [Failed; Failed; Failed; Answer (mkResponse 200 (Some limits))] in
  outcome_and_trace
    (ExperimentForkMain.main "token" search_service repo_service
       forks_service rate_service World0)
  = (Value tt,
     [Get (search_request "token" query 1);
      Get (repo_request "token" "lima-vm" "lima");
      Get (forks_request "token" "lima-vm" "lima" 1);
      Get (rate_limit_request "token")]).
Proof.
  intros lima_repo limits search_service repo_service forks_service
    rate_service.
  refine (fork_main_without_forks "token" search_service repo_service
            forks_service rate_service World0
            (mkResponse 422 None) lima_repo _ _ _ _ _ _).
  - reflexivity.
  - reflexivity.
  - right. reflexivity.
  - split; [|split].
    + eexists. split; [reflexivity|]. split; reflexivity.
    + eexists. reflexivity.
    + eexists. reflexivity.
  - eexists. split; [reflexivity|]. split; reflexivity.
  - exists limits. do 3 eexists. split.
    + eexists. split; [reflexivity|]. split; reflexivity.
    + split; [reflexivity|]. split; reflexivity.
Defined.

(** X22.  Only the searches are guarded.  A 403 or 422 on the first
    search lets [main] go on, but an error status (400 to 599, 403
    included) on the listing of the forks is raised by [list_forks] and
    nothing catches it: [main] ends with that [HTTPError] after three
    requests, and neither searches in a fork nor asks for the rate
    limit. *)
Theorem fork_main_forks_error_uncaught (GITHUB_TOKEN : string)
    (search_service : Service (SearchBody ExperimentSearchStats.Item))
    (repo_service : Service Repo) (forks_service : Service (list Repo))
    (rate_service : Service RateLimit) (w : World)
    (r1 : Response (SearchBody ExperimentSearchStats.Item))
    (lima_repo : Repo) (r2 : Response (list Repo)) :
  let n := n_requests (trace w) in
  String.eqb GITHUB_TOKEN "" = false ->
  search_service n (search_request GITHUB_TOKEN query 1) = Answer r1 ->
  status_code r1 = 403 \/ status_code r1 = 422 ->
  describes (repo_service (S n) (repo_request GITHUB_TOKEN "lima-vm" "lima"))
    lima_repo ->
  forks_service (S (S n)) (forks_request GITHUB_TOKEN "lima-vm" "lima" 1)
  = Answer r2 ->
  is_error_status (status_code r2) = true ->
  outcome_and_trace
    (ExperimentForkMain.main GITHUB_TOKEN search_service repo_service
       forks_service rate_service w)
  = (Uncaught (LibraryError (HTTPError (status_code r2))),
     trace w ++ [Get (search_request GITHUB_TOKEN query 1);
                 Get (repo_request GITHUB_TOKEN "lima-vm" "lima");
                 Get (forks_request GITHUB_TOKEN "lima-vm" "lima" 1)]).
Proof.
  intros n Htoken Hreply1 Hstatus1 Hrepo Hreply2 Herr.
  apply (main_stops_at_forks GITHUB_TOKEN search_service repo_service
           forks_service rate_service w r1 lima_repo r2
           Htoken Hreply1 Hstatus1 Hrepo Hreply2 Herr).
Qed.

Lemma fork_main_forks_error_uncaught_witness :
  let lima_repo :=
    mkRepo (Some "lima-vm/lima") (Some "lima") (Some (ExperimentSearchStats.mkOwner (Some "lima-vm")))
           (Some 15000) (Some 600) (Some "2025-01-01T00:00:00Z") in
  let search_service : Service (SearchBody ExperimentSearchStats.Item) :=
    scripted [status_only 403] in
  let repo_service : Service Repo :=
    scripted [Failed; Answer (mkResponse 200 (Some lima_repo))] in
  let forks_service : Service (list Repo) :=
    scripted [Failed; Failed; status_only 403] in
  outcome_and_trace
    (ExperimentForkMain.main "token" search_service repo_service
       forks_service (scripted []) World0)
  = (Uncaught (LibraryError (HTTPError 403)),
     [Get (search_request "token" query 1);
      Get (repo_request "token" "lima-vm" "lima");
      Get (forks_request "token" "lima-vm" "lima" 1)]).
Proof.
  intros lima_repo search_service repo_service forks_service.
  refine (fork_main_forks_error_uncaught "token" search_service repo_service
            forks_service (scripted []) World0
            (mkResponse 403 None) lima_repo (mkResponse 403 None)
            _ _ _ _ _ _).
  - reflexivity.
  - reflexivity.
  - left. reflexivity.
  - split; [|split].
    + eexists. split; [reflexivity|]. split; reflexivity.
    + eexists. reflexivity.
    + eexists. reflexivity.
  - reflexivity.
  - reflexivity.
Defined.

End ForkMainFacts.
